(** * The fetch / backup / verify / restore pipeline of [scripts/fetch_data.py]

    A shallow embedding of the data-monitoring script.

    - The dataset directory [data/] and the backup directory [data-backup/]
      are finite maps from entry names to regular files (their bytes) or
      sub-directories; either directory may be missing.  Both paths, when
      they exist, are directories; links, permissions and time stamps are
      not modelled.
    - The network is an oracle that answers the requests of the run in the
      order they are issued; every request is logged.
    - A Python exception is a value of [exn]; computations are functions
      from the state of the world to a result and a new state, so that what
      a function did before raising stays done.
    - What the script gets from its libraries ([hashlib], [json], [bs4],
      [urllib.parse], [requests], [repr], [int] on strings) is the interface
      [PyLibs]; every theorem holds for all its implementations.
    - Strings are byte strings; [str.lower] is the ASCII one.  What the
      script prints is not modelled. *)

From Stdlib Require Import ZArith String Ascii SpecFloat DecimalString.
From stdpp Require Import base option gmap strings list.

Set Warnings "-register-all".
Local Open Scope string_scope.
Local Open Scope Z_scope.
Local Open Scope list_scope.

(** ** Python values *)

(** The values [json.load] and [Response.json] produce.  A dict is an
    association list in insertion order. *)
Inductive json :=
| JNull
| JBool (b : bool)
| JInt (n : Z)
| JFloat (f : spec_float)
| JStr (s : string)
| JArr (l : list json)
| JObj (d : list (string * json)).

(** [d.get(k)] and [d[k] = v] on the entries of a dict: an assignment to a key
    already present keeps the key's position. *)
Fixpoint dict_get {A} (k : string) (d : list (string * A)) : option A :=
  match d with
  | [] => None
  | (k', v) :: r => if String.eqb k k' then Some v else dict_get k r
  end.

Fixpoint dict_set {A} (k : string) (v : A) (d : list (string * A)) : list (string * A) :=
  match d with
  | [] => [(k, v)]
  | (k', v') :: r => if String.eqb k k' then (k, v) :: r else (k', v') :: dict_set k v r
  end.

(** The exceptions the script can meet.  The four kinds that [main] catches
    carry the text [str(e)] yields. *)
Inductive exn :=
| RequestException (msg : string)
| HTTPError (msg : string)
| JSONDecodeError (msg : string)
| ValueError (msg : string)
| KeyError
| IndexError
| TypeError
| OverflowError
| AttributeError
| FileNotFoundError
| IsADirectoryError
| SystemExit (code : Z).

Inductive result (A : Type) :=
| Ok (a : A)
| Raise (e : exn).
Arguments Ok {A} a.
Arguments Raise {A} e.

(** Truth value of a Python object, as [if v] and [not v] test it. *)
Definition truthy (v : json) : bool :=
  match v with
  | JNull => false
  | JBool b => b
  | JInt n => negb (n =? 0)
  | JFloat (S754_zero _) => false
  | JFloat _ => true
  | JStr s => negb (String.eqb s "")
  | JArr l => match l with [] => false | _ => true end
  | JObj d => match d with [] => false | _ => true end
  end.

(** [v[0]]: a JSON dict has string keys only, so the key [0] is never there. *)
Definition getitem_0 (v : json) : result json :=
  match v with
  | JArr (x :: _) => Ok x
  | JArr [] => Raise IndexError
  | JStr (String c _) => Ok (JStr (String c ""))
  | JStr "" => Raise IndexError
  | JObj _ => Raise KeyError
  | _ => Raise TypeError
  end.

(** [v[k]] for a string [k]. *)
Definition getitem (k : string) (v : json) : result json :=
  match v with
  | JObj d => match dict_get k d with Some x => Ok x | None => Raise KeyError end
  | _ => Raise TypeError
  end.

(** [v.get(k, dflt)]: only dicts have the method. *)
Definition py_get (k : string) (dflt : json) (v : json) : result json :=
  match v with
  | JObj d => Ok (default dflt (dict_get k d))
  | _ => Raise AttributeError
  end.

(** [len(v)]. *)
Definition py_len (v : json) : result Z :=
  match v with
  | JArr l => Ok (Z.of_nat (length l))
  | JObj d => Ok (Z.of_nat (length d))
  | JStr s => Ok (Z.of_nat (String.length s))
  | _ => Raise TypeError
  end.

(** [v != s] for a string [s]: a value that is not a string is never equal
    to one. *)
Definition ne_str (v : json) (s : string) : bool :=
  match v with
  | JStr s' => negb (String.eqb s' s)
  | _ => true
  end.

(** [str(n)] for an integer. *)
Definition str_of_int (n : Z) : string := NilZero.string_of_int (Z.to_int n).

(** [int(f)] for a float: truncation towards zero. *)
Definition int_of_float (f : spec_float) : result Z :=
  match f with
  | S754_zero _ => Ok 0
  | S754_infinity _ => Raise OverflowError
  | S754_nan => Raise (ValueError "cannot convert float NaN to integer")
  | S754_finite s m e =>
      let a := if 0 <=? e then Z.pos m * 2 ^ e else Z.pos m / 2 ^ (- e) in
      Ok (if s then - a else a)
  end.

(** ASCII lower-casing and [str.endswith]. *)
Definition lower_ascii (c : ascii) : ascii :=
  let n := nat_of_ascii c in
  if (Nat.leb 65 n && Nat.leb n 90)%bool then ascii_of_nat (n + 32) else c.

Fixpoint lower (s : string) : string :=
  match s with
  | EmptyString => EmptyString
  | String c r => String (lower_ascii c) (lower r)
  end.

Definition endswith (s suffix : string) : bool :=
  let n := String.length s in
  let k := String.length suffix in
  (Nat.leb k n && String.eqb (String.substring (n - k) k s) suffix)%bool.

(** ** The libraries *)

Record request := Request {
  req_url : string;
  req_headers : list (string * string);
  req_timeout : Z }.

(** What the script reads of a [requests.Response]: the status, the decoded
    text, the raw body, and what [.json()] returns ([inl msg] when it raises a
    JSON decode error whose text is [msg]). *)
Record response := Response {
  status_code : Z;
  text : string;
  content : string;
  json_body : string + json }.

(** [requests.get] either raises a [RequestException] (no connection, a
    timeout, an unusable URL) or returns a response. *)
Inductive reply :=
| ConnFail (msg : string)
| Reply (r : response).

(** The library functions the script relies on and that are not modelled
    further.  [json_loads], [int_of_str] and [urlparse_path] return [inl msg]
    when the Python function raises (a decode error for the first, a
    [ValueError] for the other two). *)
Record PyLibs := {
  md5_hexdigest : string -> string;
  json_loads : string -> string + json;
  json_dumps : json -> string;
  int_of_str : string -> string + Z;
  http_error_msg : string -> response -> string;
  find_all_a_href : string -> list string;
  urlparse_path : string -> string + string;
  urljoin : string -> string -> string;
  repr_str_list : list string -> string }.

(** [int(v)]. *)
Definition py_int (L : PyLibs) (v : json) : result Z :=
  match v with
  | JInt n => Ok n
  | JBool b => Ok (if b then 1 else 0)
  | JFloat f => int_of_float f
  | JStr s => match int_of_str L s with inr n => Ok n | inl msg => Raise (ValueError msg) end
  | _ => Raise TypeError
  end.

(** ** The file system and the run state *)

Inductive node :=
| File (bytes : string)
| Dir (children : gmap string node).

(** [data_dir] is [scripts/../data], [backup_dir] is [scripts/../data-backup];
    [None] when the directory does not exist.  [sent] is the log of the
    requests issued so far, oldest first. *)
Record world := World {
  data_dir : option (gmap string node);
  backup_dir : option (gmap string node);
  sent : list request }.

Definition set_data (d : option (gmap string node)) (w : world) : world :=
  World d (backup_dir w) (sent w).
Definition set_backup (b : option (gmap string node)) (w : world) : world :=
  World (data_dir w) b (sent w).

(** The entry called [name] of the dataset directory. *)
Definition data_entry (w : world) (name : string) : option node :=
  d ← data_dir w; d !! name.

(** ** The monad: state that survives an exception *)

Definition M (A : Type) : Type := world -> result A * world.

Definition ret {A} (a : A) : M A := fun w => (Ok a, w).
Definition raise {A} (e : exn) : M A := fun w => (Raise e, w).
Definition bind {A B} (c : M A) (k : A -> M B) : M B :=
  fun w => match c w with
           | (Ok a, w') => k a w'
           | (Raise e, w') => (Raise e, w')
           end.
Definition lift {A} (r : result A) : M A := fun w => (r, w).

Notation "x <- c ;; k" := (bind c (fun x => k))
  (at level 100, c at next level, right associativity).
Notation "c ;;; k" := (bind c (fun _ => k))
  (at level 100, right associativity).

(** [try: body except ...:] where [handler e] is the clause that catches
    [e], if any.  What [body] did to the world before raising stays done. *)
Definition try_except {A} (body : M A) (handler : exn -> option (M A)) : M A :=
  fun w => match body w with
           | (Ok a, w') => (Ok a, w')
           | (Raise e, w') =>
               match handler e with
               | Some h => h w'
               | None => (Raise e, w')
               end
           end.

(** ** Files *)

(** [open(path, "rb").read()] for an entry of the dataset directory. *)
Definition read_file (name : string) : M string :=
  fun w => match data_entry w name with
           | Some (File b) => (Ok b, w)
           | Some (Dir _) => (Raise IsADirectoryError, w)
           | None => (Raise FileNotFoundError, w)
           end.

(** [open(path, "w")] followed by the write of [b]: the file is created or
    replaced; a directory of that name, or a missing dataset directory, makes
    [open] raise. *)
Definition write_file (name : string) (b : string) : M unit :=
  fun w => match data_dir w with
           | None => (Raise FileNotFoundError, w)
           | Some d =>
               match d !! name with
               | Some (Dir _) => (Raise IsADirectoryError, w)
               | _ => (Ok tt, set_data (Some (<[name := File b]> d)) w)
               end
           end.

(** [os.path.exists] for an entry of the dataset directory. *)
Definition path_exists (w : world) (name : string) : bool :=
  match data_entry w name with Some _ => true | None => false end.

(** [shutil.copy2(src, dst)] for a regular file [src] of contents [b] and
    [dst = DATA_DIR/name]: when [dst] is a directory the file goes inside it,
    under the same name. *)
Definition copy2 (b : string) (name : string) : M unit :=
  fun w => match data_dir w with
           | None => (Raise FileNotFoundError, w)
           | Some d =>
               match d !! name with
               | Some (Dir sub) =>
                   match sub !! name with
                   | Some (Dir _) => (Raise IsADirectoryError, w)
                   | _ => (Ok tt, set_data (Some (<[name := Dir (<[name := File b]> sub)]> d)) w)
                   end
               | _ => (Ok tt, set_data (Some (<[name := File b]> d)) w)
               end
           end.

(** [os.listdir]: the names of the entries, in some order. *)
Definition listdir (d : gmap string node) : list string := (map_to_list d).*1.

(** ** Constants of the script *)

Definition DATA_STATE_FILE : string := "data-state.json".

Definition DATA_FILES : list (string * string) :=
  [ ("socrata_90th", "socrata-90th-percentile.json");
    ("dsmi", "DSMI-Service-Line-Materials-Estimates.xlsx");
    ("lslr", "2024-2025-LSLR-Data.xlsx") ].

Definition SOURCE_NAMES : list (string * string) :=
  [ ("socrata_90th", "Socrata 90th Percentile API");
    ("dsmi", "DSMI Service Line Materials");
    ("lslr", "Lead & Copper Rule (LSLR)") ].

(** [table[key]] on one of the two constant dicts. *)
Definition const_item (key : string) (table : list (string * string)) : result string :=
  match dict_get key table with
  | Some v => Ok v
  | None => Raise KeyError
  end.

Section Pipeline.

Context (L : PyLibs).
(** [server n req] is the answer to [req] when it is the request number [n]
    (from 0) of the run. *)
Context (server : nat -> request -> reply).
(** [datetime.now().isoformat()] at the time of the check. *)
Context (now : string).

(** ** Hasher and state store *)

Definition get_file_hash (name : string) : M string :=
  b <- read_file name;;
  ret (md5_hexdigest L b).

Definition load_data_state : M json :=
  try_except
    (b <- read_file DATA_STATE_FILE;;
     match json_loads L b with
     | inr v => ret v
     | inl msg => raise (JSONDecodeError msg)
     end)
    (fun e => match e with
              | FileNotFoundError => Some (ret (JObj []))
              | _ => None
              end).

Definition save_data_state (state : json) : M unit :=
  write_file DATA_STATE_FILE (json_dumps L state).

(** ** Backup manager *)

Definition backup_data : M unit :=
  fun w =>
    let w1 := match backup_dir w with Some _ => set_backup None w | None => w end in
    let w2 := match data_dir w1 with Some d => set_backup (Some d) w1 | None => w1 end in
    (Ok tt, w2).

(** The loop of [restore_from_backup] over the names [os.listdir] gave. *)
Fixpoint restore_entries (bk : gmap string node) (names : list string) : M unit :=
  match names with
  | [] => ret tt
  | name :: rest =>
      match bk !! name with
      | Some (File b) => copy2 b name
      | _ => ret tt
      end;;;
      restore_entries bk rest
  end.

Definition restore_from_backup : M unit :=
  fun w => match backup_dir w with
           | None => (Ok tt, w)
           | Some bk => restore_entries bk (listdir bk) w
           end.

Definition clear_backup : M unit :=
  fun w => match backup_dir w with
           | Some _ => (Ok tt, set_backup None w)
           | None => (Ok tt, w)
           end.

(** ** Change detector *)

(** One iteration of the loop over [DATA_FILES.items()]; [st] holds the
    entries of [current_state["sources"]] and the [changes] list so far. *)
Definition detect_one (prev_state : json) (key filename : string)
    (st : list (string * json) * list json) : M (list (string * json) * list json) :=
  let '(sources, changes) := st in
  fun w =>
    if negb (path_exists w filename) then
      (Ok (dict_set key (JObj [("exists", JBool false)]) sources, changes), w)
    else
      (content_hash <- get_file_hash filename;;
       let sources := dict_set key (JObj [("exists", JBool true);
                                          ("content_hash", JStr content_hash);
                                          ("file", JStr filename)]) sources in
       prev_sources <- lift (py_get "sources" (JObj []) prev_state);;
       prev_source <- lift (py_get key (JObj []) prev_sources);;
       prev_hash <- lift (py_get "content_hash" JNull prev_source);;
       if (truthy prev_hash && ne_str prev_hash content_hash)%bool then
         ret (sources,
              changes ++ [JObj [("source", JStr (default key (dict_get key SOURCE_NAMES)));
                                ("type", JStr "Data content changed");
                                ("details", JStr ("File " +:+ filename +:+ " has been modified"));
                                ("file", JStr filename)]])
       else ret (sources, changes)) w.

Fixpoint detect_loop (prev_state : json) (files : list (string * string))
    (st : list (string * json) * list json) : M (list (string * json) * list json) :=
  match files with
  | [] => ret st
  | (key, filename) :: rest =>
      st' <- detect_one prev_state key filename st;;
      detect_loop prev_state rest st'
  end.

(** Returns the entries of [current_state] and the list [changes]. *)
Definition detect_data_changes : M (list (string * json) * list json) :=
  prev_state <- load_data_state;;
  st <- detect_loop prev_state DATA_FILES ([], []);;
  let '(sources, changes) := st in
  ret ([("sources", JObj sources); ("last_check", JStr now)], changes).

(** ** Source fetchers *)

(** [requests.get(url, headers=..., timeout=30)]: the request is logged and
    the oracle answers it. *)
Definition requests_get (url : string) (headers : list (string * string)) : M response :=
  fun w =>
    let req := Request url headers 30 in
    let w' := World (data_dir w) (backup_dir w) (sent w ++ [req]) in
    match server (length (sent w)) req with
    | ConnFail msg => (Raise (RequestException msg), w')
    | Reply r => (Ok r, w')
    end.

(** [Response.raise_for_status]: statuses 400 to 599 raise. *)
Definition raise_for_status (url : string) (r : response) : M unit :=
  if ((400 <=? status_code r) && (status_code r <? 600))%bool
  then raise (HTTPError (http_error_msg L url r))
  else ret tt.

(** [Response.json]. *)
Definition response_json (r : response) : M json :=
  match json_body r with
  | inr v => ret v
  | inl msg => raise (JSONDecodeError msg)
  end.

(** [int(count_data[0]["count"]) if count_data else 0]. *)
Definition record_count_of (count_data : json) : result Z :=
  if truthy count_data then
    match getitem_0 count_data with
    | Ok first =>
        match getitem "count" first with
        | Ok c => py_int L c
        | Raise e => Raise e
        end
    | Raise e => Raise e
    end
  else Ok 0.

Definition socrata_url : string := "https://data.michigan.gov/resource/39ya-9txc.json".

Definition fetch_socrata_api : M json :=
  let url := socrata_url in
  let count_url := url +:+ "?$select=count(*)" in
  count_resp <- requests_get count_url [];;
  raise_for_status count_url count_resp;;;
  count_data <- response_json count_resp;;
  record_count <- lift (record_count_of count_data);;
  let all_url := url +:+ "?$limit=" +:+ str_of_int record_count in
  all_resp <- requests_get all_url [];;
  raise_for_status all_url all_resp;;;
  response_json all_resp.

Definition _is_xlsx_href (href : string) : result bool :=
  match urlparse_path L href with
  | inr path => Ok (endswith (lower path) ".xlsx")
  | inl msg => Raise (ValueError msg)
  end.

(** The loop that fills [xlsx_links] from the [href] of each anchor. *)
Fixpoint collect_xlsx (hrefs : list string) (xlsx_links : list string) : result (list string) :=
  match hrefs with
  | [] => Ok xlsx_links
  | href :: rest =>
      match _is_xlsx_href href with
      | Ok true => collect_xlsx rest (xlsx_links ++ [href])
      | Ok false => collect_xlsx rest xlsx_links
      | Raise e => Raise e
      end
  end.

Definition user_agent : list (string * string) :=
  [("User-Agent", "Mozilla/5.0 (compatible; DataMonitor/1.0; +https://planetdetroit.org)")].

(** The body that [fetch_dsmi_inventories] and [fetch_lead_copper_rule]
    share line for line; they differ in the page, the name of the page in the
    two messages, and the target file. *)
Definition fetch_xlsx_from_page (page_url page_name filename : string) : M unit :=
  page_resp <- requests_get page_url user_agent;;
  raise_for_status page_url page_resp;;;
  xlsx_links <- lift (collect_xlsx (find_all_a_href L (text page_resp)) []);;
  match xlsx_links with
  | [] => raise (ValueError ("No xlsx file link found on " +:+ page_name))
  | [link] =>
      let xlsx_url := urljoin L page_url link in
      response <- requests_get xlsx_url [];;
      raise_for_status xlsx_url response;;;
      write_file filename (content response)
  | _ =>
      raise (ValueError ("Multiple xlsx links found on " +:+ page_name +:+ " ("
                         +:+ str_of_int (Z.of_nat (length xlsx_links))
                         +:+ "), skipping fetch: " +:+ repr_str_list L xlsx_links))
  end.

Definition dsmi_page_url : string :=
  "https://www.michigan.gov/egle/about/organization/drinking-water-and-environmental-health/community-water-supply/lead-and-copper-rule/dsmi-inventories".
Definition lslr_page_url : string :=
  "https://www.michigan.gov/egle/about/organization/drinking-water-and-environmental-health/community-water-supply/lead-and-copper-rule/lslr-progress".

Definition fetch_dsmi_inventories : M unit :=
  fetch_xlsx_from_page dsmi_page_url "DSMI inventories page"
                       "DSMI-Service-Line-Materials-Estimates.xlsx".

Definition fetch_lead_copper_rule : M unit :=
  fetch_xlsx_from_page lslr_page_url "LSLR progress page"
                       "2024-2025-LSLR-Data.xlsx".

(** ** Orchestrator *)

(** [except (requests.RequestException, json.JSONDecodeError) as e]: the text
    of [e] when the clause catches it.  [HTTPError] is a subclass of
    [RequestException]. *)
Definition caught_socrata (e : exn) : option string :=
  match e with
  | RequestException msg | HTTPError msg | JSONDecodeError msg => Some msg
  | _ => None
  end.

(** [except (requests.RequestException, json.JSONDecodeError, ValueError)]. *)
Definition caught_xlsx (e : exn) : option string :=
  match e with
  | RequestException msg | HTTPError msg | JSONDecodeError msg | ValueError msg => Some msg
  | _ => None
  end.

(** One [try: ... except ... as e: fetch_errors.append({...})] block of
    [main]; returns the list [fetch_errors] after the block. *)
Definition attempt (body : M unit) (caught : exn -> option string) (key : string)
    (fetch_errors : list json) : M (list json) :=
  try_except (body;;; ret fetch_errors)
    (fun e => match caught e with
              | Some msg =>
                  Some (name <- lift (const_item key SOURCE_NAMES);;
                        ret (fetch_errors ++ [JObj [("source", JStr key);
                                                    ("name", JStr name);
                                                    ("error", JStr msg)]]))
              | None => None
              end).

(** The body of the first [try]: fetch, report the number of records, write
    them to the source's file. *)
Definition socrata_block : M unit :=
  socrata_data <- fetch_socrata_api;;
  _ <- lift (py_len socrata_data);;
  socrata_path <- lift (const_item "socrata_90th" DATA_FILES);;
  write_file socrata_path (json_dumps L socrata_data).

(** The three fetches of [main], in order, from an empty [fetch_errors]. *)
Definition fetch_all : M (list json) :=
  fetch_errors <- attempt socrata_block caught_socrata "socrata_90th" [];;
  fetch_errors <- attempt fetch_dsmi_inventories caught_xlsx "dsmi" fetch_errors;;
  attempt fetch_lead_copper_rule caught_xlsx "lslr" fetch_errors.

Definition nonempty {A} (l : list A) : bool :=
  match l with [] => false | _ => true end.

(** [os.makedirs(DATA_DIR, exist_ok=True)]. *)
Definition makedirs_data : M unit :=
  fun w => match data_dir w with
           | Some _ => (Ok tt, w)
           | None => (Ok tt, set_data (Some ∅) w)
           end.

(** What [main] does once [fetch_errors] is known: restore on failure,
    detect changes, save the state, settle the backup, exit. *)
Definition conclude (fetch_errors : list json) : M unit :=
  (if nonempty fetch_errors then restore_from_backup else ret tt);;;
  st <- detect_data_changes;;
  let '(current_state, changes) := st in
  let current_state := dict_set "changes" (JArr changes) current_state in
  let current_state := dict_set "changes_count" (JInt (Z.of_nat (length changes))) current_state in
  let current_state := dict_set "fetch_success" (JBool (Nat.eqb (length fetch_errors) 0)) current_state in
  let current_state := dict_set "fetch_errors" (JArr fetch_errors) current_state in
  save_data_state (JObj current_state);;;
  (if nonempty changes then ret tt
   else if negb (nonempty fetch_errors) then clear_backup else ret tt);;;
  if nonempty fetch_errors then raise (SystemExit 1) else ret tt.

Definition main : M unit :=
  makedirs_data;;;
  backup_data;;;
  fetch_errors <- fetch_all;;
  conclude fetch_errors.

(** The exit status of the process for a result of [main]: an exception that
    reaches the top level ends the interpreter with status 1. *)
Definition exit_code (r : result unit) : Z :=
  match r with
  | Ok _ => 0
  | Raise (SystemExit code) => code
  | Raise _ => 1
  end.

End Pipeline.

(** ** Stand-ins for the libraries and the network, for the examples

    The functions the control flow depends on ([loads], [int], [urlparse],
    [urljoin], the [href]s of a page, [repr]) give what Python gives on the
    inputs the examples use.  The digest, the rendering of a value and the
    text of a connection error are simplified: the examples only need them
    to tell different contents apart. *)
Module Sample.

Fixpoint join (sep : string) (l : list string) : string :=
  match l with
  | [] => ""
  | [s] => s
  | s :: r => s +:+ sep +:+ join sep r
  end.

(** A compact rendering of a value; quotes are written as apostrophes. *)
Fixpoint show (v : json) : string :=
  match v with
  | JNull => "null"
  | JBool b => if b then "true" else "false"
  | JInt n => str_of_int n
  | JFloat _ => "float"
  | JStr s => "'" +:+ s +:+ "'"
  | JArr l => "[" +:+ join "," (List.map show l) +:+ "]"
  | JObj d =>
      "{" +:+ join "," (List.map (fun kv => "'" +:+ fst kv +:+ "':" +:+ show (snd kv)) d) +:+ "}"
  end.

(** A state of an earlier run in which the DSMI file had the digest [a]. *)
Definition earlier_state : json :=
  JObj [("sources",
         JObj [("dsmi", JObj [("exists", JBool true);
                              ("content_hash", JStr "a");
                              ("file", JStr "DSMI-Service-Line-Materials-Estimates.xlsx")])]);
        ("last_check", JStr "2025-01-01T00:00:00")].

(** Reads back the renderings of the two values the examples store; any other
    text is rejected. *)
Definition loads (s : string) : string + json :=
  match List.find (fun v => String.eqb (show v) s) [JObj []; earlier_state] with
  | Some v => inr v
  | None => inl "Expecting value: line 1 column 1 (char 0)"
  end.

(** Cuts [s] at the first occurrence of [c]. *)
Fixpoint before (c : ascii) (s : string) : string :=
  match s with
  | EmptyString => EmptyString
  | String a r => if Ascii.eqb a c then EmptyString else String a (before c r)
  end.

Fixpoint split_on (c : ascii) (cur : string) (s : string) : list string :=
  match s with
  | EmptyString => [cur]
  | String a r =>
      if Ascii.eqb a c then cur :: split_on c "" r
      else split_on c (cur +:+ String a "") r
  end.

(** A page is written as the [href]s of its anchors, separated by spaces. *)
Definition hrefs (page : string) : list string :=
  List.filter (fun s => negb (String.eqb s "")) (split_on " " "" page).

Definition libs : PyLibs := {|
  md5_hexdigest := fun b => "digest(" +:+ b +:+ ")";
  json_loads := loads;
  json_dumps := show;
  int_of_str := fun s =>
    match NilZero.int_of_string s with
    | Some n => inr (Z.of_int n)
    | None => inl "invalid literal for int() with base 10"
    end;
  http_error_msg := fun url r =>
    str_of_int (status_code r) +:+ " Server Error: Internal Server Error for url: " +:+ url;
  find_all_a_href := hrefs;
  urlparse_path := fun href => inr (before "?" href);
  urljoin := fun base href => "https://www.michigan.gov" +:+ href;
  repr_str_list := fun l => "[" +:+ join ", " (List.map (fun s => "'" +:+ s +:+ "'") l) +:+ "]"
|}.

Definition ok_json (v : json) : reply := Reply (Response 200 "" "" (inr v)).
Definition ok_page (page : string) : reply := Reply (Response 200 page page (inl "Expecting value")).
Definition status (code : Z) : reply := Reply (Response code "" "" (inl "Expecting value")).

(** All three sources answer: two records, and one spreadsheet link on each
    page. *)
Definition server_up (n : nat) (req : request) : reply :=
  match n with
  | 0%nat => ok_json (JArr [JObj [("count", JStr "2")]])
  | 1%nat => ok_json (JArr [JObj [("pwsid", JStr "MI1")]; JObj [("pwsid", JStr "MI2")]])
  | 2%nat => ok_page "/about /files/dsmi.xlsx?rev=4"
  | 3%nat => ok_page "dsmi-bytes"
  | 4%nat => ok_page "/files/LSLR.XLSX"
  | _ => ok_page "lslr-bytes"
  end.

(** As [server_up], but the download of the second spreadsheet answers 500. *)
Definition server_500 (n : nat) (req : request) : reply :=
  match n with
  | 5%nat => status 500
  | _ => server_up n req
  end.

(** Nothing can be reached. *)
Definition server_down (n : nat) (req : request) : reply := ConnFail "Connection refused".

Definition dsmi_file : string := "DSMI-Service-Line-Materials-Estimates.xlsx".

(** A dataset directory left by an earlier run, with a sub-directory. *)
Definition data0 : gmap string node :=
  {[ DATA_STATE_FILE := File (show earlier_state);
     dsmi_file := File "old-dsmi-bytes";
     "archive" := Dir {[ "2023.xlsx" := File "x" ]} ]}.

Definition world0 : world := World (Some data0) None [].

(** The count query is answered by an error object instead of a list. *)
Definition server_odd (n : nat) (req : request) : reply :=
  match n with
  | 0%nat => ok_json (JObj [("message", JStr "Invalid SoQL query")])
  | _ => server_up n req
  end.

(** The landing page of the first spreadsheet source carries two spreadsheet
    links. *)
Definition server_two_links (n : nat) (req : request) : reply :=
  match n with
  | 2%nat => ok_page "/files/a.xlsx /about /files/b.XLSX?rev=2"
  | _ => server_up n req
  end.

(** The state file of the earlier run is not JSON. *)
Definition corrupt_world : world :=
  World (Some {[ DATA_STATE_FILE := File "not json" ]}) None [].

(** A backup with a regular file and a sub-directory, next to a dataset
    directory in which both names are regular files. *)
Definition restore_world : world :=
  World (Some {[ "a.xlsx" := File "new"; "archive" := File "note" ]})
        (Some {[ "a.xlsx" := File "old"; "archive" := Dir {[ "2023.xlsx" := File "x" ]} ]})
        [].

Definition now0 : string := "2026-01-01T00:00:00".

(** The value of a result that is known to be [Ok]. *)
Definition ok_of {A} (dflt : A) (r : result A) : A :=
  match r with
  | Ok a => a
  | Raise _ => dflt
  end.

End Sample.

(** * Vocabulary of the properties *)

Definition is_dir (o : option node) : bool :=
  match o with Some (Dir _) => true | _ => false end.

(** The files of the sources. *)
Definition target_files : list string := List.map snd DATA_FILES.

(** [overwritten o o']: the directory [o'] is [o] where some files of the
    sources, none of which was a sub-directory, have been created or
    replaced by files. *)
Definition overwritten (o o' : option (gmap string node)) : Prop :=
  match o, o' with
  | Some d, Some d' =>
      forall n, d' !! n = d !! n \/
                (In n target_files /\ (exists b, d' !! n = Some (File b)) /\
                 is_dir (d !! n) = false)
  | None, None => True
  | _, _ => False
  end.

(** [fetch_step w w']: a fetcher took [w] to [w']. *)
Definition fetch_step (w w' : world) : Prop :=
  backup_dir w' = backup_dir w /\ overwritten (data_dir w) (data_dir w') /\
  exists reqs, sent w' = sent w ++ reqs.

(** The record [main] appends to [fetch_errors]. *)
Definition fetch_error (key name msg : string) : json :=
  JObj [("source", JStr key); ("name", JStr name); ("error", JStr msg)].


(** The content hash the current run computes for a source: the digest of its
    file, when the file is there. *)
Definition current_hash (L : PyLibs) (w : world) (filename : string) : option string :=
  match data_entry w filename with
  | Some (File b) => Some (md5_hexdigest L b)
  | _ => None
  end.

(** The content hash the previous state carries for a source: the value under
    [sources -> key -> content_hash], when it is there and is not empty. *)
Definition previous_hash (prev_state : json) (key : string) : option json :=
  match prev_state with
  | JObj st =>
      match dict_get "sources" st with
      | Some (JObj sources) =>
          match dict_get key sources with
          | Some (JObj record) =>
              match dict_get "content_hash" record with
              | Some h => if truthy h then Some h else None
              | None => None
              end
          | _ => None
          end
      | _ => None
      end
  | _ => None
  end.

(** Both states carry a hash for the source and the two differ. *)
Definition content_changed (L : PyLibs) (w : world) (prev_state : json)
    (key filename : string) : bool :=
  match previous_hash prev_state key, current_hash L w filename with
  | Some old, Some new => ne_str old new
  | _, _ => false
  end.

(** The ChangeEvent of a source. *)
Definition change_event (key filename : string) : json :=
  JObj [("source", JStr (default key (dict_get key SOURCE_NAMES)));
        ("type", JStr "Data content changed");
        ("details", JStr ("File " +:+ filename +:+ " has been modified"));
        ("file", JStr filename)].


(** The entry called [name] of the backup directory. *)
Definition backup_entry (w : world) (name : string) : option node :=
  d ← backup_dir w; d !! name.

(** The entry [shutil.copy2] leaves at its destination when it copies a file
    of contents [b]: the file itself, or, when the destination was a
    directory, that directory with the file inside. *)
Definition copied (b name : string) (o : option node) : option node :=
  match o with
  | Some (Dir sub) => Some (Dir (<[name := File b]> sub))
  | _ => Some (File b)
  end.

(** The status of a response is one [raise_for_status] rejects. *)
Definition http_failed (r : response) : bool :=
  ((400 <=? status_code r) && (status_code r <? 600))%bool.

(** [urlparse] accepts the [href]. *)
Definition parses (L : PyLibs) (href : string) : Prop :=
  exists path, urlparse_path L href = inr path.

(** The path of the [href], query string left out, ends in [.xlsx]; the
    comparison is done on the lower-cased path, as [_is_xlsx_href] does. *)
Definition xlsx_match (L : PyLibs) (href : string) : bool :=
  match urlparse_path L href with
  | inr path => endswith (lower path) ".xlsx"
  | inl _ => false
  end.

(** The two HTML-scrape sources: the fetcher, its page, the name of the page
    in its messages, its target file. *)
Definition xlsx_sources (L : PyLibs) (server : nat -> request -> reply)
    : list (M unit * (string * string * string)) :=
  [ (fetch_dsmi_inventories L server,
     (dsmi_page_url, "DSMI inventories page", "DSMI-Service-Line-Materials-Estimates.xlsx"));
    (fetch_lead_copper_rule L server,
     (lslr_page_url, "LSLR progress page", "2024-2025-LSLR-Data.xlsx")) ].

(** The world once [reqs] have been sent and nothing else has changed. *)
Definition after_requests (w : world) (reqs : list request) : world :=
  World (data_dir w) (backup_dir w) (sent w ++ reqs).

(** The world in which the fetches begin: [main] has created the dataset
    directory if it was missing and has taken the backup. *)
Definition start (w : world) : world :=
  (backup_data (makedirs_data w).2).2.

(** The entries of the state [main] saves, for the [sources] and the
    [changes] of the change detector and the [fetch_errors] of the run. *)
Definition saved_state (now : string) (sources : list (string * json))
    (changes fetch_errors : list json) : list (string * json) :=
  [ ("sources", JObj sources);
    ("last_check", JStr now);
    ("changes", JArr changes);
    ("changes_count", JInt (Z.of_nat (length changes)));
    ("fetch_success", JBool (negb (nonempty fetch_errors)));
    ("fetch_errors", JArr fetch_errors) ].

(** The run went to the end of [main]: it returned, or left through
    [raise SystemExit(1)]; no other exception reached the top level. *)
Definition completed (r : result unit) : Prop :=
  r = Ok tt \/ r = Raise (SystemExit 1).

(** The outcome of a source's fetch is one [main] deals with: the fetch
    returned, or raised an exception the [except] clause catches. *)
Definition handled {A} (caught : exn -> option string) (r : result A) : Prop :=
  match r with
  | Ok _ => True
  | Raise e => is_Some (caught e)
  end.

(** The FetchError records the outcome of a source's fetch gives. *)
Definition errors_of {A} (key name : string) (caught : exn -> option string)
    (r : result A) : list json :=
  match r with
  | Ok _ => []
  | Raise e =>
      match caught e with
      | Some msg => [fetch_error key name msg]
      | None => []
      end
  end.

(** A computation that never raises [SystemExit]. *)
Definition no_exit {A} (c : M A) : Prop :=
  forall w r w', c w = (r, w') -> forall code, r <> Raise (SystemExit code).

(** A previous state of the shape [save_data_state] writes: an object whose
    [sources], when there, is an object whose entries are objects. *)
Definition well_formed_state (prev : json) : Prop :=
  exists st, prev = JObj st /\
    exists sources, default (JObj []) (dict_get "sources" st) = JObj sources /\
      forall key, exists record, default (JObj []) (dict_get key sources) = JObj record.

(** * Vocabulary of the further properties *)

(** The record the change detector stores for a source whose file is
    [filename]. *)
Definition source_record (L : PyLibs) (w : world) (filename : string) : json :=
  match data_entry w filename with
  | Some (File b) =>
      JObj [("exists", JBool true);
            ("content_hash", JStr (md5_hexdigest L b));
            ("file", JStr filename)]
  | _ => JObj [("exists", JBool false)]
  end.

(** The [sources] map of a state computed in the world [w]: one record per
    source, in the order of [DATA_FILES]. *)
Definition sources_of (L : PyLibs) (w : world) : list (string * json) :=
  List.map (fun kf => (kf.1, source_record L w kf.2)) DATA_FILES.

(** The count query of the REST source. *)
Definition count_request : request :=
  Request (socrata_url +:+ "?$select=count(*)") [] 30.

(** The FetchError records of a source, from the message of its failure if
    it failed. *)
Definition failure_record (key name : string) (failure : option string) : list json :=
  match failure with
  | Some msg => [fetch_error key name msg]
  | None => []
  end.

(** [w'] is [w] after at most [n] more requests, each with the 30 seconds
    timeout. *)
Definition sends_at_most (n : nat) (w w' : world) : Prop :=
  exists reqs, sent w' = sent w ++ reqs /\ (length reqs <= n)%nat /\
               Forall (fun q => req_timeout q = 30) reqs.

(** * The merge of the two spreadsheets, [scripts/merge_data.py]

    The script reads the two spreadsheets [fetch_data.py] leaves in the
    dataset directory, joins them with pandas and writes one spreadsheet.
    What pandas does to a table is not modelled: it is the interface
    [Pandas], and the properties hold for all its implementations. *)
Module MergeData.

(** What [DataFrame.to_excel] does with the path it is given: it writes the
    bytes of the workbook, or it raises, either before the file is opened
    ([partial = None]) or with the file already created or truncated and
    holding [partial]. *)
Inductive excel_outcome :=
| Written (bytes : string)
| WriteFailed (msg : string) (partial : option string).

(** [read_excel] and [merge_outer] return [inl msg] when the pandas call
    raises. *)
Record Pandas := {
  frame : Type;
  read_excel : string -> Z -> string + frame;
  has_column : string -> frame -> bool;
  strip_column : string -> frame -> frame;
  rename_column : string -> string -> frame -> frame;
  merge_outer : string -> frame -> frame -> string + frame;
  to_excel : frame -> excel_outcome }.

(** How a run of the script fails: the [FileNotFoundError] that [main]
    raises for a missing input, a path that cannot be opened because it is
    missing or is a directory, or an exception out of pandas. *)
Inductive failure :=
| InputNotFound (msg : string)
| NoSuchFile
| IsADirectory
| PandasError (msg : string).

Definition DSMI_FILE : string := "DSMI-Service-Line-Materials-Estimates.xlsx".
Definition LSLR_FILE : string := "2024-2025-LSLR-Data.xlsx".
Definition OUTPUT_FILE : string := "DSMI-LSLR-Merged.xlsx".
Definition HEADER_ROW : Z := 2.

Section Script.

Context (P : Pandas).
(** The value of [DATA_DIR], which depends on where the script is. *)
Context (DATA_DIR : string).

Definition _normalize_pwsid (df : frame P) : frame P :=
  let key_col := "Public Water Supply ID" in
  if has_column P key_col df then strip_column P key_col df else df.

(** [pd.read_excel(path, header=HEADER_ROW)] for an entry of the dataset
    directory. *)
Definition read_sheet (w : world) (name : string) : failure + frame P :=
  match data_entry w name with
  | Some (File b) =>
      match read_excel P b HEADER_ROW with
      | inr df => inr df
      | inl msg => inl (PandasError msg)
      end
  | Some (Dir _) => inl IsADirectory
  | None => inl NoSuchFile
  end.

Definition load_dsmi (w : world) (name : string) : failure + frame P :=
  match read_sheet w name with
  | inr df => inr (_normalize_pwsid df)
  | inl f => inl f
  end.

Definition load_lslr (w : world) (name : string) : failure + frame P :=
  match read_sheet w name with
  | inr df => inr (_normalize_pwsid df)
  | inl f => inl f
  end.

Definition merge_on_pwsid (dsmi lslr : frame P) : string + frame P :=
  let key_col := "Public Water Supply ID" in
  let dsmi_merged :=
    if has_column P "Supply Name" dsmi
    then rename_column P "Supply Name" "DSMI_Supply_Name" dsmi else dsmi in
  let lslr_merged :=
    if has_column P "Supply Name" lslr
    then rename_column P "Supply Name" "LSLR_Supply_Name" lslr else lslr in
  merge_outer P key_col dsmi_merged lslr_merged.

(** [os.path.join(DATA_DIR, name)]. *)
Definition path_of (name : string) : string := DATA_DIR +:+ "/" +:+ name.

Definition main (w : world) : (failure + unit) * world :=
  if negb (path_exists w DSMI_FILE) then
    (inl (InputNotFound ("DSMI file not found: " +:+ path_of DSMI_FILE
                         +:+ ". Run fetch_data.py first.")), w)
  else if negb (path_exists w LSLR_FILE) then
    (inl (InputNotFound ("LSLR file not found: " +:+ path_of LSLR_FILE
                         +:+ ". Run fetch_data.py first.")), w)
  else
    match load_dsmi w DSMI_FILE with
    | inl f => (inl f, w)
    | inr dsmi =>
        match load_lslr w LSLR_FILE with
        | inl f => (inl f, w)
        | inr lslr =>
            match merge_on_pwsid dsmi lslr with
            | inl msg => (inl (PandasError msg), w)
            | inr merged =>
                match to_excel P merged with
                | WriteFailed msg None => (inl (PandasError msg), w)
                | out =>
                    match data_dir w with
                    | None => (inl NoSuchFile, w)
                    | Some d =>
                        match d !! OUTPUT_FILE with
                        | Some (Dir _) => (inl IsADirectory, w)
                        | _ =>
                            match out with
                            | Written bytes =>
                                (inr tt, set_data (Some (<[OUTPUT_FILE := File bytes]> d)) w)
                            | WriteFailed msg partial =>
                                (inl (PandasError msg),
                                 set_data (Some (<[OUTPUT_FILE := File (default "" partial)]> d)) w)
                            end
                        end
                    end
                end
            end
        end
    end.

End Script.

(** The inputs of the merge are there and readable as far as the file
    system goes: a run of [main] does not stop at one of its two checks. *)
Definition finds_inputs (r : failure + unit) : Prop :=
  forall msg, r <> inl (InputNotFound msg).

End MergeData.

(** ** Further stand-ins for the examples *)
Module MoreSample.

(** The count query is answered by an empty list. *)
Definition server_empty_count (n : nat) (req : request) : reply :=
  match n with
  | 0%nat => Sample.ok_json (JArr [])
  | 1%nat => Sample.ok_json (JArr [])
  | _ => Sample.server_up n req
  end.

(** The records are [null]. *)
Definition server_null_records (n : nat) (req : request) : reply :=
  match n with
  | 1%nat => Sample.ok_json JNull
  | _ => Sample.server_up n req
  end.

(** The world a first run leaves when everything is fetched, as the next run
    finds it: the log of requests starts empty again. *)
Definition first_run : result unit * world :=
  main Sample.libs Sample.server_up Sample.now0 (World None None []).

Definition second_world : world :=
  World (data_dir first_run.2) (backup_dir first_run.2) [].

(** The state the first run saved. *)
Definition first_state : json :=
  JObj (saved_state Sample.now0 (sources_of Sample.libs first_run.2) [] []).

(** As [Sample.libs], with a [loads] that also reads that state back. *)
Definition libs : PyLibs := {|
  md5_hexdigest := md5_hexdigest Sample.libs;
  json_loads := fun s =>
    if String.eqb s (Sample.show first_state) then inr first_state
    else Sample.loads s;
  json_dumps := json_dumps Sample.libs;
  int_of_str := int_of_str Sample.libs;
  http_error_msg := http_error_msg Sample.libs;
  find_all_a_href := find_all_a_href Sample.libs;
  urlparse_path := urlparse_path Sample.libs;
  urljoin := urljoin Sample.libs;
  repr_str_list := repr_str_list Sample.libs
|}.

(** A stand-in for pandas in which a table is the text of its file and the
    merge puts the two texts one after the other. *)
Definition pandas : MergeData.Pandas := {|
  MergeData.frame := string;
  MergeData.read_excel := fun b _ => inr b;
  MergeData.has_column := fun _ _ => false;
  MergeData.strip_column := fun _ df => df;
  MergeData.rename_column := fun _ _ df => df;
  MergeData.merge_outer := fun _ a b => inr (a +:+ "+" +:+ b);
  MergeData.to_excel := fun df => MergeData.Written df
|}.

(** The landing page of the first spreadsheet cannot be reached; the second
    spreadsheet is found and downloaded. *)
Definition server_dsmi_down (n : nat) (req : request) : reply :=
  match n with
  | 0%nat => Sample.server_up 0 req
  | 1%nat => Sample.server_up 1 req
  | 2%nat => ConnFail "Connection refused"
  | 3%nat => Sample.ok_page "/files/LSLR.XLSX"
  | _ => Sample.ok_page "lslr-bytes"
  end.

(** A dataset directory in which the name of the second spreadsheet is taken
    by a directory. *)
Definition blocked_world : world :=
  World (Some {[ "socrata-90th-percentile.json" := File "old-records";
                 "2024-2025-LSLR-Data.xlsx" := Dir ∅ ]}) None [].




(** As [Sample.libs], with a [urlparse] that rejects the one [href] below, as
    Python's does for a bracket that is not closed. *)
Definition libs_strict_urls : PyLibs := {|
  md5_hexdigest := md5_hexdigest Sample.libs;
  json_loads := json_loads Sample.libs;
  json_dumps := json_dumps Sample.libs;
  int_of_str := int_of_str Sample.libs;
  http_error_msg := http_error_msg Sample.libs;
  find_all_a_href := find_all_a_href Sample.libs;
  urlparse_path := fun href =>
    if String.eqb href "http://[bad" then inl "Invalid IPv6 URL"
    else urlparse_path Sample.libs href;
  urljoin := urljoin Sample.libs;
  repr_str_list := repr_str_list Sample.libs
|}.

(** The landing page of the first spreadsheet source has no spreadsheet
    link, and one anchor whose [href] is not a URL. *)
Definition server_bad_href (n : nat) (req : request) : reply :=
  match n with
  | 2%nat => Sample.ok_page "/about http://[bad"
  | _ => Sample.server_up n req
  end.

End MoreSample.
(** * Properties *)

(** ** What each operation does to the world *)

Ltac munfold :=
  unfold bind, ret, raise, lift, try_except in *.

Ltac no_exit_prim :=
  intros w r w' H code;
  repeat match type of H with
         | context [match ?x with _ => _ end] => destruct x
         end;
  inversion H; subst; discriminate.

Lemma overwritten_refl o : overwritten o o.
Proof. destruct o; simpl; auto. Qed.

Lemma overwritten_trans o1 o2 o3 :
  overwritten o1 o2 -> overwritten o2 o3 -> overwritten o1 o3.
Proof.
  destruct o1 as [d1|], o2 as [d2|], o3 as [d3|]; simpl; try tauto.
  intros H12 H23 n.
  destruct (H23 n) as [E23|(I23 & F23 & D23)], (H12 n) as [E12|(I12 & F12 & D12)].
  - left; congruence.
  - right; repeat split; [|rewrite E23|]; auto.
  - right; repeat split; [| |rewrite <- E12]; auto.
  - right; repeat split; auto.
Qed.

Lemma fetch_step_refl w : fetch_step w w.
Proof.
  split; [|split]; auto using overwritten_refl.
  exists []. by rewrite app_nil_r.
Qed.

Lemma fetch_step_trans w1 w2 w3 :
  fetch_step w1 w2 -> fetch_step w2 w3 -> fetch_step w1 w3.
Proof.
  intros (B1 & O1 & r1 & S1) (B2 & O2 & r2 & S2).
  split; [congruence|]. split; [eauto using overwritten_trans|].
  exists (r1 ++ r2). rewrite S2, S1. by rewrite app_assoc.
Qed.

Section Frames.

Context (L : PyLibs) (server : nat -> request -> reply) (now : string).

Lemma requests_get_world url headers w r w' :
  requests_get server url headers w = (r, w') ->
  data_dir w' = data_dir w /\ backup_dir w' = backup_dir w /\
  sent w' = sent w ++ [Request url headers 30].
Proof.
  unfold requests_get. intros H.
  destruct (server _ _); inversion H; subst; auto.
Qed.

Lemma requests_get_step url headers w r w' :
  requests_get server url headers w = (r, w') -> fetch_step w w'.
Proof.
  intros H. apply requests_get_world in H as (D & B & S).
  split; [done|]. split; [rewrite D; apply overwritten_refl|eauto].
Qed.

Lemma raise_for_status_world url resp w r w' :
  raise_for_status L url resp w = (r, w') -> w' = w.
Proof.
  unfold raise_for_status. destruct (_ && _)%bool; munfold; congruence.
Qed.

Lemma response_json_world resp w r w' :
  response_json resp w = (r, w') -> w' = w.
Proof.
  unfold response_json. destruct (json_body resp); munfold; congruence.
Qed.

Lemma write_file_step name b w r w' :
  In name target_files ->
  write_file name b w = (r, w') -> fetch_step w w'.
Proof.
  unfold write_file. intros Hname H.
  destruct (data_dir w) as [d|] eqn:Ed; [|inversion H; subst; apply fetch_step_refl].
  destruct (d !! name) as [[c|sub]|] eqn:En; inversion H; subst;
    try apply fetch_step_refl.
  all: split; [done|]; split; [|exists []; simpl; by rewrite app_nil_r].
  all: simpl; rewrite Ed; intros n; destruct (decide (n = name)) as [->|Hne].
  all: try (left; by rewrite lookup_insert_ne).
  all: right; rewrite lookup_insert_eq, En; eauto.
Qed.

Lemma fetch_socrata_api_step w r w' :
  fetch_socrata_api L server w = (r, w') -> fetch_step w w'.
Proof.
  unfold fetch_socrata_api. munfold. intros H.
  destruct (requests_get _ _ _ w) as [[resp|e] w1] eqn:E1;
    apply requests_get_step in E1; [|inversion H; subst; done].
  destruct (raise_for_status _ _ _ w1) as [[[]|e] w2] eqn:E2;
    apply raise_for_status_world in E2; subst w2; [|inversion H; subst; done].
  destruct (response_json _ w1) as [[cd|e] w3] eqn:E3;
    apply response_json_world in E3; subst w3; [|inversion H; subst; done].
  destruct (record_count_of L cd) as [rc|e]; [|inversion H; subst; done].
  destruct (requests_get _ _ _ w1) as [[resp2|e] w4] eqn:E4;
    apply requests_get_step in E4; [|inversion H; subst; eauto using fetch_step_trans].
  destruct (raise_for_status _ _ _ w4) as [[[]|e] w5] eqn:E5;
    apply raise_for_status_world in E5; subst w5; [|inversion H; subst; eauto using fetch_step_trans].
  apply response_json_world in H. subst. eauto using fetch_step_trans.
Qed.


Lemma fetch_xlsx_from_page_step page_url page_name filename w r w' :
  In filename target_files ->
  fetch_xlsx_from_page L server page_url page_name filename w = (r, w') -> fetch_step w w'.
Proof.
  unfold fetch_xlsx_from_page. munfold. intros Hname H.
  destruct (requests_get _ _ _ w) as [[resp|e] w1] eqn:E1;
    apply requests_get_step in E1; [|inversion H; subst; done].
  destruct (raise_for_status _ _ _ w1) as [[[]|e] w2] eqn:E2;
    apply raise_for_status_world in E2; subst w2; [|inversion H; subst; done].
  destruct (collect_xlsx _ _ _) as [links|e]; [|inversion H; subst; done].
  destruct links as [|link [|link2 rest]]; try (inversion H; subst; done).
  destruct (requests_get _ _ _ w1) as [[resp2|e] w4] eqn:E4;
    apply requests_get_step in E4; [|inversion H; subst; eauto using fetch_step_trans].
  destruct (raise_for_status _ _ _ w4) as [[[]|e] w5] eqn:E5;
    apply raise_for_status_world in E5; subst w5; [|inversion H; subst; eauto using fetch_step_trans].
  apply write_file_step in H; [|done]. eauto using fetch_step_trans.
Qed.

Lemma socrata_block_step w r w' :
  socrata_block L server w = (r, w') -> fetch_step w w'.
Proof.
  unfold socrata_block. munfold. intros H.
  destruct (fetch_socrata_api _ _ w) as [[data|e] w1] eqn:E1;
    apply fetch_socrata_api_step in E1; [|inversion H; subst; done].
  destruct (py_len data); [|inversion H; subst; done].
  simpl in H. apply write_file_step in H; [|simpl; auto]. eauto using fetch_step_trans.
Qed.

Lemma attempt_cases body caught key errs w :
  attempt body caught key errs w =
  match body w with
  | (Ok _, w1) => (Ok errs, w1)
  | (Raise e, w1) =>
      match caught e with
      | Some msg =>
          match dict_get key SOURCE_NAMES with
          | Some name => (Ok (errs ++ [fetch_error key name msg]), w1)
          | None => (Raise KeyError, w1)
          end
      | None => (Raise e, w1)
      end
  end.
Proof.
  unfold attempt, const_item, fetch_error. munfold.
  destruct (body w) as [[[]|e] w1]; [done|].
  destruct (caught e); [|done]. by destruct (dict_get key SOURCE_NAMES).
Qed.

Lemma attempt_step body caught key errs w r w' :
  (forall r1 w1, body w = (r1, w1) -> fetch_step w w1) ->
  attempt body caught key errs w = (r, w') -> fetch_step w w'.
Proof.
  intros Hb. rewrite attempt_cases.
  destruct (body w) as [[[]|e] w1] eqn:E; specialize (Hb _ _ eq_refl).
  - intros H; inversion H; subst; done.
  - destruct (caught e); [destruct (dict_get _ _)|]; intros H; inversion H; subst; done.
Qed.

Lemma fetch_all_step w r w' :
  fetch_all L server w = (r, w') -> fetch_step w w'.
Proof.
  unfold fetch_all. unfold bind at 1 2. intros H.
  destruct (attempt _ _ _ _ w) as [[e1|e] w1] eqn:E1;
    (apply attempt_step in E1; [|eauto using socrata_block_step]);
    [|inversion H; subst; done].
  destruct (attempt _ _ _ _ w1) as [[e2|e] w2] eqn:E2;
    (apply attempt_step in E2;
     [|unfold fetch_dsmi_inventories; intros ? ?; apply fetch_xlsx_from_page_step; simpl; auto]);
    [|inversion H; subst; eauto using fetch_step_trans].
  apply attempt_step in H;
    [|unfold fetch_lead_copper_rule; intros ? ?; apply fetch_xlsx_from_page_step; simpl; auto].
  eauto using fetch_step_trans.
Qed.

(** ** Restore *)

Lemma copy2_file b name d w :
  data_dir w = Some d -> is_dir (d !! name) = false ->
  copy2 b name w = (Ok tt, set_data (Some (<[name := File b]> d)) w).
Proof.
  intros Hd Hn. unfold copy2. rewrite Hd.
  destruct (d !! name) as [[c|sub]|]; done.
Qed.

(** After the loop, an entry of the dataset directory is the backup's file of
    that name when the name was listed and the backup has a regular file
    there, and is as before otherwise; this needs that no such name is a
    sub-directory of the dataset directory. *)
Lemma restore_entries_spec bk names : forall w d,
  data_dir w = Some d ->
  (forall n b, bk !! n = Some (File b) -> is_dir (d !! n) = false) ->
  exists d',
    restore_entries bk names w = (Ok tt, set_data (Some d') w) /\
    forall n, d' !! n =
              match bk !! n with
              | Some (File b) => if decide (n ∈ names) then Some (File b) else d !! n
              | _ => d !! n
              end.
Proof.
  induction names as [|name rest IH]; intros w d Hd Hsafe; cbn [restore_entries].
  - exists d. split.
    + unfold ret, set_data. rewrite <- Hd. by destruct w.
    + intros n. destruct (bk !! n) as [[b|sub]|]; [|done..].
      destruct (decide (n ∈ [])) as [Hin|]; [by apply elem_of_nil in Hin | done].
  - unfold bind.
    assert (Hmem : forall n c, n <> name ->
              (if decide (n ∈ rest) then Some (File c) else d !! n) =
              (if decide (n ∈ name :: rest) then Some (File c) else d !! n)).
    { intros n c Hne.
      destruct (decide (n ∈ rest)) as [H1|H1], (decide (n ∈ name :: rest)) as [H2|H2];
        try done.
      - exfalso; apply H2, elem_of_cons; by right.
      - apply elem_of_cons in H2 as [->|]; done. }
    destruct (bk !! name) as [[b|sub]|] eqn:En.
    + rewrite (copy2_file b name d w Hd (Hsafe _ _ En)).
      destruct (IH (set_data (Some (<[name := File b]> d)) w) (<[name := File b]> d))
        as (d' & Hrun & Hd').
      { done. }
      { intros n c Hn. destruct (decide (name = n)) as [->|Hne].
        - by rewrite lookup_insert_eq.
        - rewrite lookup_insert_ne by done. eauto. }
      exists d'. split; [exact Hrun|].
      intros n. rewrite Hd'.
      destruct (decide (name = n)) as [<-|Hne].
      * rewrite En, lookup_insert_eq.
        destruct (decide (name ∈ rest)), (decide (name ∈ name :: rest)) as [|Hn];
          try done.
        all: exfalso; apply Hn, elem_of_cons; by left.
      * rewrite lookup_insert_ne by done.
        destruct (bk !! n) as [[c|sub]|]; try done. by apply Hmem.
    + unfold ret. destruct (IH w d Hd Hsafe) as (d' & Hrun & Hd').
      exists d'. split; [exact Hrun|]. intros n. rewrite Hd'.
      destruct (bk !! n) as [[c|sub']|] eqn:Ebn; try done.
      apply Hmem. congruence.
    + unfold ret. destruct (IH w d Hd Hsafe) as (d' & Hrun & Hd').
      exists d'. split; [exact Hrun|]. intros n. rewrite Hd'.
      destruct (bk !! n) as [[c|sub']|] eqn:Ebn; try done.
      apply Hmem. congruence.
Qed.

Lemma elem_of_listdir (d : gmap string node) n : n ∈ listdir d <-> is_Some (d !! n).
Proof.
  unfold listdir. rewrite list_elem_of_fmap. split.
  - intros ([k v] & -> & Hin). apply elem_of_map_to_list in Hin. simpl. eauto.
  - intros [v Hv]. exists (n, v). split; [done|]. by apply elem_of_map_to_list.
Qed.

Lemma restore_from_backup_spec w d bk :
  data_dir w = Some d -> backup_dir w = Some bk ->
  (forall n b, bk !! n = Some (File b) -> is_dir (d !! n) = false) ->
  exists d',
    restore_from_backup w = (Ok tt, set_data (Some d') w) /\
    forall n, d' !! n = match bk !! n with Some (File b) => Some (File b) | _ => d !! n end.
Proof.
  intros Hd Hb Hsafe. unfold restore_from_backup. rewrite Hb.
  destruct (restore_entries_spec bk (listdir bk) w d Hd Hsafe) as (d' & Hrun & Hd').
  exists d'. split; [done|]. intros n. rewrite Hd'.
  destruct (bk !! n) as [[b|sub]|] eqn:E; [|done..].
  rewrite decide_True; [done|]. apply elem_of_listdir. eauto.
Qed.

End Frames.
Section Detect.

Context (L : PyLibs) (now : string).

Lemma read_file_world name w r w' : read_file name w = (r, w') -> w' = w.
Proof.
  unfold read_file. destruct (data_entry w name) as [[b|sub]|]; congruence.
Qed.

Lemma load_data_state_cases w :
  load_data_state L w =
  match data_entry w DATA_STATE_FILE with
  | None => (Ok (JObj []), w)
  | Some (File b) =>
      match json_loads L b with
      | inr v => (Ok v, w)
      | inl msg => (Raise (JSONDecodeError msg), w)
      end
  | Some (Dir _) => (Raise IsADirectoryError, w)
  end.
Proof.
  unfold load_data_state, read_file. munfold.
  destruct (data_entry w DATA_STATE_FILE) as [[b|sub]|]; try done.
  by destruct (json_loads L b).
Qed.

Lemma load_data_state_world w r w' : load_data_state L w = (r, w') -> w' = w.
Proof.
  rewrite load_data_state_cases.
  destruct (data_entry w DATA_STATE_FILE) as [[b|sub]|]; try congruence.
  destruct (json_loads L b); congruence.
Qed.

Lemma detect_one_spec prev key filename sources changes w sources' changes' w' :
  detect_one L prev key filename (sources, changes) w = (Ok (sources', changes'), w') ->
  w' = w /\
  changes' = changes ++ (if content_changed L w prev key filename
                         then [change_event key filename] else []).
Proof.
  unfold detect_one, content_changed, current_hash, path_exists, get_file_hash, read_file.
  munfold.
  destruct (data_entry w filename) as [[b|sub]|]; simpl; intros H.
  - unfold previous_hash.
    destruct prev as [| | | | |l|st]; simpl in H; try discriminate.
    destruct (dict_get "sources" st) as [[| | | | |l|srcs]|]; simpl in H; try discriminate.
    + destruct (dict_get key srcs) as [[| | | | |l|rec]|]; simpl in H; try discriminate.
      * destruct (dict_get "content_hash" rec) as [h|]; simpl in H.
        -- destruct (truthy h); simpl in H; [destruct (ne_str h _)|];
             inversion H; subst; by rewrite ?app_nil_r.
        -- inversion H; subst; by rewrite ?app_nil_r.
      * inversion H; subst; by rewrite ?app_nil_r.
    + inversion H; subst; by rewrite ?app_nil_r.
  - discriminate.
  - inversion H; subst. destruct (previous_hash prev key); by rewrite app_nil_r.
Qed.

Lemma detect_one_world prev key filename st w r w' :
  detect_one L prev key filename st w = (r, w') -> w' = w.
Proof.
  destruct st as [sources changes].
  unfold detect_one, path_exists, get_file_hash, read_file. munfold.
  destruct (data_entry w filename) as [[b|sub]|]; simpl; try congruence.
  destruct (py_get "sources" _ prev) as [v1|]; [|congruence].
  destruct (py_get key _ v1) as [v2|]; [|congruence].
  destruct (py_get "content_hash" _ v2) as [v3|]; [|congruence].
  destruct (_ && _)%bool; congruence.
Qed.

Lemma detect_loop_spec prev files : forall sources changes w sources' changes' w',
  detect_loop L prev files (sources, changes) w = (Ok (sources', changes'), w') ->
  w' = w /\
  changes' = changes ++
    flat_map (fun kf => if content_changed L w prev kf.1 kf.2
                        then [change_event kf.1 kf.2] else []) files.
Proof.
  induction files as [|[key filename] rest IH]; intros sources changes w sources' changes' w';
    cbn [detect_loop flat_map].
  - unfold ret. intros H. inversion H. by rewrite app_nil_r.
  - unfold bind.
    destruct (detect_one _ _ _ _ _ w) as [[[s1 c1]|e] w1] eqn:E1; [|discriminate].
    apply detect_one_spec in E1 as [-> ->].
    intros H. apply IH in H as [-> ->]. by rewrite <- app_assoc.
Qed.

Lemma detect_loop_world prev files : forall st w r w',
  detect_loop L prev files st w = (r, w') -> w' = w.
Proof.
  induction files as [|[key filename] rest IH]; intros st w r w'; cbn [detect_loop].
  - unfold ret. congruence.
  - unfold bind.
    destruct (detect_one _ _ _ _ _ w) as [[st1|e] w1] eqn:E1;
      apply detect_one_world in E1; subst w1; [eauto|congruence].
Qed.

Lemma detect_data_changes_world w r w' :
  detect_data_changes L now w = (r, w') -> w' = w.
Proof.
  unfold detect_data_changes. unfold bind.
  destruct (load_data_state L w) as [[prev|e] w0] eqn:E0;
    apply load_data_state_world in E0; subst w0; [|congruence].
  destruct (detect_loop _ _ _ _ w) as [[[s c]|e] w1] eqn:E1;
    apply detect_loop_world in E1; subst w1; unfold ret; congruence.
Qed.

(** What [detect_data_changes] returns, when it returns: the state holds the
    [sources] map and the time of the check, and [changes] holds, in the
    order of [DATA_FILES], the event of each source whose content changed. *)
Lemma detect_data_changes_spec w prev w0 st changes w' :
  load_data_state L w = (Ok prev, w0) ->
  detect_data_changes L now w = (Ok (st, changes), w') ->
  w' = w /\
  (exists sources, st = [("sources", JObj sources); ("last_check", JStr now)]) /\
  changes = flat_map (fun kf => if content_changed L w prev kf.1 kf.2
                                then [change_event kf.1 kf.2] else []) DATA_FILES.
Proof.
  intros Hload. unfold detect_data_changes. unfold bind. rewrite Hload.
  apply load_data_state_world in Hload. subst w0.
  destruct (detect_loop _ _ _ _ w) as [[[s c]|e] w1] eqn:E1; [|discriminate].
  apply detect_loop_spec in E1 as [-> ->].
  unfold ret. intros H. inversion H; subst. eauto.
Qed.

End Detect.

(** The change detector returns whenever the previous state loads and has
    the shape [save_data_state] gives it, and no file of a source is a
    directory. *)
Section DetectReturns.

Context (L : PyLibs) (now : string).

Lemma detect_one_returns prev key filename st w :
  well_formed_state prev ->
  is_dir (data_entry w filename) = false ->
  exists st', detect_one L prev key filename st w = (Ok st', w).
Proof.
  intros (pst & -> & srcs & Hsrcs & Hrec) Hdir. destruct st as [sources changes].
  unfold detect_one, path_exists, get_file_hash, read_file. munfold.
  destruct (data_entry w filename) as [[b|sub]|]; simpl; [|done|eauto].
  rewrite Hsrcs. simpl. destruct (Hrec key) as [rec ->]. simpl.
  destruct (_ && _)%bool; eauto.
Qed.

Lemma detect_loop_returns prev files : forall st w,
  well_formed_state prev ->
  (forall kf, In kf files -> is_dir (data_entry w kf.2) = false) ->
  exists st', detect_loop L prev files st w = (Ok st', w).
Proof.
  induction files as [|[key filename] rest IH]; intros st w Hwf Hdir; cbn [detect_loop].
  - unfold ret. eauto.
  - unfold bind.
    destruct (detect_one_returns prev key filename st w Hwf) as [st1 ->].
    { apply (Hdir (key, filename)). by left. }
    apply IH; [done|]. intros kf Hin. apply Hdir. by right.
Qed.

Lemma detect_data_changes_returns w prev :
  load_data_state L w = (Ok prev, w) ->
  well_formed_state prev ->
  (forall f, In f target_files -> is_dir (data_entry w f) = false) ->
  exists st changes, detect_data_changes L now w = (Ok (st, changes), w).
Proof.
  intros Hload Hwf Hdir. unfold detect_data_changes. unfold bind at 1. rewrite Hload.
  unfold bind at 1.
  destruct (detect_loop_returns prev DATA_FILES ([], []) w Hwf) as [[sources changes] ->].
  { intros kf Hin. apply Hdir. unfold target_files. by apply in_map. }
  unfold ret. eauto.
Qed.

End DetectReturns.

(** ** Change detection *)



(** ** Restore, in any state of the two directories *)

Lemma copy2_spec b name w r w' :
  copy2 b name w = (r, w') ->
  backup_dir w' = backup_dir w /\ sent w' = sent w /\
  (forall n, n <> name -> data_entry w' n = data_entry w n) /\
  (r = Ok tt -> data_entry w' name = copied b name (data_entry w name)) /\
  (r <> Ok tt -> w' = w).
Proof.
  unfold copy2, data_entry.
  destruct (data_dir w) as [d|] eqn:Ed; simpl.
  - destruct (d !! name) as [[c|sub]|] eqn:En.
    + intros H; inversion H; subst; simpl. repeat split; try done.
      * intros n Hn. by rewrite lookup_insert_ne.
      * by rewrite lookup_insert_eq.
    + destruct (sub !! name) as [[c|sub2]|]; intros H; inversion H; subst; simpl;
        repeat split; try done.
      all: try (intros n Hn; by rewrite lookup_insert_ne).
      all: try (intros _; by rewrite lookup_insert_eq).
      all: try (rewrite Ed; simpl; done).
    + intros H; inversion H; subst; simpl. repeat split; try done.
      * intros n Hn. by rewrite lookup_insert_ne.
      * by rewrite lookup_insert_eq.
  - intros H; inversion H; subst. rewrite Ed. repeat split; done.
Qed.

Lemma restore_entries_frame bk names :
  NoDup names ->
  forall w r w', restore_entries bk names w = (r, w') ->
  backup_dir w' = backup_dir w /\ sent w' = sent w /\
  (forall n, data_entry w' n = data_entry w n \/
             (n ∈ names /\ exists b, bk !! n = Some (File b) /\
                                    data_entry w' n = copied b n (data_entry w n))) /\
  (r = Ok tt -> forall n b, n ∈ names -> bk !! n = Some (File b) ->
                            data_entry w' n = copied b n (data_entry w n)).
Proof.
  induction 1 as [|name rest Hnotin Hnd IH]; intros w r w'; cbn [restore_entries].
  - unfold ret. intros H; inversion H; subst. repeat split; auto.
    intros _ n b Hn. by apply elem_of_nil in Hn.
  - unfold bind.
    destruct (bk !! name) as [[b|sub]|] eqn:En.
    + destruct (copy2 b name w) as [[[]|e] w1] eqn:Ec;
        apply copy2_spec in Ec as (B1 & S1 & O1 & C1 & F1).
      * specialize (C1 eq_refl). intros H.
        apply IH in H as (B2 & S2 & O2 & C2).
        split; [congruence|]. split; [congruence|]. split.
        -- intros n. destruct (decide (n = name)) as [->|Hne].
           ++ right. split; [apply elem_of_cons; by left|]. exists b. split; [done|].
              destruct (O2 name) as [->|[Hin _]]; done.
           ++ destruct (O2 n) as [->|(Hin & c & Hc & ->)].
              ** left. by apply O1.
              ** right. split; [apply elem_of_cons; by right|].
                 exists c. split; [done|]. by rewrite O1.
        -- intros -> n c Hin Hc. apply elem_of_cons in Hin as [->|Hin].
           ++ assert (c = b) by congruence. subst c.
              destruct (O2 name) as [->|[Hin _]]; done.
           ++ rewrite (C2 eq_refl n c Hin Hc).
              assert (n <> name) by (intros ->; done). by rewrite O1.
      * intros H; inversion H; subst. rewrite F1 by done.
        repeat split; auto. discriminate.
    + unfold ret. intros H. apply IH in H as (B2 & S2 & O2 & C2).
      repeat split; auto.
      * intros n. destruct (O2 n) as [->|(Hin & c & Hc & ->)]; [by left|].
        right. split; [apply elem_of_cons; by right|]. eauto.
      * intros Hr n c Hin Hc. apply elem_of_cons in Hin as [->|Hin]; [congruence|].
        eauto.
    + unfold ret. intros H. apply IH in H as (B2 & S2 & O2 & C2).
      repeat split; auto.
      * intros n. destruct (O2 n) as [->|(Hin & c & Hc & ->)]; [by left|].
        right. split; [apply elem_of_cons; by right|]. eauto.
      * intros Hr n c Hin Hc. apply elem_of_cons in Hin as [->|Hin]; [congruence|].
        eauto.
Qed.

Lemma NoDup_listdir (d : gmap string node) : NoDup (listdir d).
Proof. apply NoDup_fst_map_to_list. Qed.

(** C10. [restore_from_backup] copies top-level regular files of the backup
    only: an entry of the backup that is a directory is skipped, the entry of
    that name in the dataset directory stays as it was, and whatever the
    restore changes in the dataset directory is at the name of a regular file
    of the backup, where that file has been copied. *)
Theorem restore_copies_top_level_files_only w r w' :
  restore_from_backup w = (r, w') ->
  backup_dir w' = backup_dir w /\
  (forall name sub, backup_entry w name = Some (Dir sub) ->
                    data_entry w' name = data_entry w name) /\
  (forall name, data_entry w' name <> data_entry w name ->
                exists b, backup_entry w name = Some (File b) /\
                          data_entry w' name = copied b name (data_entry w name)) /\
  (r = Ok tt -> forall name b, backup_entry w name = Some (File b) ->
                               data_entry w' name = copied b name (data_entry w name)).
Proof.
  unfold restore_from_backup, backup_entry.
  destruct (backup_dir w) as [bk|] eqn:Eb; simpl.
  - intros H.
    apply (restore_entries_frame bk (listdir bk) (NoDup_listdir bk)) in H
      as (B & S & O & C).
    split; [congruence|]. split; [|split].
    + intros name sub Hsub.
      destruct (O name) as [->|(_ & b & Hb & _)]; [done|congruence].
    + intros name Hne. destruct (O name) as [Heq|(_ & b & Hb & Hc)]; [done|eauto].
    + intros Hr name b Hb. apply (C Hr); [|done]. apply elem_of_listdir. eauto.
  - intros H; inversion H; subst. repeat split; try done.
Qed.


(** ** The HTML-scrape fetchers *)

Section Fetchers.

Context (L : PyLibs) (server : nat -> request -> reply).

Lemma collect_xlsx_spec hrefs : forall acc,
  Forall (parses L) hrefs ->
  collect_xlsx L hrefs acc = Ok (acc ++ List.filter (xlsx_match L) hrefs).
Proof.
  induction hrefs as [|href rest IH]; intros acc Hp; cbn [collect_xlsx List.filter].
  - by rewrite app_nil_r.
  - inversion Hp as [|? ? [path Hpath] Hrest]; subst.
    unfold _is_xlsx_href, xlsx_match. rewrite Hpath.
    destruct (endswith (lower path) ".xlsx").
    + rewrite IH by done. by rewrite <- app_assoc.
    + by apply IH.
Qed.

Lemma raise_for_status_ok url resp w :
  http_failed resp = false -> raise_for_status L url resp w = (Ok tt, w).
Proof. unfold raise_for_status, http_failed. by intros ->. Qed.

Lemma raise_for_status_failed url resp w :
  http_failed resp = true ->
  raise_for_status L url resp w = (Raise (HTTPError (http_error_msg L url resp)), w).
Proof. unfold raise_for_status, http_failed. by intros ->. Qed.

Lemma requests_get_reply url headers w resp :
  server (length (sent w)) (Request url headers 30) = Reply resp ->
  requests_get server url headers w = (Ok resp, after_requests w [Request url headers 30]).
Proof. unfold requests_get. by intros ->. Qed.

Lemma requests_get_fail url headers w msg :
  server (length (sent w)) (Request url headers 30) = ConnFail msg ->
  requests_get server url headers w =
    (Raise (RequestException msg), after_requests w [Request url headers 30]).
Proof. unfold requests_get. by intros ->. Qed.

Lemma write_file_sent name b w r w' :
  write_file name b w = (r, w') -> sent w' = sent w.
Proof.
  unfold write_file.
  destruct (data_dir w); [destruct (_ !! name) as [[?|?]|]|];
    intros H; inversion H; subst; done.
Qed.

Lemma fetch_xlsx_from_page_policy page_url page_name filename w page r w' :
  server (length (sent w)) (Request page_url user_agent 30) = Reply page ->
  http_failed page = false ->
  Forall (parses L) (find_all_a_href L (text page)) ->
  fetch_xlsx_from_page L server page_url page_name filename w = (r, w') ->
  let links := List.filter (xlsx_match L) (find_all_a_href L (text page)) in
  let page_req := Request page_url user_agent 30 in
  (links = [] ->
     r = Raise (ValueError ("No xlsx file link found on " +:+ page_name)) /\
     w' = after_requests w [page_req]) /\
  ((1 < length links)%nat ->
     r = Raise (ValueError ("Multiple xlsx links found on " +:+ page_name +:+ " ("
                            +:+ str_of_int (Z.of_nat (length links))
                            +:+ "), skipping fetch: " +:+ repr_str_list L links)) /\
     w' = after_requests w [page_req]) /\
  (forall link, links = [link] ->
     let file_req := Request (urljoin L page_url link) [] 30 in
     sent w' = sent w ++ [page_req; file_req] /\
     forall resp, server (S (length (sent w))) file_req = Reply resp ->
                  http_failed resp = false ->
                  (r, w') = write_file filename (content resp)
                                       (after_requests w [page_req; file_req])).
Proof.
  intros Hpage Hok Hparse H links page_req. subst links.
  unfold fetch_xlsx_from_page in H. unfold bind at 1 in H.
  rewrite (requests_get_reply _ _ _ _ Hpage) in H. unfold bind at 1 in H.
  rewrite raise_for_status_ok in H by done. unfold bind at 1, lift in H.
  rewrite collect_xlsx_spec in H by done. rewrite app_nil_l in H.
  fold page_req in H.
  destruct (List.filter _ _) as [|link [|link2 rest]] eqn:El.
  - unfold raise in H. inversion H; subst. split; [done|].
    split; [simpl; lia|]. intros link Hl. discriminate.
  - split; [discriminate|]. split; [simpl; lia|].
    intros link' Hl. inversion Hl; subst link'. cbn zeta.
    unfold bind at 1 in H.
    assert (Hlen : length (sent (after_requests w [page_req])) = S (length (sent w))).
    { simpl. rewrite length_app. simpl. lia. }
    assert (Hsent2 : forall w2, sent w2 = sent (after_requests w [page_req]) ++
                                         [Request (urljoin L page_url link) [] 30] ->
                                sent w2 = sent w ++ [page_req; Request (urljoin L page_url link) [] 30]).
    { intros w2 ->. simpl. by rewrite <- app_assoc. }
    destruct (requests_get server _ _ (after_requests w [page_req])) as [[resp|e] w2] eqn:E2.
    + pose proof (requests_get_world server _ _ _ _ _ E2) as (D2 & B2 & S2).
      assert (Hw2 : w2 = after_requests w [page_req; Request (urljoin L page_url link) [] 30]).
      { destruct w2 as [d2 b2 s2]. simpl in *. unfold after_requests. subst.
        by rewrite <- app_assoc. }
      unfold bind at 1 in H.
      destruct (raise_for_status L _ resp w2) as [[[]|e] w3] eqn:E3;
        pose proof (raise_for_status_world L _ _ _ _ _ E3) as ->.
      * split.
        -- apply write_file_sent in H. by rewrite H, Hw2.
        -- intros resp' Hresp' Hok'. unfold requests_get in E2. rewrite Hlen in E2.
           rewrite Hresp' in E2. inversion E2; subst resp'. by rewrite <- Hw2.
      * inversion H; subst. split; [by apply Hsent2|].
        intros resp' Hresp' Hok'. unfold requests_get in E2. rewrite Hlen in E2.
        rewrite Hresp' in E2. inversion E2; subst resp'.
        rewrite raise_for_status_ok in E3 by done. discriminate.
    + pose proof (requests_get_world server _ _ _ _ _ E2) as (D2 & B2 & S2).
      inversion H; subst. split; [by apply Hsent2|].
      intros resp' Hresp' Hok'. unfold requests_get in E2. rewrite Hlen in E2.
      rewrite Hresp' in E2. discriminate.
  - unfold raise in H. inversion H; subst. split; [discriminate|].
    split; [done|]. intros link' Hl. discriminate.
Qed.


(** The loop stops at the first [href] that [urlparse] rejects. *)
Lemma collect_xlsx_rejected earlier href msg later : forall acc,
  Forall (parses L) earlier ->
  urlparse_path L href = inl msg ->
  collect_xlsx L (earlier ++ href :: later) acc = Raise (ValueError msg).
Proof.
  induction earlier as [|h rest IH]; intros acc Hp Hbad; cbn [collect_xlsx app].
  - unfold _is_xlsx_href. by rewrite Hbad.
  - inversion Hp as [|? ? [path Hpath] Hrest]; subst.
    unfold _is_xlsx_href. rewrite Hpath.
    destruct (endswith (lower path) ".xlsx"); by apply IH.
Qed.

(** Either [urlparse] accepts every [href], or there is a first one that it
    rejects. *)
Lemma parses_all_or_first_rejected hrefs :
  Forall (parses L) hrefs \/
  exists earlier href msg later,
    hrefs = earlier ++ href :: later /\ Forall (parses L) earlier /\
    urlparse_path L href = inl msg.
Proof.
  induction hrefs as [|h rest IH]; [by left|].
  destruct (urlparse_path L h) as [msg|path] eqn:Eh.
  - right. exists [], h, msg, rest. by repeat split.
  - destruct IH as [Hall|(earlier & href & msg & later & -> & Hp & Hbad)].
    + left. constructor; [by exists path|done].
    + right. exists (h :: earlier), href, msg, later.
      split; [done|]. split; [|done]. constructor; [by exists path|done].
Qed.

Lemma fetch_xlsx_from_page_rejected page_url page_name filename w page earlier href msg later r w' :
  server (length (sent w)) (Request page_url user_agent 30) = Reply page ->
  http_failed page = false ->
  find_all_a_href L (text page) = earlier ++ href :: later ->
  Forall (parses L) earlier ->
  urlparse_path L href = inl msg ->
  fetch_xlsx_from_page L server page_url page_name filename w = (r, w') ->
  r = Raise (ValueError msg) /\ w' = after_requests w [Request page_url user_agent 30].
Proof.
  intros Hpage Hok Hhrefs Hp Hbad H.
  unfold fetch_xlsx_from_page in H. unfold bind at 1 in H.
  rewrite (requests_get_reply _ _ _ _ Hpage) in H. unfold bind at 1 in H.
  rewrite raise_for_status_ok in H by done. unfold bind at 1, lift in H.
  rewrite Hhrefs, (collect_xlsx_rejected _ _ _ _ _ Hp Hbad) in H.
  by inversion H.
Qed.

(** C6, amended. For each HTML-scrape source whose landing page was
    retrieved.  When [urlparse] accepts the [href] of every anchor of the
    page: with no link whose path ends in [.xlsx] the fetch fails with the
    not-found error that names the page; with more than one it fails with the
    error that lists all the candidates; with exactly one, the link is joined
    to the page URL and requested, and the body of a successful answer is
    written as it is to the target file.  When [urlparse] rejects an [href],
    the fetch fails with the [ValueError] of the first such [href], whatever
    the number of links.  In every failure case the dataset directory, and so
    the target file, is left as it was: it changes only when there is exactly
    one link and every [href] is accepted. *)
Theorem xlsx_link_count_policy fetch page_url page_name filename w page r w' :
  In (fetch, (page_url, page_name, filename)) (xlsx_sources L server) ->
  server (length (sent w)) (Request page_url user_agent 30) = Reply page ->
  http_failed page = false ->
  fetch w = (r, w') ->
  let hrefs := find_all_a_href L (text page) in
  let links := List.filter (xlsx_match L) hrefs in
  let page_req := Request page_url user_agent 30 in
  (Forall (parses L) hrefs ->
     (links = [] ->
        r = Raise (ValueError ("No xlsx file link found on " +:+ page_name)) /\
        data_dir w' = data_dir w) /\
     ((1 < length links)%nat ->
        r = Raise (ValueError ("Multiple xlsx links found on " +:+ page_name +:+ " ("
                               +:+ str_of_int (Z.of_nat (length links))
                               +:+ "), skipping fetch: " +:+ repr_str_list L links)) /\
        data_dir w' = data_dir w) /\
     (forall link, links = [link] ->
        let file_req := Request (urljoin L page_url link) [] 30 in
        sent w' = sent w ++ [page_req; file_req] /\
        forall resp d,
          server (S (length (sent w))) file_req = Reply resp ->
          http_failed resp = false ->
          data_dir w = Some d -> is_dir (d !! filename) = false ->
          r = Ok tt /\ data_dir w' = Some (<[filename := File (content resp)]> d))) /\
  (forall earlier href msg later,
     hrefs = earlier ++ href :: later ->
     Forall (parses L) earlier ->
     urlparse_path L href = inl msg ->
     r = Raise (ValueError msg) /\ data_dir w' = data_dir w /\ sent w' = sent w ++ [page_req]) /\
  (data_dir w' <> data_dir w -> Forall (parses L) hrefs /\ exists link, links = [link]).
Proof.
  intros Hin Hpage Hok Hrun hrefs links page_req.
  assert (Hgen : fetch_xlsx_from_page L server page_url page_name filename w = (r, w')).
  { simpl in Hin. destruct Hin as [Hin|[Hin|[]]]; inversion Hin; subst; exact Hrun. }
  assert (Hall : Forall (parses L) hrefs ->
            (links = [] ->
               r = Raise (ValueError ("No xlsx file link found on " +:+ page_name)) /\
               w' = after_requests w [page_req]) /\
            ((1 < length links)%nat ->
               r = Raise (ValueError ("Multiple xlsx links found on " +:+ page_name +:+ " ("
                                      +:+ str_of_int (Z.of_nat (length links))
                                      +:+ "), skipping fetch: " +:+ repr_str_list L links)) /\
               w' = after_requests w [page_req]) /\
            (forall link, links = [link] ->
               let file_req := Request (urljoin L page_url link) [] 30 in
               sent w' = sent w ++ [page_req; file_req] /\
               forall resp, server (S (length (sent w))) file_req = Reply resp ->
                            http_failed resp = false ->
                            (r, w') = write_file filename (content resp)
                                        (after_requests w [page_req; file_req]))).
  { intros Hparse.
    exact (fetch_xlsx_from_page_policy _ _ _ _ _ _ _ Hpage Hok Hparse Hgen). }
  assert (Hbad : forall earlier href msg later,
            hrefs = earlier ++ href :: later -> Forall (parses L) earlier ->
            urlparse_path L href = inl msg ->
            r = Raise (ValueError msg) /\ w' = after_requests w [page_req]).
  { intros earlier href msg later Hh Hp Hb.
    exact (fetch_xlsx_from_page_rejected _ _ _ _ _ _ _ _ _ _ _ Hpage Hok Hh Hp Hb Hgen). }
  split; [|split].
  - intros Hparse. destruct (Hall Hparse) as (H0 & Hmany & H1). split; [|split].
    + intros Hl. destruct (H0 Hl) as [-> ->]. done.
    + intros Hl. destruct (Hmany Hl) as [-> ->]. done.
    + intros link Hl file_req. destruct (H1 link Hl) as [Hs Hw]. split; [exact Hs|].
      intros resp d Hresp Hrok Hd Hnd. specialize (Hw resp Hresp Hrok).
      unfold write_file in Hw. simpl in Hw. rewrite Hd in Hw.
      destruct (d !! filename) as [[c|sub]|]; try discriminate; by inversion Hw.
  - intros earlier href msg later Hh Hp Hb.
    destruct (Hbad _ _ _ _ Hh Hp Hb) as [-> ->]. done.
  - intros Hchg.
    destruct (parses_all_or_first_rejected hrefs)
      as [Hparse|(earlier & href & msg & later & Hh & Hp & Hb)].
    + split; [done|]. destruct (Hall Hparse) as (H0 & Hmany & _).
      destruct links as [|link [|link2 rest]] eqn:El.
      * destruct (H0 eq_refl) as [_ ->]. done.
      * eauto.
      * destruct Hmany as [_ ->]; [simpl; lia|done].
    + destruct (Hbad _ _ _ _ Hh Hp Hb) as [_ ->]. done.
Qed.

(** ** The REST fetcher *)

Lemma fetch_socrata_api_cases w :
  let count_req := Request (socrata_url +:+ "?$select=count(*)") [] 30 in
  fetch_socrata_api L server w =
  match server (length (sent w)) count_req with
  | ConnFail msg => (Raise (RequestException msg), after_requests w [count_req])
  | Reply resp =>
      if http_failed resp
      then (Raise (HTTPError (http_error_msg L (req_url count_req) resp)),
            after_requests w [count_req])
      else
        match json_body resp with
        | inl msg => (Raise (JSONDecodeError msg), after_requests w [count_req])
        | inr count_data =>
            match record_count_of L count_data with
            | Raise e => (Raise e, after_requests w [count_req])
            | Ok n =>
                let all_req := Request (socrata_url +:+ "?$limit=" +:+ str_of_int n) [] 30 in
                let w2 := after_requests w [count_req; all_req] in
                match server (S (length (sent w))) all_req with
                | ConnFail msg => (Raise (RequestException msg), w2)
                | Reply resp2 =>
                    if http_failed resp2
                    then (Raise (HTTPError (http_error_msg L (req_url all_req) resp2)), w2)
                    else
                      match json_body resp2 with
                      | inl msg => (Raise (JSONDecodeError msg), w2)
                      | inr records => (Ok records, w2)
                      end
                end
            end
        end
  end.
Proof.
  intros count_req. subst count_req.
  set (count_req := Request (socrata_url +:+ "?$select=count(*)") [] 30).
  unfold fetch_socrata_api. unfold bind at 1.
  destruct (server (length (sent w)) count_req) as [msg|resp] eqn:E1.
  { by rewrite (requests_get_fail _ _ _ _ E1). }
  rewrite (requests_get_reply _ _ _ _ E1). unfold bind at 1.
  destruct (http_failed resp) eqn:Ef.
  { by rewrite raise_for_status_failed. }
  rewrite raise_for_status_ok by done. unfold bind at 1, response_json.
  destruct (json_body resp) as [msg|count_data]; [done|]. unfold ret at 1.
  unfold bind at 1, lift.
  destruct (record_count_of L count_data) as [n|e]; [|done].
  cbn zeta. unfold bind at 1.
  assert (Hlen : length (sent (after_requests w [count_req])) = S (length (sent w))).
  { simpl. rewrite length_app. simpl. lia. }
  assert (Hw2 : forall req, after_requests (after_requests w [count_req]) [req] =
                            after_requests w [count_req; req]).
  { intros req. unfold after_requests. simpl. by rewrite <- app_assoc. }
  fold count_req.
  destruct (server (S (length (sent w))) _) as [msg|resp2] eqn:E2.
  { rewrite <- Hlen in E2. by rewrite (requests_get_fail _ _ _ _ E2), Hw2. }
  rewrite <- Hlen in E2. rewrite (requests_get_reply _ _ _ _ E2), Hw2.
  unfold bind at 1.
  destruct (http_failed resp2) eqn:Ef2.
  { by rewrite raise_for_status_failed. }
  rewrite raise_for_status_ok by done.
  unfold response_json. by destruct (json_body resp2).
Qed.


End Fetchers.

(** ** Only the end of [main] raises [SystemExit] *)

Section NoExit.

Context (L : PyLibs) (server : nat -> request -> reply) (now : string).

Lemma no_exit_ret {A} (a : A) : no_exit (ret a).
Proof. intros w r w' H code. unfold ret in H. by inversion H. Qed.

Lemma no_exit_raise {A} e : (forall code, e <> SystemExit code) -> no_exit (@raise A e).
Proof. intros He w r w' H code. unfold raise in H. inversion H; subst. congruence. Qed.

Lemma no_exit_lift {A} (x : result A) :
  (forall code, x <> Raise (SystemExit code)) -> no_exit (lift x).
Proof. intros Hx w r w' H code. unfold lift in H. inversion H; subst. apply Hx. Qed.

Lemma no_exit_bind {A B} (c : M A) (k : A -> M B) :
  no_exit c -> (forall a, no_exit (k a)) -> no_exit (bind c k).
Proof.
  intros Hc Hk w r w' H code. unfold bind in H.
  destruct (c w) as [[a|e] w1] eqn:E.
  - by eapply Hk.
  - inversion H; subst. intros Heq. inversion Heq; subst.
    by eapply (Hc _ _ _ E).
Qed.

Lemma no_exit_try_except {A} (body : M A) handler :
  no_exit body -> (forall e h, handler e = Some h -> no_exit h) ->
  no_exit (try_except body handler).
Proof.
  intros Hb Hh w r w' H code. unfold try_except in H.
  destruct (body w) as [[a|e] w1] eqn:E.
  - inversion H; subst. done.
  - destruct (handler e) as [h|] eqn:Eh.
    + by eapply Hh.
    + inversion H; subst. by eapply Hb.
Qed.

Lemma no_exit_read_file name : no_exit (read_file name).
Proof. unfold read_file. no_exit_prim. Qed.

Lemma no_exit_write_file name b : no_exit (write_file name b).
Proof. unfold write_file. no_exit_prim. Qed.

Lemma no_exit_copy2 b name : no_exit (copy2 b name).
Proof. unfold copy2. no_exit_prim. Qed.

Lemma no_exit_requests_get url headers : no_exit (requests_get server url headers).
Proof. unfold requests_get. no_exit_prim. Qed.

Lemma no_exit_raise_for_status url resp : no_exit (raise_for_status L url resp).
Proof.
  unfold raise_for_status.
  destruct (_ && _)%bool; [by apply no_exit_raise | apply no_exit_ret].
Qed.

Lemma no_exit_response_json resp : no_exit (response_json resp).
Proof.
  unfold response_json.
  destruct (json_body resp); [by apply no_exit_raise | apply no_exit_ret].
Qed.

Lemma py_int_no_exit v code : py_int L v <> Raise (SystemExit code).
Proof.
  destruct v as [|b|n|f|s|l|d]; simpl; try discriminate.
  - destruct f; simpl; discriminate.
  - destruct (int_of_str L s); discriminate.
Qed.

Lemma record_count_of_no_exit v code : record_count_of L v <> Raise (SystemExit code).
Proof.
  unfold record_count_of. destruct (truthy v); [|discriminate].
  destruct (getitem_0 v) as [x|e] eqn:E0.
  - destruct (getitem "count" x) as [c|e] eqn:E1.
    + apply py_int_no_exit.
    + destruct x as [| | | | | |d]; simpl in E1; try (inversion E1; subst; discriminate).
      destruct (dict_get "count" d); inversion E1; subst; discriminate.
  - destruct v as [| | | |[|]|[|]|]; simpl in E0; inversion E0; subst; discriminate.
Qed.

Lemma py_get_no_exit k dflt v code : py_get k dflt v <> Raise (SystemExit code).
Proof. destruct v; simpl; discriminate. Qed.

Lemma py_len_no_exit v code : py_len v <> Raise (SystemExit code).
Proof. destruct v; simpl; discriminate. Qed.

Lemma const_item_no_exit k t code : const_item k t <> Raise (SystemExit code).
Proof. unfold const_item. destruct (dict_get k t); discriminate. Qed.

Lemma collect_xlsx_no_exit hrefs : forall acc code,
  collect_xlsx L hrefs acc <> Raise (SystemExit code).
Proof.
  induction hrefs as [|h rest IH]; intros acc code; simpl; [discriminate|].
  unfold _is_xlsx_href. destruct (urlparse_path L h); [discriminate|].
  destruct (endswith _ _); apply IH.
Qed.

Lemma no_exit_fetch_socrata_api : no_exit (fetch_socrata_api L server).
Proof.
  unfold fetch_socrata_api.
  apply no_exit_bind; [apply no_exit_requests_get|intros resp].
  apply no_exit_bind; [apply no_exit_raise_for_status|intros _].
  apply no_exit_bind; [apply no_exit_response_json|intros cd].
  apply no_exit_bind; [apply no_exit_lift, record_count_of_no_exit|intros n].
  apply no_exit_bind; [apply no_exit_requests_get|intros resp2].
  apply no_exit_bind; [apply no_exit_raise_for_status|intros _].
  apply no_exit_response_json.
Qed.

Lemma no_exit_fetch_xlsx_from_page page_url page_name filename :
  no_exit (fetch_xlsx_from_page L server page_url page_name filename).
Proof.
  unfold fetch_xlsx_from_page.
  apply no_exit_bind; [apply no_exit_requests_get|intros resp].
  apply no_exit_bind; [apply no_exit_raise_for_status|intros _].
  apply no_exit_bind; [apply no_exit_lift, collect_xlsx_no_exit|intros links].
  destruct links as [|link [|link2 rest]]; try by apply no_exit_raise.
  apply no_exit_bind; [apply no_exit_requests_get|intros resp2].
  apply no_exit_bind; [apply no_exit_raise_for_status|intros _].
  apply no_exit_write_file.
Qed.

Lemma no_exit_attempt body caught key errs :
  no_exit body -> no_exit (attempt body caught key errs).
Proof.
  intros Hb. unfold attempt. apply no_exit_try_except.
  - apply no_exit_bind; [done|intros _; apply no_exit_ret].
  - intros e h Hh. destruct (caught e); inversion Hh; subst.
    apply no_exit_bind; [apply no_exit_lift, const_item_no_exit|intros name].
    apply no_exit_ret.
Qed.

Lemma no_exit_socrata_block : no_exit (socrata_block L server).
Proof.
  unfold socrata_block.
  apply no_exit_bind; [apply no_exit_fetch_socrata_api|intros data].
  apply no_exit_bind; [apply no_exit_lift, py_len_no_exit|intros _].
  apply no_exit_bind; [apply no_exit_lift, const_item_no_exit|intros path].
  apply no_exit_write_file.
Qed.

Lemma no_exit_fetch_all : no_exit (fetch_all L server).
Proof.
  unfold fetch_all.
  apply no_exit_bind; [apply no_exit_attempt, no_exit_socrata_block|intros e1].
  apply no_exit_bind; [apply no_exit_attempt, no_exit_fetch_xlsx_from_page|intros e2].
  apply no_exit_attempt, no_exit_fetch_xlsx_from_page.
Qed.

Lemma no_exit_load_data_state : no_exit (load_data_state L).
Proof.
  intros w r w' H code. rewrite load_data_state_cases in H.
  destruct (data_entry w DATA_STATE_FILE) as [[b|sub]|];
    [destruct (json_loads L b)| |]; inversion H; subst; discriminate.
Qed.

Lemma no_exit_detect_one prev key filename st : no_exit (detect_one L prev key filename st).
Proof.
  destruct st as [sources changes]. intros w r w' H code.
  unfold detect_one in H. destruct (negb (path_exists w filename)).
  - inversion H; subst; discriminate.
  - revert w r w' H code. fold (@no_exit (list (string * json) * list json)).
    apply no_exit_bind.
    { unfold get_file_hash. apply no_exit_bind; [apply no_exit_read_file|intros b].
      apply no_exit_ret. }
    intros h. apply no_exit_bind; [apply no_exit_lift, py_get_no_exit|intros v1].
    apply no_exit_bind; [apply no_exit_lift, py_get_no_exit|intros v2].
    apply no_exit_bind; [apply no_exit_lift, py_get_no_exit|intros v3].
    destruct (_ && _)%bool; apply no_exit_ret.
Qed.

Lemma no_exit_detect_loop prev files : forall st, no_exit (detect_loop L prev files st).
Proof.
  induction files as [|[key filename] rest IH]; intros st; cbn [detect_loop].
  - apply no_exit_ret.
  - apply no_exit_bind; [apply no_exit_detect_one|done].
Qed.

Lemma no_exit_detect_data_changes : no_exit (detect_data_changes L now).
Proof.
  unfold detect_data_changes.
  apply no_exit_bind; [apply no_exit_load_data_state|intros prev].
  apply no_exit_bind; [apply no_exit_detect_loop|intros [sources changes]].
  apply no_exit_ret.
Qed.

End NoExit.

(** ** The orchestrator *)

Section Orchestrator.

Context (L : PyLibs) (server : nat -> request -> reply) (now : string).

Lemma start_spec w :
  start w = World (Some (default ∅ (data_dir w))) (Some (default ∅ (data_dir w))) (sent w).
Proof.
  unfold start, makedirs_data, backup_data, set_backup, set_data.
  destruct w as [[d|] [b|] s]; reflexivity.
Qed.

Lemma main_cases w :
  main L server now w =
  match fetch_all L server (start w) with
  | (Ok errs, w1) => conclude L now errs w1
  | (Raise e, w1) => (Raise e, w1)
  end.
Proof.
  unfold main, start. unfold bind at 1. unfold makedirs_data at 1.
  destruct (data_dir w) eqn:Ed; unfold bind at 1; unfold backup_data at 1;
    cbn [fst snd]; unfold bind at 1; unfold makedirs_data; rewrite Ed; reflexivity.
Qed.

Lemma conclude_cases errs w1 :
  conclude L now errs w1 =
  match (if nonempty errs then restore_from_backup w1 else (Ok tt, w1)) with
  | (Raise e, w2) => (Raise e, w2)
  | (Ok _, w2) =>
      match detect_data_changes L now w2 with
      | (Raise e, w3) => (Raise e, w3)
      | (Ok (st, changes), w3) =>
          let state :=
            dict_set "fetch_errors" (JArr errs)
              (dict_set "fetch_success" (JBool (Nat.eqb (length errs) 0))
                 (dict_set "changes_count" (JInt (Z.of_nat (length changes)))
                    (dict_set "changes" (JArr changes) st))) in
          match save_data_state L (JObj state) w3 with
          | (Raise e, w4) => (Raise e, w4)
          | (Ok _, w4) =>
              (if nonempty errs then Raise (SystemExit 1) else Ok tt,
               if nonempty changes then w4
               else if nonempty errs then w4 else (clear_backup w4).2)
          end
      end
  end.
Proof.
  unfold conclude. unfold bind at 1.
  destruct (nonempty errs) eqn:Ee.
  - destruct (restore_from_backup w1) as [[[]|e] w2]; [|done].
    unfold bind at 1.
    destruct (detect_data_changes L now w2) as [[[st changes]|e] w3]; [|done].
    unfold bind at 1.
    destruct (save_data_state L _ w3) as [[[]|e] w4]; [|done].
    unfold bind at 1. simpl.
    destruct (nonempty changes); unfold ret, raise; done.
  - unfold ret at 1. unfold bind at 1.
    destruct (detect_data_changes L now w1) as [[[st changes]|e] w3]; [|done].
    unfold bind at 1.
    destruct (save_data_state L _ w3) as [[[]|e] w4]; [|done].
    unfold bind at 1. simpl.
    destruct (nonempty changes); unfold ret; [done|].
    unfold clear_backup. destruct (backup_dir w4); done.
Qed.


(** The two directories once the fetches have returned: the backup is the
    dataset directory as the run found it, and the dataset directory differs
    from it by files of the sources only. *)
Lemma after_fetches w errs w1 :
  fetch_all L server (start w) = (Ok errs, w1) ->
  backup_dir w1 = Some (default ∅ (data_dir w)) /\
  exists d1, data_dir w1 = Some d1 /\
             overwritten (Some (default ∅ (data_dir w))) (Some d1).
Proof.
  intros H. apply fetch_all_step in H as (B & O & _).
  rewrite start_spec in B, O. simpl in B, O. split; [done|].
  destruct (data_dir w1) as [d1|]; [eauto|done].
Qed.

Lemma overwritten_keeps d0 d1 n entry :
  overwritten (Some d0) (Some d1) ->
  d0 !! n = Some entry -> is_dir (d1 !! n) = is_dir (d0 !! n).
Proof.
  intros O Hn. destruct (O n) as [->|(_ & [b ->] & Hd)]; [done|].
  by rewrite Hd.
Qed.

Lemma overwritten_outside d0 d1 n :
  overwritten (Some d0) (Some d1) -> ~ In n target_files -> d1 !! n = d0 !! n.
Proof. intros O Hn. destruct (O n) as [->|(I & _)]; done. Qed.

Lemma state_file_not_target : ~ In DATA_STATE_FILE target_files.
Proof. simpl. intros [H|[H|[H|[]]]]; discriminate. Qed.

Lemma save_data_state_spec state w d :
  data_dir w = Some d -> is_dir (d !! DATA_STATE_FILE) = false ->
  save_data_state L state w =
    (Ok tt, set_data (Some (<[DATA_STATE_FILE := File (json_dumps L state)]> d)) w).
Proof.
  intros Hd Hn. unfold save_data_state, write_file. rewrite Hd.
  destruct (d !! DATA_STATE_FILE) as [[c|sub]|]; done.
Qed.

(** When the change detector returns, the state file is not a directory. *)
Lemma detect_returns_state_file w d x w' :
  data_dir w = Some d ->
  detect_data_changes L now w = (Ok x, w') -> is_dir (d !! DATA_STATE_FILE) = false.
Proof.
  intros Hd. unfold detect_data_changes. unfold bind at 1.
  rewrite load_data_state_cases. unfold data_entry. rewrite Hd. simpl.
  destruct (d !! DATA_STATE_FILE) as [[c|sub]|]; try done.
Qed.

Lemma detect_data_changes_shape w st changes w' :
  detect_data_changes L now w = (Ok (st, changes), w') ->
  w' = w /\ exists sources, st = [("sources", JObj sources); ("last_check", JStr now)].
Proof.
  intros H. split; [by apply detect_data_changes_world in H|].
  unfold detect_data_changes in H. unfold bind at 1 in H.
  destruct (load_data_state L w) as [[prev|e] w0]; [|discriminate].
  unfold bind at 1 in H.
  destruct (detect_loop L prev DATA_FILES ([], []) w0) as [[[s c]|e] w1]; [|discriminate].
  unfold ret in H. inversion H. eauto.
Qed.

(** What [conclude] does from the state the fetches leave. *)
Lemma conclude_spec errs w1 d0 d1 r w' :
  backup_dir w1 = Some d0 -> data_dir w1 = Some d1 ->
  overwritten (Some d0) (Some d1) ->
  conclude L now errs w1 = (r, w') ->
  exists d2,
    (if nonempty errs then restore_from_backup w1 else (Ok tt, w1)) =
      (Ok tt, set_data (Some d2) w1) /\
    (nonempty errs = false -> d2 = d1) /\
    (nonempty errs = true ->
       forall n, d2 !! n = match d0 !! n with Some (File b) => Some (File b) | _ => d1 !! n end) /\
    match detect_data_changes L now (set_data (Some d2) w1) with
    | (Raise e, _) => r = Raise e /\ w' = set_data (Some d2) w1
    | (Ok (st, changes), _) =>
        exists sources,
          st = [("sources", JObj sources); ("last_check", JStr now)] /\
          r = (if nonempty errs then Raise (SystemExit 1) else Ok tt) /\
          data_dir w' =
            Some (<[DATA_STATE_FILE :=
                      File (json_dumps L (JObj (saved_state now sources changes errs)))]> d2) /\
          backup_dir w' = (if (nonempty changes || nonempty errs)%bool then Some d0 else None) /\
          sent w' = sent w1
    end.
Proof.
  intros Hb Hd Ho H. rewrite conclude_cases in H.
  assert (Hrest : exists d2,
            (if nonempty errs then restore_from_backup w1 else (Ok tt, w1)) =
              (Ok tt, set_data (Some d2) w1) /\
            (nonempty errs = false -> d2 = d1) /\
            (nonempty errs = true ->
               forall n, d2 !! n =
                         match d0 !! n with Some (File b) => Some (File b) | _ => d1 !! n end)).
  { destruct (nonempty errs).
    - destruct (restore_from_backup_spec w1 d1 d0 Hd Hb) as (d2 & Hrun & Hd2).
      { intros n b Hn. by rewrite (overwritten_keeps d0 d1 n (File b)), Hn. }
      exists d2. split; [done|]. split; [done|]. intros _. exact Hd2.
    - exists d1. split; [|split; [done|discriminate]].
      unfold set_data. rewrite <- Hd. by destruct w1. }
  destruct Hrest as (d2 & Hrun & Hd2a & Hd2b). rewrite Hrun in H.
  exists d2. split; [done|]. split; [done|]. split; [done|].
  destruct (detect_data_changes L now (set_data (Some d2) w1)) as [[[st changes]|e] w3] eqn:Edet.
  - pose proof (detect_returns_state_file (set_data (Some d2) w1) d2 _ _ eq_refl Edet) as Hnd.
    apply detect_data_changes_shape in Edet as (-> & sources & ->).
    cbn zeta in H.
    assert (Hst : dict_set "fetch_errors" (JArr errs)
              (dict_set "fetch_success" (JBool (Nat.eqb (length errs) 0))
                 (dict_set "changes_count" (JInt (Z.of_nat (length changes)))
                    (dict_set "changes" (JArr changes)
                       [("sources", JObj sources); ("last_check", JStr now)]))) =
            saved_state now sources changes errs).
    { unfold saved_state. simpl. by destruct errs. }
    rewrite Hst in H. rewrite (save_data_state_spec _ _ d2) in H by done.
    inversion H; subst. exists sources. split; [done|]. split; [done|].
    destruct (nonempty changes), (nonempty errs);
      unfold clear_backup; simpl; rewrite ?Hb; simpl; done.
  - apply detect_data_changes_world in Edet as ->. by inversion H.
Qed.


Lemma set_data_same w d : data_dir w = Some d -> set_data (Some d) w = w.
Proof. intros H. unfold set_data. rewrite <- H. by destruct w. Qed.

Lemma nonempty_true {A} (l : list A) : l <> [] -> nonempty l = true.
Proof. by destruct l. Qed.

Lemma default_data_entry w n : default ∅ (data_dir w) !! n = data_entry w n.
Proof. unfold data_entry. destruct (data_dir w); simpl; [done|apply lookup_empty]. Qed.

(** A run that goes to the end of [main] has saved the state of the run. *)
Lemma completed_run_state w r w' :
  main L server now w = (r, w') ->
  completed r ->
  exists errs w1 sources changes,
    fetch_all L server (start w) = (Ok errs, w1) /\
    data_entry w' DATA_STATE_FILE =
      Some (File (json_dumps L (JObj (saved_state now sources changes errs)))) /\
    r = (if nonempty errs then Raise (SystemExit 1) else Ok tt).
Proof.
  intros Hmain Hdone. rewrite main_cases in Hmain.
  destruct (fetch_all L server (start w)) as [[errs|e] w1] eqn:Hfetch.
  2: { inversion Hmain; subst. destruct Hdone as [?|Hx]; [done|].
       exfalso. inversion Hx; subst e.
       by eapply (no_exit_fetch_all L server _ _ _ Hfetch). }
  destruct (after_fetches _ _ _ Hfetch) as (Hb & d1 & Hd1 & Ho).
  destruct (conclude_spec _ _ _ _ _ _ Hb Hd1 Ho Hmain) as (d2 & _ & _ & _ & Hrest).
  destruct (detect_data_changes L now (set_data (Some d2) w1))
    as [[[st changes]|e] w3] eqn:Edet.
  - destruct Hrest as (sources & _ & -> & Hdata & _).
    exists errs, w1, sources, changes. split; [done|]. split; [|done].
    unfold data_entry. rewrite Hdata. simpl. by rewrite lookup_insert_eq.
  - destruct Hrest as [-> _]. destruct Hdone as [?|Hx]; [done|].
    exfalso. inversion Hx; subst e.
    by eapply (no_exit_detect_data_changes L now _ _ _ Edet).
Qed.

(** A run that an exception aborts ends with status 1 and with the state
    file as the run found it. *)
Lemma aborted_run_keeps_state_file w r w' :
  main L server now w = (r, w') ->
  ~ completed r ->
  exit_code r = 1 /\ data_entry w' DATA_STATE_FILE = data_entry w DATA_STATE_FILE.
Proof.
  intros Hmain Hnot. rewrite main_cases in Hmain.
  destruct (fetch_all L server (start w)) as [[errs|e] w1] eqn:Hfetch.
  2: { inversion Hmain; subst. split.
       - destruct e; try done. exfalso.
         by eapply (no_exit_fetch_all L server _ _ _ Hfetch).
       - apply fetch_all_step in Hfetch as (_ & O & _). rewrite start_spec in O.
         simpl in O. unfold data_entry at 1.
         destruct (data_dir w') as [d1|]; [simpl|done].
         by rewrite (overwritten_outside _ _ _ O state_file_not_target), default_data_entry. }
  destruct (after_fetches _ _ _ Hfetch) as (Hb & d1 & Hd1 & Ho).
  destruct (conclude_spec _ _ _ _ _ _ Hb Hd1 Ho Hmain) as (d2 & _ & Hd2a & Hd2b & Hrest).
  destruct (detect_data_changes L now (set_data (Some d2) w1))
    as [[[st changes]|e] w3] eqn:Edet.
  - destruct Hrest as (sources & _ & -> & _). exfalso. apply Hnot.
    unfold completed. destruct (nonempty errs); auto.
  - destruct Hrest as [-> ->]. split.
    + destruct e; try done. exfalso.
      by eapply (no_exit_detect_data_changes L now _ _ _ Edet).
    + unfold data_entry at 1. simpl.
      pose proof (overwritten_outside _ _ _ Ho state_file_not_target) as Hsame.
      rewrite default_data_entry in Hsame.
      destruct (nonempty errs) eqn:Ee.
      * rewrite (Hd2b eq_refl), default_data_entry, Hsame.
        by destruct (data_entry w DATA_STATE_FILE) as [[b|sub]|].
      * by rewrite (Hd2a eq_refl).
Qed.

(** A run goes to the end of [main] exactly when no fetch raised an exception
    that its [except] clause does not name and the change detector, run after
    the restore if there was one, returned. *)
Lemma main_completed_iff w r w' :
  main L server now w = (r, w') ->
  (completed r <->
   exists errs w1 x,
     fetch_all L server (start w) = (Ok errs, w1) /\
     (detect_data_changes L now
        (if nonempty errs then (restore_from_backup w1).2 else w1)).1 = Ok x).
Proof.
  intros Hmain. rewrite main_cases in Hmain.
  destruct (fetch_all L server (start w)) as [[errs|e] w1] eqn:Hfetch.
  2: { inversion Hmain; subst. split.
       - intros [?|Hx]; [done|]. exfalso. inversion Hx; subst e.
         by eapply (no_exit_fetch_all L server _ _ _ Hfetch).
       - intros (errs & w1 & x & H & _). discriminate. }
  destruct (after_fetches _ _ _ Hfetch) as (Hb & d1 & Hd1 & Ho).
  destruct (conclude_spec _ _ _ _ _ _ Hb Hd1 Ho Hmain) as (d2 & Hrun & _ & _ & Hrest).
  assert (Hw : (if nonempty errs then (restore_from_backup w1).2 else w1) =
               set_data (Some d2) w1).
  { destruct (nonempty errs); [by rewrite Hrun|by inversion Hrun]. }
  destruct (detect_data_changes L now (set_data (Some d2) w1))
    as [[[st changes]|e] w3] eqn:Edet.
  - destruct Hrest as (sources & _ & -> & _). split.
    + intros _. exists errs, w1, (st, changes). split; [done|]. by rewrite Hw, Edet.
    + intros _. unfold completed. destruct (nonempty errs); auto.
  - destruct Hrest as [-> _]. split.
    + intros [?|Hx]; [done|]. exfalso. inversion Hx; subst e.
      by eapply (no_exit_detect_data_changes L now _ _ _ Edet).
    + intros (errs' & w1' & x & H & Hd). inversion H; subst errs' w1'.
      rewrite Hw, Edet in Hd. discriminate.
Qed.

(** C1, amended. In every run in which no exception escapes the three [try]
    blocks and the fetches recorded at least one FetchError, every entry that
    was in the dataset directory before the run, other than the state file,
    is there after the run exactly as it was: a regular file byte for byte, a
    sub-directory with all it holds.  The state file is not kept: a run that
    goes to the end of [main] has written the new state in it, after the
    restore.  A run in which an exception escapes a [try] block ends there,
    in the state the fetches left: nothing is restored. *)
Theorem rollback_keeps_entries_other_than_state_file w rf w1 r w' :
  fetch_all L server (start w) = (rf, w1) ->
  main L server now w = (r, w') ->
  (forall errs, rf = Ok errs -> errs <> [] ->
     (forall name entry,
        name <> DATA_STATE_FILE ->
        data_entry w name = Some entry -> data_entry w' name = Some entry) /\
     (completed r ->
        exists sources changes,
          data_entry w' DATA_STATE_FILE =
            Some (File (json_dumps L (JObj (saved_state now sources changes errs)))))) /\
  (forall e, rf = Raise e -> r = Raise e /\ w' = w1).
Proof.
  intros Hfetch Hmain. split.
  - intros errs -> Herrs. split.
    + intros name entry Hname Hentry.
      rewrite main_cases, Hfetch in Hmain.
      destruct (after_fetches _ _ _ Hfetch) as (Hb & d1 & Hd1 & Ho).
      unfold data_entry in Hentry.
      destruct (data_dir w) as [d0|] eqn:Ed0; [simpl in *|done].
      destruct (conclude_spec _ _ _ _ _ _ Hb Hd1 Ho Hmain) as (d2 & _ & _ & Hd2 & Hrest).
      specialize (Hd2 (nonempty_true _ Herrs) name). rewrite Hentry in Hd2.
      assert (Hkept : d2 !! name = Some entry).
      { destruct entry as [b|sub]; [done|]. rewrite Hd2.
        destruct (Ho name) as [->|(_ & _ & Hdir)]; [done|]. by rewrite Hentry in Hdir. }
      destruct (detect_data_changes L now (set_data (Some d2) w1)) as [[[st changes]|e] w3].
      * destruct Hrest as (sources & _ & _ & Hdata & _).
        unfold data_entry. rewrite Hdata. simpl. by rewrite lookup_insert_ne.
      * destruct Hrest as [_ ->]. done.
    + intros Hdone.
      destruct (completed_run_state _ _ _ Hmain Hdone)
        as (errs' & w1' & sources & changes & Hf & Hs & _).
      rewrite Hfetch in Hf. inversion Hf; subst. eauto.
  - intros e ->. rewrite main_cases, Hfetch in Hmain. by inversion Hmain.
Qed.

(** C4, amended. Every run that goes to the end of [main] has saved a new
    DatasetState holding [changes], [changes_count], [fetch_success] and
    [fetch_errors], with [changes_count] the length of [changes] and
    [fetch_success] true exactly when [fetch_errors] is empty; its exit status
    is 0 when every source was fetched and 1 when a fetch failed, whatever
    the changes.  A run that an exception aborts has saved no state, the state
    file is as the run found it, and its exit status is 1. *)
Theorem completed_run_saves_state_and_sets_exit_status w r w' :
  main L server now w = (r, w') ->
  (completed r ->
     exists errs w1 sources changes,
       fetch_all L server (start w) = (Ok errs, w1) /\
       let state := saved_state now sources changes errs in
       data_entry w' DATA_STATE_FILE = Some (File (json_dumps L (JObj state))) /\
       dict_get "changes" state = Some (JArr changes) /\
       dict_get "changes_count" state = Some (JInt (Z.of_nat (length changes))) /\
       dict_get "fetch_errors" state = Some (JArr errs) /\
       (dict_get "fetch_success" state = Some (JBool true) <-> errs = []) /\
       (dict_get "fetch_success" state = Some (JBool false) <-> errs <> []) /\
       (errs = [] -> r = Ok tt /\ exit_code r = 0) /\
       (errs <> [] -> r = Raise (SystemExit 1) /\ exit_code r = 1)) /\
  (~ completed r ->
     exit_code r = 1 /\ data_entry w' DATA_STATE_FILE = data_entry w DATA_STATE_FILE).
Proof.
  intros Hmain. split; [|by apply aborted_run_keeps_state_file].
  intros Hdone.
  destruct (completed_run_state _ _ _ Hmain Hdone)
    as (errs & w1 & sources & changes & Hf & Hs & ->).
  exists errs, w1, sources, changes. split; [done|]. cbn zeta. split; [done|].
  repeat split; try done.
  all: destruct errs; simpl; try done; try congruence.
Qed.

(** C5. At the end of a run the backup directory is gone exactly when every
    fetch succeeded and the change detector found no change; when a fetch
    failed, or a change was detected, the backup directory is still there and
    holds the dataset directory as the run found it. *)
Theorem backup_cleared_iff_all_fetched_and_no_change w r w' :
  main L server now w = (r, w') ->
  (backup_dir w' = None <->
     exists w1 st, fetch_all L server (start w) = (Ok [], w1) /\
                   detect_data_changes L now w1 = (Ok (st, []), w1)) /\
  (forall errs w1,
     fetch_all L server (start w) = (Ok errs, w1) -> errs <> [] ->
     backup_dir w' = Some (default ∅ (data_dir w))) /\
  (forall w1 st changes,
     fetch_all L server (start w) = (Ok [], w1) ->
     detect_data_changes L now w1 = (Ok (st, changes), w1) -> changes <> [] ->
     backup_dir w' = Some (default ∅ (data_dir w))).
Proof.
  intros Hmain. rewrite main_cases in Hmain.
  destruct (fetch_all L server (start w)) as [[errs|e] w1] eqn:Hfetch.
  2: { inversion Hmain; subst.
       apply fetch_all_step in Hfetch as (B & _). rewrite start_spec in B. simpl in B.
       split; [|split].
       - rewrite B. split; [done|]. intros (w1 & st & H & _). discriminate.
       - intros errs w1 H. discriminate.
       - intros w1 st changes H. discriminate. }
  destruct (after_fetches _ _ _ Hfetch) as (Hb & d1 & Hd1 & Ho).
  destruct (conclude_spec _ _ _ _ _ _ Hb Hd1 Ho Hmain) as (d2 & _ & Hd2 & _ & Hrest).
  destruct errs as [|err errs].
  - rewrite (Hd2 eq_refl), (set_data_same _ _ Hd1) in Hrest.
    destruct (detect_data_changes L now w1) as [[[st changes]|e] w3] eqn:Edet.
    + pose proof (detect_data_changes_world _ _ _ _ _ Edet) as ->.
      destruct Hrest as (sources & _ & _ & _ & Hbk & _).
      destruct changes as [|c changes]; simpl in Hbk; rewrite Hbk.
      * split; [|split].
        -- split; [eauto|done].
        -- intros errs w2 H. inversion H; subst. done.
        -- intros w2 st2 ch2 H Hd Hne. inversion H; subst.
           rewrite Edet in Hd. inversion Hd; subst. done.
      * split; [|split].
        -- split; [done|]. intros (w2 & st2 & H & Hd). inversion H; subst.
           rewrite Edet in Hd. discriminate.
        -- intros errs w2 H. inversion H; subst. done.
        -- done.
    + destruct Hrest as [_ ->]. rewrite Hb. split; [|split].
      * split; [done|]. intros (w2 & st2 & H & Hd). inversion H; subst.
        rewrite Edet in Hd. discriminate.
      * intros errs w2 H. inversion H; subst. done.
      * done.
  - assert (Hkept : backup_dir w' = Some (default ∅ (data_dir w))).
    { destruct (detect_data_changes L now (set_data (Some d2) w1)) as [[[st changes]|e] w3].
      - destruct Hrest as (sources & _ & _ & _ & Hbk & _). rewrite Hbk. simpl.
        by rewrite orb_true_r.
      - destruct Hrest as [_ ->]. done. }
    rewrite Hkept. split; [|split]; try done.
    split; [done|]. intros (w2 & st2 & H & _). discriminate.
Qed.

(** C9, amended. The state file is an entry of the dataset directory, so the
    backup taken at the start of a run holds the state file of the previous
    run; after a fetch failure the restore puts that copy back in the
    dataset directory; and in every run that goes to the end of [main] the
    state is saved after the restore, so the state file then holds the
    DatasetState of the current run.  A run that an exception aborts ends
    with the state file as the run found it. *)
Theorem state_file_backed_up_restored_then_rewritten w r w' :
  main L server now w = (r, w') ->
  backup_entry (start w) DATA_STATE_FILE = data_entry w DATA_STATE_FILE /\
  (forall errs w1,
     fetch_all L server (start w) = (Ok errs, w1) -> errs <> [] ->
     exists w2, restore_from_backup w1 = (Ok tt, w2) /\
                data_entry w2 DATA_STATE_FILE = data_entry w DATA_STATE_FILE) /\
  (completed r ->
     exists errs w1 sources changes,
       fetch_all L server (start w) = (Ok errs, w1) /\
       data_entry w' DATA_STATE_FILE =
         Some (File (json_dumps L (JObj (saved_state now sources changes errs))))) /\
  (~ completed r -> data_entry w' DATA_STATE_FILE = data_entry w DATA_STATE_FILE).
Proof.
  intros Hmain. split; [|split; [|split]].
  - rewrite start_spec. unfold backup_entry. simpl. apply default_data_entry.
  - intros errs w1 Hfetch Herrs.
    destruct (after_fetches _ _ _ Hfetch) as (Hb & d1 & Hd1 & Ho).
    destruct (restore_from_backup_spec w1 d1 _ Hd1 Hb) as (d3 & Hrun & Hd3).
    { intros n b Hn. by rewrite (overwritten_keeps _ d1 n (File b) Ho Hn), Hn. }
    eexists. split; [exact Hrun|]. unfold data_entry at 1. simpl. rewrite Hd3.
    pose proof (overwritten_outside _ _ _ Ho state_file_not_target) as Hsame.
    rewrite Hsame, default_data_entry.
    by destruct (data_entry w DATA_STATE_FILE) as [[b|sub]|].
  - intros Hdone.
    destruct (completed_run_state _ _ _ Hmain Hdone)
      as (errs & w1 & sources & changes & Hf & Hs & _).
    exists errs, w1, sources, changes. done.
  - intros Hnot. by apply (aborted_run_keeps_state_file _ _ _ Hmain Hnot).
Qed.

Lemma attempt_handled (body : M unit) caught key name errs w r w1 :
  body w = (r, w1) ->
  handled caught r ->
  dict_get key SOURCE_NAMES = Some name ->
  attempt body caught key errs w = (Ok (errs ++ errors_of key name caught r), w1).
Proof.
  intros Hb Hh Hname. rewrite attempt_cases, Hb.
  destruct r as [[]|e]; simpl in *.
  - by rewrite app_nil_r.
  - destruct Hh as [msg Hm]. by rewrite Hm, Hname.
Qed.

Lemma attempt_uncaught (body : M unit) caught key errs w e w1 :
  body w = (Raise e, w1) -> caught e = None ->
  attempt body caught key errs w = (Raise e, w1).
Proof. intros Hb Hc. by rewrite attempt_cases, Hb, Hc. Qed.

(** C2, amended. When a source's fetch raises an exception that its [except]
    clause names (a requests exception, HTTP errors included, or a JSON decode
    error, and for the two HTML-scrape sources also a [ValueError]), [main]
    turns it into a FetchError record of the source key, the source name and
    the message, and goes on: each of the three sources is attempted, from
    the state the one before left, whatever the earlier ones did, and
    [fetch_errors] ends up holding the records of the failures in order.  An
    exception of another class is not caught: it leaves the fetches at once
    and no later source is attempted. *)
Theorem caught_fetch_errors_are_recorded_and_later_sources_attempted w r1 w1 r2 w2 r3 w3 :
  socrata_block L server w = (r1, w1) ->
  fetch_dsmi_inventories L server w1 = (r2, w2) ->
  fetch_lead_copper_rule L server w2 = (r3, w3) ->
  (handled caught_socrata r1 -> handled caught_xlsx r2 -> handled caught_xlsx r3 ->
   fetch_all L server w =
     (Ok (errors_of "socrata_90th" "Socrata 90th Percentile API" caught_socrata r1 ++
          errors_of "dsmi" "DSMI Service Line Materials" caught_xlsx r2 ++
          errors_of "lslr" "Lead & Copper Rule (LSLR)" caught_xlsx r3), w3)) /\
  (forall e, r1 = Raise e -> caught_socrata e = None ->
             fetch_all L server w = (Raise e, w1)) /\
  (handled caught_socrata r1 ->
   forall e, r2 = Raise e -> caught_xlsx e = None ->
             fetch_all L server w = (Raise e, w2)) /\
  (handled caught_socrata r1 -> handled caught_xlsx r2 ->
   forall e, r3 = Raise e -> caught_xlsx e = None ->
             fetch_all L server w = (Raise e, w3)).
Proof.
  intros H1 H2 H3.
  assert (A1 : handled caught_socrata r1 ->
               attempt (socrata_block L server) caught_socrata "socrata_90th" [] w =
               (Ok (errors_of "socrata_90th" "Socrata 90th Percentile API" caught_socrata r1), w1)).
  { intros C1. by rewrite (attempt_handled _ _ "socrata_90th" "Socrata 90th Percentile API" _ _ _ _ H1 C1 eq_refl). }
  assert (A2 : forall errs, handled caught_xlsx r2 ->
               attempt (fetch_dsmi_inventories L server) caught_xlsx "dsmi" errs w1 =
               (Ok (errs ++ errors_of "dsmi" "DSMI Service Line Materials" caught_xlsx r2), w2)).
  { intros errs C2. by rewrite (attempt_handled _ _ "dsmi" "DSMI Service Line Materials" _ _ _ _ H2 C2 eq_refl). }
  assert (A3 : forall errs, handled caught_xlsx r3 ->
               attempt (fetch_lead_copper_rule L server) caught_xlsx "lslr" errs w2 =
               (Ok (errs ++ errors_of "lslr" "Lead & Copper Rule (LSLR)" caught_xlsx r3), w3)).
  { intros errs C3. by rewrite (attempt_handled _ _ "lslr" "Lead & Copper Rule (LSLR)" _ _ _ _ H3 C3 eq_refl). }
  unfold fetch_all. split; [|split; [|split]].
  - intros C1 C2 C3. unfold bind at 1. rewrite (A1 C1).
    unfold bind at 1. rewrite (A2 _ C2). rewrite (A3 _ C3). by rewrite <- app_assoc.
  - intros e -> Hc. unfold bind at 1. by rewrite (attempt_uncaught _ _ _ _ _ _ _ H1 Hc).
  - intros C1 e -> Hc. unfold bind at 1. rewrite (A1 C1).
    unfold bind at 1. by rewrite (attempt_uncaught _ _ _ _ _ _ _ H2 Hc).
  - intros C1 C2 e -> Hc. unfold bind at 1. rewrite (A1 C1).
    unfold bind at 1. rewrite (A2 _ C2). by rewrite (attempt_uncaught _ _ _ _ _ _ _ H3 Hc).
Qed.

End Orchestrator.

(** ** Loading the previous state *)

(** C7, amended. Loading the previous state gives the empty state when the
    state file is missing and the decoded contents when the file holds JSON;
    when the contents cannot be parsed the decode error is raised, it is not
    turned into an empty state. *)
Theorem load_data_state_fails_soft_on_missing_file_only (L : PyLibs) w :
  (data_entry w DATA_STATE_FILE = None -> load_data_state L w = (Ok (JObj []), w)) /\
  (forall b v, data_entry w DATA_STATE_FILE = Some (File b) -> json_loads L b = inr v ->
               load_data_state L w = (Ok v, w)) /\
  (forall b msg, data_entry w DATA_STATE_FILE = Some (File b) -> json_loads L b = inl msg ->
                 load_data_state L w = (Raise (JSONDecodeError msg), w)).
Proof.
  rewrite load_data_state_cases. split; [|split].
  - by intros ->.
  - by intros b v -> ->.
  - by intros b msg -> ->.
Qed.

(** ** Examples *)

(** C7: a state file that is not JSON makes the load raise. *)
Lemma load_raises_on_unparsable_state_file :
  data_entry Sample.corrupt_world DATA_STATE_FILE = Some (File "not json") /\
  load_data_state Sample.libs Sample.corrupt_world =
    (Raise (JSONDecodeError "Expecting value: line 1 column 1 (char 0)"), Sample.corrupt_world).
Proof. split; vm_compute; reflexivity. Qed.

Lemma load_data_state_fails_soft_witness :
  load_data_state Sample.libs (World None None []) = (Ok (JObj []), World None None []).
Proof.
  apply (proj1 (load_data_state_fails_soft_on_missing_file_only Sample.libs (World None None []))).
  reflexivity.
Defined.

(** C1: all three fetches fail, the run restores the backup and completes,
    and the state file that was there before the run has new contents. *)
Lemma rollback_rewrites_the_state_file :
  let run := main Sample.libs Sample.server_down Sample.now0 Sample.world0 in
  (exists errs w1, fetch_all Sample.libs Sample.server_down (start Sample.world0) = (Ok errs, w1) /\
                   length errs = 3%nat) /\
  run.1 = Raise (SystemExit 1) /\
  data_entry Sample.world0 DATA_STATE_FILE = Some (File (Sample.show Sample.earlier_state)) /\
  data_entry run.2 DATA_STATE_FILE <> Some (File (Sample.show Sample.earlier_state)).
Proof.
  cbn zeta. split; [|split; [|split]].
  - eexists _, _. split; [reflexivity|]. vm_compute. reflexivity.
  - vm_compute. reflexivity.
  - vm_compute. reflexivity.
  - vm_compute. discriminate.
Qed.

(** C1: the first source is fetched and written, the fetch of the second
    fails and is recorded, and the write of the third raises an error no
    [except] clause names, its name being a directory: the run ends there,
    nothing is restored, and the file of the first source stays overwritten. *)
Example aborted_run_is_not_rolled_back :
  let run := main Sample.libs MoreSample.server_dsmi_down Sample.now0 MoreSample.blocked_world in
  let second := attempt (fetch_dsmi_inventories Sample.libs MoreSample.server_dsmi_down)
                        caught_xlsx "dsmi" []
                  (socrata_block Sample.libs MoreSample.server_dsmi_down
                     (start MoreSample.blocked_world)).2 in
  second.1 = Ok [fetch_error "dsmi" "DSMI Service Line Materials" "Connection refused"] /\
  run.1 = Raise IsADirectoryError /\
  data_entry MoreSample.blocked_world "socrata-90th-percentile.json" = Some (File "old-records") /\
  data_entry run.2 "socrata-90th-percentile.json" =
    Some (File (Sample.show (JArr [JObj [("pwsid", JStr "MI1")]; JObj [("pwsid", JStr "MI2")]]))).
Proof. cbn zeta. repeat split; vm_compute; reflexivity. Qed.

Lemma rollback_keeps_entries_witness :
  data_entry (main Sample.libs Sample.server_500 Sample.now0 Sample.world0).2 Sample.dsmi_file
  = Some (File "old-dsmi-bytes").
Proof.
  set (fetched := fetch_all Sample.libs Sample.server_500 (start Sample.world0)).
  set (run := main Sample.libs Sample.server_500 Sample.now0 Sample.world0).
  apply (proj1 (proj1 (rollback_keeps_entries_other_than_state_file
                  Sample.libs Sample.server_500 Sample.now0 Sample.world0
                  fetched.1 fetched.2 run.1 run.2
                  ltac:(vm_compute; reflexivity)
                  ltac:(vm_compute; reflexivity))
                (Sample.ok_of [] fetched.1)
                ltac:(vm_compute; reflexivity)
                ltac:(vm_compute; discriminate))).
  - vm_compute. discriminate.
  - vm_compute. reflexivity.
Defined.

(** C2: the count query is answered by an object; [count_data[0]] raises a
    [KeyError], which the first [except] clause does not name: it leaves
    [main], no FetchError is recorded, and the two other sources are not
    attempted (the count query is the only request of the run). *)
Lemma uncaught_fetcher_error_aborts_the_run :
  let run := main Sample.libs Sample.server_odd Sample.now0 Sample.world0 in
  (fetch_socrata_api Sample.libs Sample.server_odd (start Sample.world0)).1 = Raise KeyError /\
  run.1 = Raise KeyError /\
  List.map req_url (sent run.2) = [socrata_url +:+ "?$select=count(*)"] /\
  data_entry run.2 DATA_STATE_FILE = data_entry Sample.world0 DATA_STATE_FILE.
Proof. cbn zeta. repeat split; vm_compute; reflexivity. Qed.

Lemma caught_fetch_errors_witness :
  (fetch_all Sample.libs Sample.server_down (start Sample.world0)).1 =
  Ok [fetch_error "socrata_90th" "Socrata 90th Percentile API" "Connection refused";
      fetch_error "dsmi" "DSMI Service Line Materials" "Connection refused";
      fetch_error "lslr" "Lead & Copper Rule (LSLR)" "Connection refused"].
Proof.
  set (s1 := socrata_block Sample.libs Sample.server_down (start Sample.world0)).
  set (s2 := fetch_dsmi_inventories Sample.libs Sample.server_down s1.2).
  set (s3 := fetch_lead_copper_rule Sample.libs Sample.server_down s2.2).
  rewrite (proj1 (caught_fetch_errors_are_recorded_and_later_sources_attempted
                    Sample.libs Sample.server_down (start Sample.world0)
                    s1.1 s1.2 s2.1 s2.2 s3.1 s3.2
                    ltac:(vm_compute; reflexivity)
                    ltac:(vm_compute; reflexivity)
                    ltac:(vm_compute; reflexivity))).
  - vm_compute. reflexivity.
  - vm_compute. by eexists.
  - vm_compute. by eexists.
  - vm_compute. by eexists.
Defined.



(** C4: the state file is not JSON; every source is fetched, the change
    detector raises, no state is saved and the exit status is 1. *)
Lemma unparsable_state_file_run_saves_no_state :
  let run := main Sample.libs Sample.server_up Sample.now0 Sample.corrupt_world in
  (fetch_all Sample.libs Sample.server_up (start Sample.corrupt_world)).1 = Ok [] /\
  run.1 = Raise (JSONDecodeError "Expecting value: line 1 column 1 (char 0)") /\
  exit_code run.1 = 1 /\
  data_entry run.2 DATA_STATE_FILE = Some (File "not json").
Proof. cbn zeta. repeat split; vm_compute; reflexivity. Qed.

Lemma completed_run_witness :
  let run := main Sample.libs Sample.server_500 Sample.now0 Sample.world0 in
  exists errs sources changes,
    length errs = 1%nat /\
    data_entry run.2 DATA_STATE_FILE =
      Some (File (Sample.show (JObj (saved_state Sample.now0 sources changes errs)))) /\
    exit_code run.1 = 1.
Proof.
  set (run := main Sample.libs Sample.server_500 Sample.now0 Sample.world0). cbn zeta.
  destruct (proj1 (completed_run_saves_state_and_sets_exit_status
                     Sample.libs Sample.server_500 Sample.now0 Sample.world0 run.1 run.2
                     ltac:(vm_compute; reflexivity)))
    as (errs & w1 & sources & changes & Hf & Hs & _ & _ & _ & _ & _ & _ & Hexit).
  - right. vm_compute. reflexivity.
  - exists errs, sources, changes. split; [|split].
    + vm_compute in Hf. by inversion Hf.
    + exact Hs.
    + apply Hexit. vm_compute in Hf. inversion Hf. discriminate.
Defined.

(** C5: a first run in which everything is fetched; nothing to compare
    with, no change, the backup is cleared. *)
Lemma backup_cleared_witness :
  backup_dir (main Sample.libs Sample.server_up Sample.now0 (World None None [])).2 = None.
Proof.
  set (w := World None None []).
  set (run := main Sample.libs Sample.server_up Sample.now0 w).
  set (fetched := fetch_all Sample.libs Sample.server_up (start w)).
  apply (proj1 (backup_cleared_iff_all_fetched_and_no_change
                  Sample.libs Sample.server_up Sample.now0 w run.1 run.2
                  ltac:(vm_compute; reflexivity))).
  exists fetched.2, (Sample.ok_of ([], []) (detect_data_changes Sample.libs Sample.now0 fetched.2).1).1.
  split; vm_compute; reflexivity.
Defined.

(** C6: the page of the first spreadsheet source has no spreadsheet link and
    an anchor whose [href] [urlparse] rejects: the fetch fails with the error
    of [urlparse], not with the not-found error. *)
Lemma rejected_href_hides_the_link_count_error :
  let L := MoreSample.libs_strict_urls in
  let w := (socrata_block L MoreSample.server_bad_href (start Sample.world0)).2 in
  let run := fetch_dsmi_inventories L MoreSample.server_bad_href w in
  MoreSample.server_bad_href (length (sent w)) (Request dsmi_page_url user_agent 30) =
    Sample.ok_page "/about http://[bad" /\
  List.filter (xlsx_match L) (find_all_a_href L "/about http://[bad") = [] /\
  run.1 = Raise (ValueError "Invalid IPv6 URL") /\
  run.1 <> Raise (ValueError "No xlsx file link found on DSMI inventories page").
Proof.
  cbn zeta. repeat split; try (vm_compute; reflexivity). vm_compute. discriminate.
Qed.

(** C6: two spreadsheet links on the page of the first spreadsheet source. *)
Lemma xlsx_link_count_witness :
  let w := (socrata_block Sample.libs Sample.server_two_links (start Sample.world0)).2 in
  let run := fetch_dsmi_inventories Sample.libs Sample.server_two_links w in
  run.1 = Raise (ValueError "Multiple xlsx links found on DSMI inventories page (2), skipping fetch: ['/files/a.xlsx', '/files/b.XLSX?rev=2']") /\
  data_dir run.2 = data_dir w.
Proof.
  set (w := (socrata_block Sample.libs Sample.server_two_links (start Sample.world0)).2).
  set (run := fetch_dsmi_inventories Sample.libs Sample.server_two_links w). cbn zeta.
  apply (proj1 (proj2 (proj1 (xlsx_link_count_policy
           Sample.libs Sample.server_two_links
           (fetch_dsmi_inventories Sample.libs Sample.server_two_links)
           dsmi_page_url "DSMI inventories page" "DSMI-Service-Line-Materials-Estimates.xlsx"
           w (Response 200 "/files/a.xlsx /about /files/b.XLSX?rev=2"
                       "/files/a.xlsx /about /files/b.XLSX?rev=2" (inl "Expecting value"))
           run.1 run.2
           ltac:(left; reflexivity)
           ltac:(vm_compute; reflexivity)
           ltac:(reflexivity)
           ltac:(vm_compute; reflexivity))
           ltac:(vm_compute; repeat constructor; by eexists)))).
  vm_compute. lia.
Defined.

(** C6: one spreadsheet link; the file is fetched and written as it is. *)
Example single_xlsx_link_is_downloaded :
  let w := (socrata_block Sample.libs Sample.server_up (start Sample.world0)).2 in
  let run := fetch_dsmi_inventories Sample.libs Sample.server_up w in
  run.1 = Ok tt /\
  data_entry run.2 Sample.dsmi_file = Some (File "dsmi-bytes") /\
  List.map req_url (sent run.2) =
    List.map req_url (sent w) ++ [dsmi_page_url; "https://www.michigan.gov/files/dsmi.xlsx?rev=4"].
Proof. cbn zeta. repeat split; vm_compute; reflexivity. Qed.


(** C9: the state file is not JSON and nothing can be reached; the restore
    puts the state file of the earlier run back, the change detector raises,
    and the run ends with that file in place. *)
Lemma aborted_run_leaves_restored_state_file :
  let run := main Sample.libs Sample.server_down Sample.now0 Sample.corrupt_world in
  (exists errs w1, fetch_all Sample.libs Sample.server_down (start Sample.corrupt_world) = (Ok errs, w1) /\
                   length errs = 3%nat) /\
  run.1 = Raise (JSONDecodeError "Expecting value: line 1 column 1 (char 0)") /\
  data_entry run.2 DATA_STATE_FILE = data_entry Sample.corrupt_world DATA_STATE_FILE /\
  data_entry run.2 DATA_STATE_FILE = Some (File "not json").
Proof.
  cbn zeta. split; [|repeat split; vm_compute; reflexivity].
  eexists _, _. split; [reflexivity|]. vm_compute. reflexivity.
Qed.

Lemma state_file_witness :
  let run := main Sample.libs Sample.server_500 Sample.now0 Sample.world0 in
  backup_entry (start Sample.world0) DATA_STATE_FILE = Some (File (Sample.show Sample.earlier_state)) /\
  exists errs sources changes,
    data_entry run.2 DATA_STATE_FILE =
      Some (File (Sample.show (JObj (saved_state Sample.now0 sources changes errs)))).
Proof.
  set (run := main Sample.libs Sample.server_500 Sample.now0 Sample.world0). cbn zeta.
  destruct (state_file_backed_up_restored_then_rewritten
              Sample.libs Sample.server_500 Sample.now0 Sample.world0 run.1 run.2
              ltac:(vm_compute; reflexivity))
    as (Hbk & _ & Hdone & _).
  split; [rewrite Hbk; vm_compute; reflexivity|].
  destruct Hdone as (errs & w1 & sources & changes & _ & Hs).
  - right. vm_compute. reflexivity.
  - eauto.
Defined.

(** C10: the backup has a file and a sub-directory; the file is copied, the
    entry called like the sub-directory is left alone. *)
Lemma restore_witness :
  let run := restore_from_backup Sample.restore_world in
  data_entry run.2 "archive" = Some (File "note") /\
  data_entry run.2 "a.xlsx" = Some (File "old").
Proof.
  set (run := restore_from_backup Sample.restore_world). cbn zeta.
  destruct (restore_copies_top_level_files_only Sample.restore_world run.1 run.2)
    as (_ & Hdir & _ & Hfile).
  - vm_compute. reflexivity.
  - split.
    + rewrite (Hdir "archive" {[ "2023.xlsx" := File "x" ]}); vm_compute; reflexivity.
    + rewrite (Hfile ltac:(vm_compute; reflexivity) "a.xlsx" "old"); vm_compute; reflexivity.
Defined.

(** * Further properties of the pipeline *)

(** ** The change detector *)

Section DetectMore.

Context (L : PyLibs) (now : string).

Lemma detect_one_sources prev key filename sources changes w sources' changes' w' :
  detect_one L prev key filename (sources, changes) w = (Ok (sources', changes'), w') ->
  sources' = dict_set key (source_record L w filename) sources.
Proof.
  unfold detect_one, source_record, path_exists, get_file_hash, read_file. munfold.
  destruct (data_entry w filename) as [[b|sub]|]; simpl; intros H.
  - destruct (py_get "sources" _ prev) as [v1|]; [|discriminate].
    destruct (py_get key _ v1) as [v2|]; [|discriminate].
    destruct (py_get "content_hash" _ v2) as [v3|]; [|discriminate].
    destruct (_ && _)%bool; by inversion H.
  - discriminate.
  - by inversion H.
Qed.

Lemma detect_loop_sources prev files : forall sources changes w sources' changes' w',
  detect_loop L prev files (sources, changes) w = (Ok (sources', changes'), w') ->
  sources' = fold_left (fun acc kf => dict_set kf.1 (source_record L w kf.2) acc)
                       files sources.
Proof.
  induction files as [|[key filename] rest IH]; intros sources changes w sources' changes' w';
    cbn [detect_loop fold_left].
  - unfold ret. intros H. by inversion H.
  - unfold bind.
    destruct (detect_one _ _ _ _ _ w) as [[[s1 c1]|e] w1] eqn:E1; [|discriminate].
    pose proof (detect_one_world _ _ _ _ _ _ _ _ E1) as ->.
    apply detect_one_sources in E1 as ->. intros H. by apply IH in H.
Qed.

Lemma detect_data_changes_sources w st changes w' :
  detect_data_changes L now w = (Ok (st, changes), w') ->
  st = [("sources", JObj (sources_of L w)); ("last_check", JStr now)].
Proof.
  intros H.
  unfold detect_data_changes in H. unfold bind at 1 in H.
  destruct (load_data_state L w) as [[prev|e] w0] eqn:E0; [|discriminate].
  apply load_data_state_world in E0 as ->.
  unfold bind at 1 in H.
  destruct (detect_loop L prev DATA_FILES ([], []) w) as [[[s c]|e] w1] eqn:E1; [|discriminate].
  apply detect_loop_sources in E1 as ->.
  unfold ret in H. inversion H. reflexivity.
Qed.

(** X1. The state the change detector returns holds one record per
    configured source and no other, in the order of [DATA_FILES]: the record
    says that the file is missing, or that it exists and gives its MD5 digest
    and its name. *)
Theorem detect_records_every_source w st changes w' :
  detect_data_changes L now w = (Ok (st, changes), w') ->
  st = [("sources", JObj (sources_of L w)); ("last_check", JStr now)] /\
  List.map fst (sources_of L w) = List.map fst DATA_FILES.
Proof.
  intros H. split; [by apply detect_data_changes_sources in H|reflexivity].
Qed.

(** X2. The change detector only reads: whatever it returns or raises, the
    dataset directory, the backup directory and the log of requests are as
    before. *)
Theorem detect_data_changes_only_reads w r w' :
  detect_data_changes L now w = (r, w') ->
  data_dir w' = data_dir w /\ backup_dir w' = backup_dir w /\ sent w' = sent w.
Proof. intros H. by apply detect_data_changes_world in H as ->. Qed.

(** X3. On a first run, when there is no state file, the change detector
    returns and reports no change, whatever files of the sources are there,
    provided none of their names is a directory. *)
Theorem first_run_reports_no_change w :
  data_entry w DATA_STATE_FILE = None ->
  (forall f, In f target_files -> is_dir (data_entry w f) = false) ->
  exists st, detect_data_changes L now w = (Ok (st, []), w).
Proof.
  intros Hnone Hdir.
  assert (Hload : load_data_state L w = (Ok (JObj []), w)).
  { by rewrite load_data_state_cases, Hnone. }
  destruct (detect_data_changes_returns L now w (JObj []) Hload) as (st & changes & Hdet).
  { exists []. split; [done|]. exists []. split; [done|]. intros key. by exists []. }
  { done. }
  destruct (detect_data_changes_spec L now w _ _ _ _ _ Hload Hdet) as (_ & _ & Hch).
  exists st. rewrite Hdet. by rewrite Hch.
Qed.

End DetectMore.

(** ** State store and backup manager *)

(** X4. Saving a state and loading it back gives the state again, as far as
    the JSON codec does: if [json.loads] reads [json.dumps state] back as
    [state], then after [save_data_state state] in an existing dataset
    directory whose state file is not a directory, [load_data_state] returns
    [state]; the save touches no other entry. *)
Theorem save_then_load_round_trip (L : PyLibs) state w d :
  data_dir w = Some d ->
  is_dir (d !! DATA_STATE_FILE) = false ->
  json_loads L (json_dumps L state) = inr state ->
  exists w1,
    save_data_state L state w = (Ok tt, w1) /\
    load_data_state L w1 = (Ok state, w1) /\
    backup_dir w1 = backup_dir w /\
    forall name, name <> DATA_STATE_FILE -> data_entry w1 name = data_entry w name.
Proof.
  intros Hd Hdir Hcodec. eexists. split; [by apply save_data_state_spec|].
  split; [|split].
  - rewrite load_data_state_cases. unfold data_entry. simpl.
    by rewrite lookup_insert_eq, Hcodec.
  - done.
  - intros name Hname. unfold data_entry. simpl. rewrite Hd. simpl.
    by rewrite lookup_insert_ne.
Qed.

(** X5. A restore right after a backup changes nothing: whatever the two
    directories were, after [backup_data] the backup is the dataset directory
    as it is, and [restore_from_backup] then returns with every directory as
    [backup_data] left it. *)
Theorem restore_after_backup_changes_nothing w :
  let w1 := (backup_data w).2 in
  backup_data w = (Ok tt, w1) /\
  backup_dir w1 = data_dir w /\ data_dir w1 = data_dir w /\
  restore_from_backup w1 = (Ok tt, w1).
Proof.
  assert (Hw1 : (backup_data w).2 = World (data_dir w) (data_dir w) (sent w)).
  { unfold backup_data, set_backup. destruct w as [[d|] [b|] s]; reflexivity. }
  cbn zeta. rewrite Hw1. split; [|split; [done|split; [done|]]].
  { unfold backup_data, set_backup. destruct w as [[d|] [b|] s]; reflexivity. }
  destruct (data_dir w) as [d|] eqn:Ed; [|reflexivity].
  destruct (restore_from_backup_spec (World (Some d) (Some d) (sent w)) d d eq_refl eq_refl)
    as (d' & Hrun & Hd').
  { intros n b Hn. by rewrite Hn. }
  rewrite Hrun. f_equal. unfold set_data. simpl. f_equal. f_equal.
  apply map_eq. intros n. rewrite Hd'. by destruct (d !! n) as [[b|sub]|].
Qed.

(** ** The fetchers *)

Section FetchMore.

Context (L : PyLibs) (server : nat -> request -> reply).

Lemma write_file_raise name b w e w' : write_file name b w = (Raise e, w') -> w' = w.
Proof.
  unfold write_file.
  destruct (data_dir w) as [d|]; [destruct (d !! name) as [[c|sub]|]|];
    intros H; inversion H; done.
Qed.

Lemma fetch_socrata_api_fs w r w' :
  fetch_socrata_api L server w = (r, w') ->
  data_dir w' = data_dir w /\ backup_dir w' = backup_dir w.
Proof.
  pose proof (fetch_socrata_api_cases L server w) as Hc. cbn zeta in Hc. rewrite Hc.
  repeat match goal with
         | |- context [match ?x with _ => _ end] => destruct x
         end; intros H; inversion H; done.
Qed.

Lemma fetch_xlsx_from_page_raise page_url page_name filename w e w' :
  fetch_xlsx_from_page L server page_url page_name filename w = (Raise e, w') ->
  data_dir w' = data_dir w /\ backup_dir w' = backup_dir w.
Proof.
  unfold fetch_xlsx_from_page. munfold. intros H.
  destruct (requests_get _ _ _ w) as [[resp|e1] w1] eqn:E1;
    apply requests_get_world in E1 as (D1 & B1 & _); [|inversion H; subst; done].
  destruct (raise_for_status _ _ _ w1) as [[[]|e2] w2] eqn:E2;
    apply raise_for_status_world in E2; subst w2; [|inversion H; subst; done].
  destruct (collect_xlsx _ _ _) as [links|e3]; [|inversion H; subst; done].
  destruct links as [|link [|link2 rest]]; try (inversion H; subst; done).
  destruct (requests_get _ _ _ w1) as [[resp2|e4] w4] eqn:E4;
    apply requests_get_world in E4 as (D4 & B4 & _); [|inversion H; subst; split; congruence].
  destruct (raise_for_status _ _ _ w4) as [[[]|e5] w5] eqn:E5;
    apply raise_for_status_world in E5; subst w5; [|inversion H; subst; split; congruence].
  apply write_file_raise in H. subst. split; congruence.
Qed.

(** X6. A fetch that fails has written nothing: when the block of the REST
    source or one of the two HTML-scrape fetchers raises, whatever the
    exception, the dataset directory and the backup directory are exactly as
    before the fetch. *)
Theorem failed_fetch_writes_nothing fetch w e w' :
  In fetch [socrata_block L server; fetch_dsmi_inventories L server;
            fetch_lead_copper_rule L server] ->
  fetch w = (Raise e, w') ->
  data_dir w' = data_dir w /\ backup_dir w' = backup_dir w.
Proof.
  intros Hin H. simpl in Hin. destruct Hin as [<-|[<-|[<-|[]]]].
  - unfold socrata_block in H. unfold bind at 1 in H.
    destruct (fetch_socrata_api L server w) as [[data|e1] w1] eqn:E1;
      apply fetch_socrata_api_fs in E1 as [D1 B1]; [|inversion H; subst; done].
    unfold bind at 1, lift in H.
    destruct (py_len data); [|inversion H; subst; done].
    simpl in H. apply write_file_raise in H. subst. done.
  - by apply fetch_xlsx_from_page_raise in H.
  - by apply fetch_xlsx_from_page_raise in H.
Qed.

End FetchMore.

(** ** The orchestrator, further *)

Section MainMore.

Context (L : PyLibs) (server : nat -> request -> reply) (now : string).

(** *** Requests *)

Lemma sends_at_most_refl w : sends_at_most 0 w w.
Proof. exists []. by rewrite app_nil_r. Qed.

Lemma sends_at_most_same n w w' : sent w' = sent w -> sends_at_most n w w'.
Proof. intros H. exists []. rewrite app_nil_r. repeat split; [done|simpl; lia|done]. Qed.

Lemma sends_at_most_trans n m w1 w2 w3 :
  sends_at_most n w1 w2 -> sends_at_most m w2 w3 -> sends_at_most (n + m) w1 w3.
Proof.
  intros (r1 & S1 & L1 & F1) (r2 & S2 & L2 & F2). exists (r1 ++ r2).
  split; [by rewrite S2, S1, app_assoc|]. split; [rewrite length_app; lia|].
  by apply Forall_app.
Qed.

Lemma sends_at_most_le n m w w' : (n <= m)%nat -> sends_at_most n w w' -> sends_at_most m w w'.
Proof. intros Hle (r & S & Ln & F). exists r. repeat split; [done|lia|done]. Qed.

Lemma requests_get_sends url headers w r w' :
  requests_get server url headers w = (r, w') -> sends_at_most 1 w w'.
Proof.
  intros H. apply requests_get_world in H as (_ & _ & S).
  exists [Request url headers 30]. repeat split; [done|simpl; lia|].
  by repeat constructor.
Qed.

Lemma fetch_xlsx_from_page_sends page_url page_name filename w r w' :
  fetch_xlsx_from_page L server page_url page_name filename w = (r, w') ->
  sends_at_most 2 w w'.
Proof.
  unfold fetch_xlsx_from_page. munfold. intros H.
  destruct (requests_get _ _ _ w) as [[resp|e1] w1] eqn:E1;
    apply requests_get_sends in E1;
    [|inversion H; subst; apply (sends_at_most_le 1 2); [lia|exact E1]].
  destruct (raise_for_status _ _ _ w1) as [[[]|e2] w2] eqn:E2;
    apply raise_for_status_world in E2; subst w2;
    [|inversion H; subst; apply (sends_at_most_le 1 2); [lia|exact E1]].
  destruct (collect_xlsx _ _ _) as [links|e3];
    [|inversion H; subst; apply (sends_at_most_le 1 2); [lia|exact E1]].
  destruct links as [|link [|link2 rest]];
    try (inversion H; subst; apply (sends_at_most_le 1 2); [lia|exact E1]).
  destruct (requests_get _ _ _ w1) as [[resp2|e4] w4] eqn:E4;
    apply requests_get_sends in E4;
    [|inversion H; subst; apply (sends_at_most_trans 1 1 _ _ _ E1 E4)].
  destruct (raise_for_status _ _ _ w4) as [[[]|e5] w5] eqn:E5;
    apply raise_for_status_world in E5; subst w5;
    [|inversion H; subst; apply (sends_at_most_trans 1 1 _ _ _ E1 E4)].
  apply write_file_sent in H.
  apply (sends_at_most_trans 1 1 _ _ _ E1).
  destruct E4 as (reqs & S & Ln & F). exists reqs. by rewrite H.
Qed.

(** The block of the REST source starts with the count query and sends at
    most one more request. *)
Lemma socrata_block_sends w r w' :
  socrata_block L server w = (r, w') ->
  exists rest, sent w' = sent w ++ count_request :: rest /\ (length rest <= 1)%nat /\
               Forall (fun q => req_timeout q = 30) rest.
Proof.
  unfold socrata_block. unfold bind at 1. intros H.
  pose proof (fetch_socrata_api_cases L server w) as Hc. cbn zeta in Hc.
  fold count_request in Hc.
  assert (Hapi : forall ra wa, fetch_socrata_api L server w = (ra, wa) ->
            exists rest, sent wa = sent w ++ count_request :: rest /\ (length rest <= 1)%nat /\
                         Forall (fun q => req_timeout q = 30) rest).
  { intros ra wa Ha. rewrite Ha in Hc.
    repeat match type of Hc with
           | context [match ?x with _ => _ end] => destruct x
           end; inversion Hc; subst; simpl;
      eexists; (split; [reflexivity|]); split; simpl; try lia; by repeat constructor. }
  destruct (fetch_socrata_api L server w) as [[data|e1] w1] eqn:E1.
  - destruct (Hapi _ _ eq_refl) as (rest & S & Ln & F).
    unfold bind at 1, lift in H.
    destruct (py_len data); [|inversion H; subst; by exists rest].
    simpl in H. apply write_file_sent in H. exists rest. by rewrite H.
  - inversion H; subst. exact (Hapi _ _ eq_refl).
Qed.

Lemma attempt_sent body caught key errs w r w' :
  attempt body caught key errs w = (r, w') -> exists r0, body w = (r0, w').
Proof.
  rewrite attempt_cases. destruct (body w) as [[[]|e] w1]; [intros H; inversion H; eauto|].
  destruct (caught e); [destruct (dict_get key SOURCE_NAMES)|]; intros H; inversion H; eauto.
Qed.

Lemma conclude_sent errs w r w' :
  conclude L now errs w = (r, w') -> sent w' = sent w.
Proof.
  rewrite conclude_cases.
  assert (Hrest : forall rr w2,
            (if nonempty errs then restore_from_backup w else (Ok tt, w)) = (rr, w2) ->
            sent w2 = sent w).
  { intros rr w2. destruct (nonempty errs); [|intros H; by inversion H].
    unfold restore_from_backup. destruct (backup_dir w) as [bk|]; [|intros H; by inversion H].
    intros H. by apply (restore_entries_frame bk _ (NoDup_listdir bk)) in H as (_ & S & _). }
  destruct (if nonempty errs then restore_from_backup w else (Ok tt, w)) as [[[]|e] w2] eqn:E2;
    specialize (Hrest _ _ eq_refl); [|intros H; inversion H; by subst].
  destruct (detect_data_changes L now w2) as [[[st changes]|e] w3] eqn:E3;
    apply detect_data_changes_world in E3 as ->; [|intros H; inversion H; by subst].
  cbn zeta. destruct (save_data_state L _ w2) as [[[]|e] w4] eqn:E4;
    apply write_file_sent in E4; [|intros H; inversion H; subst; congruence].
  intros H. inversion H; subst.
  destruct (nonempty changes); [congruence|]. destruct (nonempty errs); [congruence|].
  unfold clear_backup. destruct (backup_dir w4); simpl; congruence.
Qed.

(** X7. A run sends at most six requests, each with the 30 seconds timeout,
    and the first one is always the count query of the REST source. *)
Theorem run_sends_at_most_six_requests w r w' :
  main L server now w = (r, w') ->
  exists rest,
    sent w' = sent w ++ count_request :: rest /\
    (length rest <= 5)%nat /\
    Forall (fun q => req_timeout q = 30) (count_request :: rest).
Proof.
  intros Hmain. rewrite main_cases in Hmain.
  assert (Hfetch : forall rf w1, fetch_all L server (start w) = (rf, w1) ->
            exists rest, sent w1 = sent w ++ count_request :: rest /\ (length rest <= 5)%nat /\
                         Forall (fun q => req_timeout q = 30) rest).
  { intros rf w1. unfold fetch_all. unfold bind at 1. intros H.
    destruct (attempt _ _ _ _ (start w)) as [r1 wa] eqn:E1.
    destruct (attempt_sent _ _ _ _ _ _ _ E1) as [r0 Hb].
    apply socrata_block_sends in Hb as (rest1 & S1 & L1 & F1).
    rewrite start_spec in S1. simpl in S1.
    destruct r1 as [errs1|e]; [|inversion H; subst; exists rest1; repeat split; [done|lia|done]].
    unfold bind at 1 in H.
    destruct (attempt _ _ _ _ wa) as [r2 wb] eqn:E2.
    destruct (attempt_sent _ _ _ _ _ _ _ E2) as [r0' Hb2].
    apply fetch_xlsx_from_page_sends in Hb2 as (rest2 & S2 & L2 & F2).
    destruct r2 as [errs2|e].
    2: { inversion H; subst. exists (rest1 ++ rest2).
         split; [rewrite S2, S1; by rewrite <- app_assoc|].
         split; [rewrite length_app; lia|by apply Forall_app]. }
    destruct (attempt_sent _ _ _ _ _ _ _ H) as [r0'' Hb3].
    apply fetch_xlsx_from_page_sends in Hb3 as (rest3 & S3 & L3 & F3).
    exists (rest1 ++ rest2 ++ rest3).
    split; [rewrite S3, S2, S1; by rewrite <- !app_assoc|].
    split; [rewrite !length_app; lia|]. by rewrite !Forall_app. }
  destruct (fetch_all L server (start w)) as [[errs|e] w1] eqn:E.
  - destruct (Hfetch _ _ eq_refl) as (rest & S & Ln & F).
    apply conclude_sent in Hmain. exists rest. rewrite Hmain.
    split; [done|]. split; [done|]. by constructor.
  - inversion Hmain; subst. destruct (Hfetch _ _ eq_refl) as (rest & S & Ln & F).
    exists rest. split; [done|]. split; [done|]. by constructor.
Qed.

End MainMore.

Section MainFiles.

Context (L : PyLibs) (server : nat -> request -> reply) (now : string).

(** *** The list of fetch errors *)

Lemma attempt_ok_inv body caught key name errs w errs' w' :
  dict_get key SOURCE_NAMES = Some name ->
  attempt body caught key errs w = (Ok errs', w') ->
  exists failure,
    errs' = errs ++ failure_record key name failure /\
    (failure = None -> body w = (Ok tt, w')).
Proof.
  intros Hname. rewrite attempt_cases, Hname.
  destruct (body w) as [[[]|e] w1].
  - intros H; inversion H; subst. exists None. by rewrite app_nil_r.
  - destruct (caught e) as [msg|]; intros H; inversion H; subst.
    exists (Some msg). split; [done|discriminate].
Qed.

(** The three fetches and what they recorded. *)
Lemma fetch_all_inv w errs w3 :
  fetch_all L server w = (Ok errs, w3) ->
  exists f1 f2 f3 w1 w2,
    errs = failure_record "socrata_90th" "Socrata 90th Percentile API" f1 ++
           failure_record "dsmi" "DSMI Service Line Materials" f2 ++
           failure_record "lslr" "Lead & Copper Rule (LSLR)" f3 /\
    fetch_step w w1 /\ fetch_step w1 w2 /\ fetch_step w2 w3 /\
    (f1 = None -> socrata_block L server w = (Ok tt, w1)) /\
    (f2 = None -> fetch_dsmi_inventories L server w1 = (Ok tt, w2)) /\
    (f3 = None -> fetch_lead_copper_rule L server w2 = (Ok tt, w3)).
Proof.
  unfold fetch_all. unfold bind at 1. intros H.
  destruct (attempt _ _ _ _ w) as [[errs1|e] w1] eqn:E1; [|discriminate].
  unfold bind at 1 in H.
  destruct (attempt _ _ _ _ w1) as [[errs2|e] w2] eqn:E2; [|discriminate].
  assert (S1 : fetch_step w w1).
  { eapply attempt_step; [|exact E1]. intros ? ?. apply socrata_block_step. }
  assert (S2 : fetch_step w1 w2).
  { eapply attempt_step; [|exact E2]. unfold fetch_dsmi_inventories. intros ? ?.
    apply fetch_xlsx_from_page_step. simpl; auto. }
  assert (S3 : fetch_step w2 w3).
  { eapply attempt_step; [|exact H]. unfold fetch_lead_copper_rule. intros ? ?.
    apply fetch_xlsx_from_page_step. simpl; auto. }
  apply (attempt_ok_inv _ _ "socrata_90th" "Socrata 90th Percentile API" _ _ _ _ eq_refl)
    in E1 as (f1 & -> & B1).
  apply (attempt_ok_inv _ _ "dsmi" "DSMI Service Line Materials" _ _ _ _ eq_refl)
    in E2 as (f2 & -> & B2).
  apply (attempt_ok_inv _ _ "lslr" "Lead & Copper Rule (LSLR)" _ _ _ _ eq_refl)
    in H as (f3 & -> & B3).
  exists f1, f2, f3, w1, w2. split; [by rewrite <- app_assoc|]. done.
Qed.

(** X8. The list of fetch errors of a run holds at most one record per
    source, in the order in which the sources are fetched, and each record
    carries the key and the name of its source. *)
Theorem fetch_errors_one_per_source_in_order w errs w' :
  fetch_all L server w = (Ok errs, w') ->
  exists f1 f2 f3,
    errs = failure_record "socrata_90th" "Socrata 90th Percentile API" f1 ++
           failure_record "dsmi" "DSMI Service Line Materials" f2 ++
           failure_record "lslr" "Lead & Copper Rule (LSLR)" f3 /\
    (length errs <= 3)%nat.
Proof.
  intros H. apply fetch_all_inv in H as (f1 & f2 & f3 & _ & _ & -> & _).
  exists f1, f2, f3. split; [done|]. destruct f1, f2, f3; simpl; lia.
Qed.

(** *** The files after the fetches *)

Lemma write_file_ok name b w w' :
  write_file name b w = (Ok tt, w') -> data_entry w' name = Some (File b).
Proof.
  unfold write_file, data_entry.
  destruct (data_dir w) as [d|]; [destruct (d !! name) as [[c|sub]|]|];
    intros H; inversion H; subst; simpl; by rewrite lookup_insert_eq.
Qed.

Lemma socrata_block_ok w w' :
  socrata_block L server w = (Ok tt, w') ->
  exists b, data_entry w' "socrata-90th-percentile.json" = Some (File b).
Proof.
  unfold socrata_block. munfold. intros H.
  destruct (fetch_socrata_api L server w) as [[data|e] w1]; [|discriminate].
  destruct (py_len data); [|discriminate]. simpl in H.
  apply write_file_ok in H. eauto.
Qed.

Lemma fetch_xlsx_from_page_ok page_url page_name filename w w' :
  fetch_xlsx_from_page L server page_url page_name filename w = (Ok tt, w') ->
  exists b, data_entry w' filename = Some (File b).
Proof.
  unfold fetch_xlsx_from_page. munfold. intros H.
  destruct (requests_get _ _ _ w) as [[resp|e1] w1]; [|discriminate].
  destruct (raise_for_status _ _ _ w1) as [[[]|e2] w2]; [|discriminate].
  destruct (collect_xlsx _ _ _) as [links|e3]; [|discriminate].
  destruct links as [|link [|link2 rest]]; try discriminate.
  destruct (requests_get _ _ _ w2) as [[resp2|e4] w4]; [|discriminate].
  destruct (raise_for_status _ _ _ w4) as [[[]|e5] w5]; [|discriminate].
  apply write_file_ok in H. eauto.
Qed.

Lemma fetch_step_keeps_files w w' name b :
  fetch_step w w' -> data_entry w name = Some (File b) ->
  exists b', data_entry w' name = Some (File b').
Proof.
  intros (_ & O & _). unfold data_entry.
  destruct (data_dir w) as [d|], (data_dir w') as [d'|]; simpl in *; try done.
  intros Hn. destruct (O name) as [->|(_ & Hf & _)]; eauto.
Qed.

(** When no fetch error was recorded, the file of every source is a regular
    file. *)
Lemma all_fetched_files w w' :
  fetch_all L server w = (Ok [], w') ->
  forall f, In f target_files -> exists b, data_entry w' f = Some (File b).
Proof.
  intros H. apply fetch_all_inv in H
    as (f1 & f2 & f3 & w1 & w2 & Herrs & S1 & S2 & S3 & B1 & B2 & B3).
  destruct f1, f2, f3; try discriminate.
  specialize (B1 eq_refl). specialize (B2 eq_refl). specialize (B3 eq_refl).
  apply socrata_block_ok in B1 as [b1 H1].
  apply fetch_xlsx_from_page_ok in B2 as [b2 H2].
  apply fetch_xlsx_from_page_ok in B3 as [b3 H3].
  intros f Hin. simpl in Hin. destruct Hin as [<-|[<-|[<-|[]]]].
  - destruct (fetch_step_keeps_files _ _ _ _ S2 H1) as [b Hb].
    by apply (fetch_step_keeps_files _ _ _ _ S3 Hb).
  - by apply (fetch_step_keeps_files _ _ _ _ S3 H2).
  - eauto.
Qed.

Lemma source_record_ext w w' f :
  data_entry w f = data_entry w' f -> source_record L w f = source_record L w' f.
Proof. unfold source_record. by intros ->. Qed.

Lemma sources_of_ext w w' :
  (forall f, In f target_files -> data_entry w f = data_entry w' f) ->
  sources_of L w = sources_of L w'.
Proof.
  intros H. unfold sources_of. apply map_ext_in. intros [k f] Hin. simpl.
  f_equal. apply source_record_ext, H. unfold target_files.
  by apply (in_map snd) in Hin.
Qed.

Lemma target_not_state_file f : In f target_files -> f <> DATA_STATE_FILE.
Proof. intros Hin ->. by apply state_file_not_target. Qed.

(** The files of the sources after a run that exits with status 0. *)
Lemma fetched_files_after_successful_run w w' :
  main L server now w = (Ok tt, w') ->
  forall f, In f target_files -> exists b, data_entry w' f = Some (File b).
Proof.
  intros Hmain f Hin. rewrite main_cases in Hmain.
  destruct (fetch_all L server (start w)) as [[errs|e] w1] eqn:Hfetch; [|discriminate].
  destruct (after_fetches _ _ _ _ _ Hfetch) as (Hb & d1 & Hd1 & Ho).
  destruct (conclude_spec _ _ _ _ _ _ _ _ Hb Hd1 Ho Hmain) as (d2 & _ & Hd2 & _ & Hrest).
  destruct (detect_data_changes L now (set_data (Some d2) w1)) as [[[st changes]|e] w3];
    [|by destruct Hrest].
  destruct Hrest as (sources & _ & Hr & Hdata & _).
  destruct errs; [|discriminate]. rewrite (Hd2 eq_refl) in Hdata.
  destruct (all_fetched_files _ _ Hfetch f Hin) as [b Hf]. exists b.
  unfold data_entry in *. rewrite Hdata. rewrite Hd1 in Hf. simpl in *.
  rewrite lookup_insert_ne; [done|]. intros Heq. by apply (target_not_state_file f).
Qed.

(** X9. A run that exits with status 0 leaves the file of every source in
    the dataset directory as a regular file. *)
Theorem successful_run_leaves_every_source_file w w' :
  main L server now w = (Ok tt, w') ->
  forall f, In f target_files -> exists b, data_entry w' f = Some (File b).
Proof. apply fetched_files_after_successful_run. Qed.

End MainFiles.

Section MainFrame.

Context (L : PyLibs) (server : nat -> request -> reply) (now : string).

(** The dataset directory at the end of a run, against the one the run
    found: [d0] with some files of the sources and the state file
    overwritten. *)
Lemma main_data_dir w r w' :
  main L server now w = (r, w') ->
  exists d',
    data_dir w' = Some d' /\
    forall n, d' !! n = default ∅ (data_dir w) !! n \/
              ((In n target_files \/ n = DATA_STATE_FILE) /\
               (exists b, d' !! n = Some (File b)) /\
               is_dir (default ∅ (data_dir w) !! n) = false).
Proof.
  intros Hmain. rewrite main_cases in Hmain.
  destruct (fetch_all L server (start w)) as [[errs|e] w1] eqn:Hfetch.
  2: { inversion Hmain; subst. apply fetch_all_step in Hfetch as (_ & O & _).
       rewrite start_spec in O. simpl in O.
       destruct (data_dir w') as [d1|]; [|done]. exists d1. split; [done|].
       intros n. destruct (O n) as [?|(I & F & D)]; [by left|right; auto]. }
  destruct (after_fetches _ _ _ _ _ Hfetch) as (Hb & d1 & Hd1 & Ho).
  destruct (conclude_spec _ _ _ _ _ _ _ _ Hb Hd1 Ho Hmain) as (d2 & _ & Hd2a & Hd2b & Hrest).
  set (d0 := default ∅ (data_dir w)) in *.
  assert (Ho2 : forall n, d2 !! n = d0 !! n \/
                          (In n target_files /\ (exists b, d2 !! n = Some (File b)) /\
                           is_dir (d0 !! n) = false)).
  { intros n. destruct (nonempty errs) eqn:Ee.
    - rewrite (Hd2b eq_refl). destruct (Ho n) as [E|(I & F & D)].
      + rewrite E. left. by destruct (d0 !! n) as [[b|sub]|].
      + destruct (d0 !! n) as [[b|sub]|]; [by left|done|right; auto].
    - rewrite (Hd2a eq_refl). apply Ho. }
  destruct (detect_data_changes L now (set_data (Some d2) w1))
    as [[[st changes]|e] w3] eqn:Edet.
  - pose proof (detect_returns_state_file L now (set_data (Some d2) w1) d2 _ _ eq_refl Edet)
      as Hnd.
    destruct Hrest as (sources & _ & _ & Hdata & _).
    eexists. split; [exact Hdata|]. intros n.
    destruct (decide (n = DATA_STATE_FILE)) as [->|Hne].
    + right. rewrite lookup_insert_eq. split; [by right|]. split; [eauto|].
      destruct (Ho2 DATA_STATE_FILE) as [<-|(_ & _ & D)]; done.
    + rewrite lookup_insert_ne by done.
      destruct (Ho2 n) as [?|(I & F & D)]; [by left|right; auto].
  - destruct Hrest as [_ ->]. exists d2. split; [done|]. intros n.
    destruct (Ho2 n) as [?|(I & F & D)]; [by left|right; auto].
Qed.

(** X10. Whatever a run does, and also when an exception aborts it, it
    leaves alone every entry of the dataset directory that is neither the
    file of a source nor the state file, it removes no entry, and it changes
    no sub-directory. *)
Theorem run_touches_only_source_files_and_state_file w r w' :
  main L server now w = (r, w') ->
  (forall name, ~ In name target_files -> name <> DATA_STATE_FILE ->
                data_entry w' name = data_entry w name) /\
  (forall name, is_Some (data_entry w name) -> is_Some (data_entry w' name)) /\
  (forall name sub, data_entry w name = Some (Dir sub) ->
                    data_entry w' name = Some (Dir sub)).
Proof.
  intros Hmain. destruct (main_data_dir _ _ _ Hmain) as (d' & Hd' & H).
  assert (Hentry : forall n, data_entry w' n = d' !! n).
  { intros n. unfold data_entry. by rewrite Hd'. }
  split; [|split].
  - intros name Ht Hs. rewrite Hentry, <- default_data_entry.
    destruct (H name) as [?|([?|?] & _)]; done.
  - intros name. rewrite Hentry, <- default_data_entry.
    destruct (H name) as [->|(_ & [b ->] & _)]; eauto.
  - intros name sub. rewrite Hentry, <- default_data_entry. intros Hn.
    destruct (H name) as [->|(_ & _ & D)]; [done|]. by rewrite Hn in D.
Qed.

(** X11. The state a completed run saves describes the dataset directory as
    the run leaves it: for every source, the record in [sources] says
    whether the file is there at the end of the run and gives the MD5 digest
    of its final contents. *)
Theorem saved_state_describes_final_directory w r w' :
  main L server now w = (r, w') ->
  completed r ->
  exists changes errs,
    data_entry w' DATA_STATE_FILE =
      Some (File (json_dumps L (JObj (saved_state now (sources_of L w') changes errs)))).
Proof.
  intros Hmain Hdone. rewrite main_cases in Hmain.
  destruct (fetch_all L server (start w)) as [[errs|e] w1] eqn:Hfetch.
  2: { inversion Hmain; subst. destruct Hdone as [?|Hx]; [done|].
       exfalso. inversion Hx; subst e.
       by eapply (no_exit_fetch_all L server _ _ _ Hfetch). }
  destruct (after_fetches _ _ _ _ _ Hfetch) as (Hb & d1 & Hd1 & Ho).
  destruct (conclude_spec _ _ _ _ _ _ _ _ Hb Hd1 Ho Hmain) as (d2 & _ & _ & _ & Hrest).
  destruct (detect_data_changes L now (set_data (Some d2) w1))
    as [[[st changes]|e] w3] eqn:Edet.
  - pose proof (detect_data_changes_sources _ _ _ _ _ _ Edet) as Hst.
    destruct Hrest as (sources & Hst' & _ & Hdata & _).
    rewrite Hst in Hst'. inversion Hst'; subst sources.
    exists changes, errs. unfold data_entry at 1. rewrite Hdata. simpl.
    rewrite lookup_insert_eq. do 5 f_equal.
    apply sources_of_ext. intros f Hin. unfold data_entry. rewrite Hdata. simpl.
    rewrite lookup_insert_ne; [done|]. intros Heq. by apply (target_not_state_file f).
  - destruct Hrest as [-> _]. destruct Hdone as [?|Hx]; [done|].
    exfalso. inversion Hx; subst e.
    by eapply (no_exit_detect_data_changes L now _ _ _ Edet).
Qed.

End MainFrame.

Section SecondRun.

Context (L : PyLibs) (server : nat -> request -> reply) (now : string).

(** A source whose file has the bytes the previous state recorded has not
    changed. *)
Lemma recorded_file_not_changed w w2 now0 changes0 errs0 key f :
  In (key, f) DATA_FILES ->
  data_entry w2 f = data_entry w f ->
  content_changed L w2 (JObj (saved_state now0 (sources_of L w) changes0 errs0)) key f = false.
Proof.
  intros Hin Hsame. unfold content_changed, current_hash. rewrite Hsame.
  assert (Hprev : previous_hash (JObj (saved_state now0 (sources_of L w) changes0 errs0)) key =
                  match data_entry w f with
                  | Some (File b) =>
                      if truthy (JStr (md5_hexdigest L b))
                      then Some (JStr (md5_hexdigest L b)) else None
                  | _ => None
                  end).
  { simpl in Hin. destruct Hin as [Hin|[Hin|[Hin|[]]]]; inversion Hin; subst key f;
      unfold previous_hash, sources_of, source_record; simpl;
      match goal with |- context [data_entry w ?f] => destruct (data_entry w f) as [[b|sub]|] end;
      reflexivity. }
  rewrite Hprev. destruct (data_entry w f) as [[b|sub]|]; try done.
  destruct (truthy _); [|done]. simpl. by rewrite String.eqb_refl.
Qed.

Lemma saved_state_well_formed now0 sources changes errs :
  (forall key, exists record, default (JObj []) (dict_get key sources) = JObj record) ->
  well_formed_state (JObj (saved_state now0 sources changes errs)).
Proof. intros H. eexists. split; [done|]. exists sources. split; [done|]. exact H. Qed.

Lemma sources_of_records w key :
  exists record, default (JObj []) (dict_get key (sources_of L w)) = JObj record.
Proof.
  unfold sources_of, source_record. simpl.
  repeat match goal with
         | |- context [String.eqb key ?k] => destruct (String.eqb key k)
         | |- context [data_entry w ?f] => destruct (data_entry w f) as [[?|?]|]
         end; simpl; eauto.
Qed.

(** X12. A run that finds the state of an earlier run, fetches every source
    and gets the bytes that state recorded reports no change: it exits with
    status 0, clears the backup, and saves a state with an empty list of
    changes.  The state of the earlier run must be one that [json.loads]
    reads back from what [json.dumps] wrote. *)
Theorem unchanged_upstream_run_reports_no_change w now0 changes0 errs0 w2 r w' :
  let prev := JObj (saved_state now0 (sources_of L w) changes0 errs0) in
  data_entry w DATA_STATE_FILE = Some (File (json_dumps L prev)) ->
  json_loads L (json_dumps L prev) = inr prev ->
  fetch_all L server (start w) = (Ok [], w2) ->
  (forall f, In f target_files -> data_entry w2 f = data_entry w f) ->
  main L server now w = (r, w') ->
  r = Ok tt /\
  backup_dir w' = None /\
  data_entry w' DATA_STATE_FILE =
    Some (File (json_dumps L (JObj (saved_state now (sources_of L w') [] [])))).
Proof.
  intros prev Hfile Hcodec Hfetch Hsame Hmain.
  set (st0 := saved_state now0 (sources_of L w) changes0 errs0) in *.
  rewrite main_cases, Hfetch in Hmain.
  destruct (after_fetches _ _ _ _ _ Hfetch) as (Hb & d1 & Hd1 & Ho).
  destruct (conclude_spec _ _ _ _ _ _ _ _ Hb Hd1 Ho Hmain) as (d2 & _ & Hd2 & _ & Hrest).
  rewrite (Hd2 eq_refl), (set_data_same _ _ Hd1) in Hrest.
  assert (Hstate : data_entry w2 DATA_STATE_FILE = Some (File (json_dumps L prev))).
  { unfold data_entry at 1. rewrite Hd1. simpl.
    by rewrite (overwritten_outside _ _ _ Ho state_file_not_target), default_data_entry. }
  assert (Hload : load_data_state L w2 = (Ok prev, w2)).
  { by rewrite load_data_state_cases, Hstate, Hcodec. }
  destruct (detect_data_changes_returns L now w2 prev Hload) as (st & changes & Hdet).
  { apply saved_state_well_formed, sources_of_records. }
  { intros f Hin. destruct (all_fetched_files _ _ _ _ Hfetch f Hin) as [b ->]. done. }
  destruct (detect_data_changes_spec L now w2 _ _ _ _ _ Hload Hdet) as (_ & _ & Hch).
  assert (Hnone : changes = []).
  { rewrite Hch. cbn [DATA_FILES flat_map fst snd].
    unfold prev, st0.
    rewrite (recorded_file_not_changed w w2 now0 changes0 errs0
               "socrata_90th" "socrata-90th-percentile.json");
      [|simpl; auto|apply Hsame; simpl; auto].
    rewrite (recorded_file_not_changed w w2 now0 changes0 errs0
               "dsmi" "DSMI-Service-Line-Materials-Estimates.xlsx");
      [|simpl; auto|apply Hsame; simpl; auto].
    rewrite (recorded_file_not_changed w w2 now0 changes0 errs0
               "lslr" "2024-2025-LSLR-Data.xlsx");
      [|simpl; auto|apply Hsame; simpl; auto].
    done. }
  clear Hch. subst changes. pose proof (detect_data_changes_sources _ _ _ _ _ _ Hdet) as Hst.
  rewrite Hdet in Hrest. destruct Hrest as (sources & Hst' & -> & Hdata & Hbk & _).
  rewrite Hst in Hst'. inversion Hst'; subst sources.
  split; [done|]. split; [exact Hbk|].
  unfold data_entry at 1. rewrite Hdata. simpl. rewrite lookup_insert_eq. do 5 f_equal.
  apply sources_of_ext. intros f Hin. unfold data_entry. rewrite Hdata, Hd1. simpl.
  rewrite lookup_insert_ne; [done|]. intros Heq. by apply (target_not_state_file f).
Qed.

End SecondRun.

(** ** The spreadsheet-link test *)

Lemma string_app_cons c (a b : string) : String c a +:+ b = String c (a +:+ b).
Proof. reflexivity. Qed.

Lemma string_length_app (a b : string) :
  String.length (a +:+ b) = (String.length a + String.length b)%nat.
Proof.
  induction a as [|c a IH]; [done|]. rewrite string_app_cons. simpl. by rewrite IH.
Qed.

Lemma substring_all (s : string) : String.substring 0 (String.length s) s = s.
Proof. induction s as [|c s IH]; simpl; [done|by rewrite IH]. Qed.

Lemma substring_app_suffix (pre suf : string) :
  String.substring (String.length pre) (String.length suf) (pre +:+ suf) = suf.
Proof.
  induction pre as [|c pre IH]; [apply substring_all|].
  rewrite string_app_cons. exact IH.
Qed.

Lemma substring_split (s : string) : forall m,
  (m <= String.length s)%nat ->
  s = String.substring 0 m s +:+ String.substring m (String.length s - m) s.
Proof.
  induction s as [|c s IH]; intros m Hm; simpl in *.
  - destruct m; [done|lia].
  - destruct m as [|m]; simpl.
    + by rewrite substring_all.
    + rewrite string_app_cons. f_equal. apply IH. lia.
Qed.

Lemma lower_length (s : string) : String.length (lower s) = String.length s.
Proof. induction s as [|c s IH]; simpl; [done|by rewrite IH]. Qed.

Lemma lower_app (a b : string) : lower (a +:+ b) = lower a +:+ lower b.
Proof.
  induction a as [|c a IH]; [done|]. rewrite !string_app_cons. simpl. by rewrite IH.
Qed.

Lemma lower_substring (s : string) : forall m k,
  lower (String.substring m k s) = String.substring m k (lower s).
Proof.
  induction s as [|c s IH]; intros m k; simpl.
  - by destruct m, k.
  - destruct m as [|m]; [destruct k as [|k]; simpl; [done|by rewrite IH]|apply IH].
Qed.

Lemma endswith_iff (s suffix : string) :
  endswith s suffix = true <-> exists pre, s = pre +:+ suffix.
Proof.
  unfold endswith. rewrite andb_true_iff, Nat.leb_le, String.eqb_eq. split.
  - intros [Hle Hsub]. exists (String.substring 0 (String.length s - String.length suffix) s).
    pose proof (substring_split s (String.length s - String.length suffix)
                  ltac:(lia)) as Hsplit.
    replace (String.length s - (String.length s - String.length suffix))%nat
      with (String.length suffix) in Hsplit by lia.
    by rewrite Hsub in Hsplit.
  - intros [pre ->]. rewrite string_length_app. split; [lia|].
    replace (String.length pre + String.length suffix - String.length suffix)%nat
      with (String.length pre) by lia.
    apply substring_app_suffix.
Qed.

(** X13. [_is_xlsx_href] accepts an [href] exactly when [urlparse] gives it
    a path that ends in [.xlsx] written in any letter case; what follows the
    path (a query string) plays no part.  When [urlparse] rejects the [href]
    the [ValueError] is raised. *)
Theorem is_xlsx_href_iff (L : PyLibs) href :
  (_is_xlsx_href L href = Ok true <->
   exists stem ext, urlparse_path L href = inr (stem +:+ ext) /\ lower ext = ".xlsx") /\
  (forall msg, urlparse_path L href = inl msg ->
               _is_xlsx_href L href = Raise (ValueError msg)).
Proof.
  unfold _is_xlsx_href. split.
  - destruct (urlparse_path L href) as [msg|path].
    { split; [discriminate|]. intros (stem & ext & H & _). discriminate. }
    split.
    + intros H. assert (Hend : endswith (lower path) ".xlsx" = true) by congruence.
      clear H. apply endswith_iff in Hend as [pre Hpre].
      assert (Hlen : (5 <= String.length path)%nat).
      { rewrite <- lower_length, Hpre, string_length_app. simpl. lia. }
      exists (String.substring 0 (String.length path - 5) path),
             (String.substring (String.length path - 5) 5 path).
      split.
      * f_equal.
        pose proof (substring_split path (String.length path - 5) ltac:(lia)) as Hsplit.
        replace (String.length path - (String.length path - 5))%nat
          with 5%nat in Hsplit by lia.
        exact Hsplit.
      * rewrite lower_substring, Hpre.
        replace (String.length path - 5)%nat with (String.length pre).
        { apply (substring_app_suffix pre ".xlsx"). }
        rewrite <- (lower_length path), Hpre, string_length_app. simpl. lia.
    + intros (stem & ext & H & Hext). inversion H; subst path. f_equal.
      apply endswith_iff. exists (lower stem). by rewrite lower_app, Hext.
  - by intros msg ->.
Qed.

(** ** The REST fetcher, at the edges *)

Section SocrataEdges.

Context (L : PyLibs) (server : nat -> request -> reply) (now : string).

(** X14. When the answer to the count query is empty (an empty list, or any
    JSON value Python takes as false), the record count is 0 and the
    follow-up request asks for [$limit=0]. *)
Theorem empty_count_answer_requests_limit_zero w resp count_data r w' :
  server (length (sent w)) count_request = Reply resp ->
  http_failed resp = false ->
  json_body resp = inr count_data ->
  truthy count_data = false ->
  fetch_socrata_api L server w = (r, w') ->
  sent w' = sent w ++ [count_request; Request (socrata_url +:+ "?$limit=0") [] 30].
Proof.
  intros Hresp Hok Hjson Hfalsy Hrun.
  pose proof (fetch_socrata_api_cases L server w) as Hc. cbn zeta in Hc.
  fold count_request in Hc. rewrite Hrun, Hresp, Hok, Hjson in Hc.
  unfold record_count_of in Hc. rewrite Hfalsy in Hc.
  change (str_of_int 0) with "0" in Hc.
  repeat match type of Hc with
         | context [match ?x with _ => _ end] => destruct x
         end; by inversion Hc.
Qed.

(** X15. When the records the API returns have no length (the body is
    [null], a number or a boolean), [main] fails on [len(socrata_data)] with
    a [TypeError] that no [except] clause names: the run is aborted at once,
    with nothing written, no other source attempted and no state saved. *)
Theorem records_without_length_abort_the_run w data w1 :
  fetch_socrata_api L server (start w) = (Ok data, w1) ->
  py_len data = Raise TypeError ->
  main L server now w = (Raise TypeError, w1) /\
  data_dir w1 = data_dir (start w) /\
  exit_code (Raise TypeError) = 1.
Proof.
  intros Hapi Hlen. split; [|split; [|done]].
  - rewrite main_cases. unfold fetch_all. unfold bind at 1.
    rewrite attempt_cases. unfold socrata_block. unfold bind at 1. rewrite Hapi.
    unfold bind at 1, lift. by rewrite Hlen.
  - by apply fetch_socrata_api_fs in Hapi as [-> _].
Qed.

End SocrataEdges.

(** ** The merge script *)

Section Merge.

Context (P : MergeData.Pandas) (DATA_DIR : string).

(** X16. The merge script changes one entry of the dataset directory at
    most, [DSMI-LSLR-Merged.xlsx]: its two inputs and every other entry, the
    backup directory and the log of requests are as before, whatever the run
    returns or raises.  A run that succeeds leaves the output as a regular
    file; a run that fails otherwise than inside pandas has written nothing;
    a missing input makes it fail at the checks [main] starts with. *)
Theorem merge_writes_only_its_output w r w' :
  MergeData.main P DATA_DIR w = (r, w') ->
  backup_dir w' = backup_dir w /\ sent w' = sent w /\
  (forall name, name <> MergeData.OUTPUT_FILE -> data_entry w' name = data_entry w name) /\
  (forall f, r = inl f -> (forall msg, f <> MergeData.PandasError msg) -> w' = w) /\
  (r = inr tt -> exists b, data_entry w' MergeData.OUTPUT_FILE = Some (File b)) /\
  (data_entry w MergeData.DSMI_FILE = None ->
     exists msg, r = inl (MergeData.InputNotFound msg)) /\
  (data_entry w MergeData.LSLR_FILE = None ->
     exists msg, r = inl (MergeData.InputNotFound msg)).
Proof.
  unfold MergeData.main, path_exists. intros H.
  destruct (data_entry w MergeData.DSMI_FILE) as [n1|] eqn:E1; simpl in H.
  2: { inversion H; subst. repeat split; eauto; try discriminate. }
  destruct (data_entry w MergeData.LSLR_FILE) as [n2|] eqn:E2; simpl in H.
  2: { inversion H; subst. repeat split; eauto; try discriminate. }
  destruct (MergeData.load_dsmi P w _) as [f|dsmi].
  { inversion H; subst. repeat split; eauto; try discriminate. }
  destruct (MergeData.load_lslr P w _) as [f|lslr].
  { inversion H; subst. repeat split; eauto; try discriminate. }
  destruct (MergeData.merge_on_pwsid P dsmi lslr) as [msg|merged].
  { inversion H; subst. repeat split; eauto; try discriminate. }
  destruct (MergeData.to_excel P merged) as [bytes|msg [part|]].
  3: { inversion H; subst. repeat split; eauto; try discriminate. }
  all: destruct (data_dir w) as [d|] eqn:Ed;
    [|inversion H; subst; repeat split; eauto; try discriminate].
  all: destruct (d !! MergeData.OUTPUT_FILE) as [[c|sub]|] eqn:Eo; inversion H; subst.
  all: try (repeat split; eauto; discriminate).
  all: split; [done|]; split; [done|]; split;
    [intros name Hne; unfold data_entry; simpl; rewrite Ed; simpl;
     by rewrite lookup_insert_ne|].
  all: split; [intros f Hf Hp; inversion Hf; subst; try discriminate; by destruct (Hp msg)|].
  all: split; [intros Hr; try discriminate; eexists; unfold data_entry; simpl;
               by rewrite lookup_insert_eq|].
  all: split; discriminate.
Qed.

(** X17. After a run of [fetch_data.py] that exits with status 0, the merge
    script finds its two inputs: it does not stop at either of its checks
    for a missing file. *)
Theorem merge_finds_inputs_after_successful_fetch
    (L : PyLibs) (server : nat -> request -> reply) (now : string) w w' :
  main L server now w = (Ok tt, w') ->
  MergeData.finds_inputs (MergeData.main P DATA_DIR w').1.
Proof.
  intros Hmain msg.
  destruct (fetched_files_after_successful_run L server now w w' Hmain
              MergeData.DSMI_FILE ltac:(simpl; auto)) as [b1 H1].
  destruct (fetched_files_after_successful_run L server now w w' Hmain
              MergeData.LSLR_FILE ltac:(simpl; auto)) as [b2 H2].
  unfold MergeData.main, MergeData.load_dsmi, MergeData.load_lslr, MergeData.read_sheet,
    path_exists.
  rewrite H1, H2. simpl.
  destruct (MergeData.read_excel P b1 MergeData.HEADER_ROW); [cbn; congruence|].
  destruct (MergeData.read_excel P b2 MergeData.HEADER_ROW); [cbn; congruence|].
  repeat match goal with
         | |- context [match ?x with _ => _ end] => destruct x
         end; cbn; congruence.
Qed.

End Merge.

(** ** Examples for the further properties *)

Lemma detect_records_witness :
  let det := detect_data_changes Sample.libs Sample.now0 Sample.world0 in
  (Sample.ok_of ([], []) det.1).1 =
    [("sources", JObj (sources_of Sample.libs Sample.world0));
     ("last_check", JStr Sample.now0)].
Proof.
  set (det := detect_data_changes Sample.libs Sample.now0 Sample.world0). cbn zeta.
  apply (proj1 (detect_records_every_source
                  Sample.libs Sample.now0 Sample.world0
                  (Sample.ok_of ([], []) det.1).1 (Sample.ok_of ([], []) det.1).2 det.2
                  ltac:(vm_compute; reflexivity))).
Defined.

Lemma detect_only_reads_witness :
  data_dir (detect_data_changes Sample.libs Sample.now0 Sample.world0).2 =
  data_dir Sample.world0.
Proof.
  set (det := detect_data_changes Sample.libs Sample.now0 Sample.world0).
  apply (proj1 (detect_data_changes_only_reads
                  Sample.libs Sample.now0 Sample.world0 det.1 det.2
                  ltac:(vm_compute; reflexivity))).
Defined.

Lemma first_run_witness :
  exists st,
    detect_data_changes Sample.libs Sample.now0
      (World (Some {[ Sample.dsmi_file := File "bytes" ]}) None []) =
    (Ok (st, []), World (Some {[ Sample.dsmi_file := File "bytes" ]}) None []).
Proof.
  apply first_run_reports_no_change.
  - vm_compute. reflexivity.
  - intros f Hin. simpl in Hin. destruct Hin as [<-|[<-|[<-|[]]]]; vm_compute; reflexivity.
Defined.

Lemma save_then_load_witness :
  exists w1,
    save_data_state Sample.libs (JObj []) (World (Some ∅) None []) = (Ok tt, w1) /\
    load_data_state Sample.libs w1 = (Ok (JObj []), w1).
Proof.
  destruct (save_then_load_round_trip Sample.libs (JObj []) (World (Some ∅) None []) ∅
              ltac:(reflexivity) ltac:(vm_compute; reflexivity) ltac:(vm_compute; reflexivity))
    as (w1 & Hs & Hl & _).
  eauto.
Defined.

Lemma failed_fetch_witness :
  data_dir (fetch_dsmi_inventories Sample.libs Sample.server_down Sample.world0).2 =
  data_dir Sample.world0.
Proof.
  set (run := fetch_dsmi_inventories Sample.libs Sample.server_down Sample.world0).
  apply (proj1 (failed_fetch_writes_nothing
                  Sample.libs Sample.server_down
                  (fetch_dsmi_inventories Sample.libs Sample.server_down)
                  Sample.world0 (RequestException "Connection refused") run.2
                  ltac:(simpl; auto) ltac:(vm_compute; reflexivity))).
Defined.

Lemma six_requests_witness :
  exists rest,
    sent (main Sample.libs Sample.server_up Sample.now0 Sample.world0).2 =
      count_request :: rest /\ length rest = 5%nat.
Proof.
  set (run := main Sample.libs Sample.server_up Sample.now0 Sample.world0).
  destruct (run_sends_at_most_six_requests
              Sample.libs Sample.server_up Sample.now0 Sample.world0 run.1 run.2
              ltac:(vm_compute; reflexivity)) as (rest & Hs & Hl & _).
  exists rest. split; [exact Hs|].
  assert (Hlen : length (sent run.2) = 6%nat) by (vm_compute; reflexivity).
  rewrite Hs in Hlen. simpl in Hlen. lia.
Defined.

Lemma fetch_errors_witness :
  (length (Sample.ok_of [] (fetch_all Sample.libs Sample.server_500 (start Sample.world0)).1) <= 3)%nat.
Proof.
  set (run := fetch_all Sample.libs Sample.server_500 (start Sample.world0)).
  destruct (fetch_errors_one_per_source_in_order
              Sample.libs Sample.server_500 (start Sample.world0)
              (Sample.ok_of [] run.1) run.2 ltac:(vm_compute; reflexivity))
    as (f1 & f2 & f3 & _ & Hl).
  exact Hl.
Defined.

Lemma successful_run_witness :
  exists b, data_entry MoreSample.first_run.2 "2024-2025-LSLR-Data.xlsx" = Some (File b).
Proof.
  apply (successful_run_leaves_every_source_file
           Sample.libs Sample.server_up Sample.now0 (World None None []) MoreSample.first_run.2).
  - vm_compute. reflexivity.
  - simpl. auto.
Defined.

Lemma run_touches_witness :
  data_entry (main Sample.libs Sample.server_up Sample.now0 Sample.world0).2 "archive" =
  Some (Dir {[ "2023.xlsx" := File "x" ]}).
Proof.
  set (run := main Sample.libs Sample.server_up Sample.now0 Sample.world0).
  apply (proj2 (proj2 (run_touches_only_source_files_and_state_file
                         Sample.libs Sample.server_up Sample.now0 Sample.world0 run.1 run.2
                         ltac:(vm_compute; reflexivity)))).
  vm_compute. reflexivity.
Defined.

Lemma saved_state_witness :
  exists changes errs,
    data_entry MoreSample.first_run.2 DATA_STATE_FILE =
      Some (File (Sample.show (JObj (saved_state Sample.now0
                                       (sources_of Sample.libs MoreSample.first_run.2)
                                       changes errs)))).
Proof.
  apply (saved_state_describes_final_directory
           Sample.libs Sample.server_up Sample.now0 (World None None [])
           MoreSample.first_run.1 MoreSample.first_run.2).
  - vm_compute. reflexivity.
  - left. vm_compute. reflexivity.
Defined.

Lemma unchanged_upstream_witness :
  let run := main MoreSample.libs Sample.server_up "2026-01-02T00:00:00" MoreSample.second_world in
  run.1 = Ok tt /\ backup_dir run.2 = None.
Proof.
  set (run := main MoreSample.libs Sample.server_up "2026-01-02T00:00:00" MoreSample.second_world).
  set (fetched := fetch_all MoreSample.libs Sample.server_up (start MoreSample.second_world)).
  cbn zeta.
  destruct (unchanged_upstream_run_reports_no_change
              MoreSample.libs Sample.server_up "2026-01-02T00:00:00"
              MoreSample.second_world Sample.now0 [] [] fetched.2 run.1 run.2)
    as (Hr & Hb & _).
  - vm_compute. reflexivity.
  - vm_compute. reflexivity.
  - vm_compute. reflexivity.
  - intros f Hin. simpl in Hin. destruct Hin as [<-|[<-|[<-|[]]]]; vm_compute; reflexivity.
  - vm_compute. reflexivity.
  - done.
Defined.

Lemma is_xlsx_href_witness :
  _is_xlsx_href Sample.libs "/files/LSLR.XLSX?rev=2" = Ok true.
Proof.
  apply (proj1 (is_xlsx_href_iff Sample.libs "/files/LSLR.XLSX?rev=2")).
  exists "/files/LSLR", ".XLSX". split; vm_compute; reflexivity.
Defined.

Lemma empty_count_witness :
  sent (fetch_socrata_api Sample.libs MoreSample.server_empty_count (World None None [])).2 =
  [count_request; Request (socrata_url +:+ "?$limit=0") [] 30].
Proof.
  set (run := fetch_socrata_api Sample.libs MoreSample.server_empty_count (World None None [])).
  apply (empty_count_answer_requests_limit_zero
           Sample.libs MoreSample.server_empty_count (World None None [])
           (Response 200 "" "" (inr (JArr []))) (JArr []) run.1 run.2).
  - vm_compute. reflexivity.
  - reflexivity.
  - reflexivity.
  - reflexivity.
  - vm_compute. reflexivity.
Defined.

Lemma records_without_length_witness :
  (main Sample.libs MoreSample.server_null_records Sample.now0 Sample.world0).1 =
  Raise TypeError.
Proof.
  set (api := fetch_socrata_api Sample.libs MoreSample.server_null_records (start Sample.world0)).
  rewrite (proj1 (records_without_length_abort_the_run
                    Sample.libs MoreSample.server_null_records Sample.now0 Sample.world0
                    JNull api.2 ltac:(vm_compute; reflexivity) ltac:(reflexivity))).
  reflexivity.
Defined.

Lemma merge_writes_witness :
  let run := MergeData.main MoreSample.pandas "../data" MoreSample.first_run.2 in
  run.1 = inr tt /\
  data_entry run.2 MergeData.OUTPUT_FILE = Some (File "dsmi-bytes+lslr-bytes") /\
  data_entry run.2 MergeData.DSMI_FILE = data_entry MoreSample.first_run.2 MergeData.DSMI_FILE.
Proof.
  set (run := MergeData.main MoreSample.pandas "../data" MoreSample.first_run.2). cbn zeta.
  destruct (merge_writes_only_its_output MoreSample.pandas "../data"
              MoreSample.first_run.2 run.1 run.2 ltac:(vm_compute; reflexivity))
    as (_ & _ & Hother & _).
  split; [vm_compute; reflexivity|]. split; [vm_compute; reflexivity|].
  apply Hother. discriminate.
Defined.

Lemma merge_finds_inputs_witness :
  MergeData.finds_inputs (MergeData.main MoreSample.pandas "../data" MoreSample.first_run.2).1.
Proof.
  apply (merge_finds_inputs_after_successful_fetch
           MoreSample.pandas "../data" Sample.libs Sample.server_up Sample.now0
           (World None None []) MoreSample.first_run.2).
  vm_compute. reflexivity.
Defined.
